(** * Traveler App (AWS front-end, [app_32.py]): request assembly and export

    A shallow embedding of the request/assembly logic of [app_32.py]:
    the measurement loader, the custom-range resolver, the call to the
    remote query service, and [render_unified_export].

    Python objects that the program shares and mutates (pandas data
    frames) live in an explicit store, Streamlit calls and the HTTP
    request are recorded as a trace of events, and [st.stop()] and
    exceptions are outcomes of a small monad. The remote service, the
    storage service and the two pandas calls of the export
    ([pd.to_datetime] and [to_excel] on the xlsxwriter engine) are
    parameters: each may raise, and what [pd.to_datetime] makes of a cell
    may depend on the whole column. *)

From Stdlib Require Import QArith Ascii.
From stdpp Require Import base strings list gmap pretty.

Close Scope Q_scope.
Open Scope string_scope.

(** ** Strings *)

(** [str.lower()] on ASCII text: the asset ids of the selector are ASCII. *)
Definition ascii_lower (c : ascii) : ascii :=
  let n := Ascii.nat_of_ascii c in
  if (65 <=? n)%nat && (n <=? 90)%nat then Ascii.ascii_of_nat (n + 32) else c.

Fixpoint lower (s : string) : string :=
  match s with
  | EmptyString => EmptyString
  | String c s' => String (ascii_lower c) (lower s')
  end.

(** [s.replace(a, b)] for one-character [a] and [b]. *)
Fixpoint replace_char (a b : ascii) (s : string) : string :=
  match s with
  | EmptyString => EmptyString
  | String c s' =>
      String (if Ascii.eqb c a then b else c) (replace_char a b s')
  end.

(** [s[:n]] *)
Fixpoint str_take (n : nat) (s : string) : string :=
  match n, s with
  | S n', String c s' => String c (str_take n' s')
  | _, _ => EmptyString
  end.

(** Zero padding on the left to width [k], as [strftime] pads a numeric
    field. *)
Definition zfill (k : nat) (s : string) : string :=
  String.string_of_list_ascii (replicate (k - String.length s) "0"%char) +:+ s.

(** ** Report time and [strftime] *)

Record datetime := mk_datetime {
  year : nat; month : nat; day : nat; hour : nat; minute : nat
}.

(** [%b] in the C locale. *)
Definition month_abbr (m : nat) : string :=
  nth (m - 1)
    ["Jan"; "Feb"; "Mar"; "Apr"; "May"; "Jun";
     "Jul"; "Aug"; "Sep"; "Oct"; "Nov"; "Dec"] "".

(** [t.strftime("%d-%b-%y_%H-%M")] *)
Definition strftime_export (t : datetime) : string :=
  zfill 2 (pretty (day t)) +:+ "-" +:+ month_abbr (month t) +:+ "-" +:+
  zfill 2 (pretty (year t mod 100)) +:+ "_" +:+
  zfill 2 (pretty (hour t)) +:+ "-" +:+ zfill 2 (pretty (minute t)).

(** [t.strftime('%Y-%m-%d')] *)
Definition strftime_date (t : datetime) : string :=
  zfill 4 (pretty (year t)) +:+ "-" +:+ zfill 2 (pretty (month t)) +:+ "-" +:+
  zfill 2 (pretty (day t)).

(** The ranges Python's [datetime] keeps the month, day, hour and minute
    in. *)
Definition valid_datetime (t : datetime) : Prop :=
  (1 ≤ month t ≤ 12 ∧ 1 ≤ day t ≤ 31 ∧ hour t < 24 ∧ minute t < 60)%nat.

(** Text made of ASCII characters only. *)
Definition ascii_text (s : string) : Prop :=
  Forall (λ c, (Ascii.nat_of_ascii c < 128)%nat) (String.list_ascii_of_string s).

(** The file name as the specification words it: the report time as a
    two-digit day, the month's three-letter abbreviation, a two-digit
    year, and two-digit hour and minute, after the lowercased asset id
    when there is one. The lowercase form of a capital letter is read off
    the two alphabets, the abbreviation of a month off the calendar, and a
    digit off its character code. *)
Definition capital_letters : string := "ABCDEFGHIJKLMNOPQRSTUVWXYZ".
Definition small_letters : string := "abcdefghijklmnopqrstuvwxyz".

Fixpoint spec_lowercase_letter (c : ascii) (capitals smalls : string) : ascii :=
  match capitals, smalls with
  | String a capitals', String b smalls' =>
      if Ascii.eqb c a then b else spec_lowercase_letter c capitals' smalls'
  | _, _ => c
  end.

Fixpoint spec_lowercased (s : string) : string :=
  match s with
  | EmptyString => EmptyString
  | String c s' =>
      String (spec_lowercase_letter c capital_letters small_letters)
             (spec_lowercased s')
  end.

Definition spec_month_name (m : nat) : string :=
  match m with
  | 1 => "Jan" | 2 => "Feb" | 3 => "Mar" | 4 => "Apr" | 5 => "May"
  | 6 => "Jun" | 7 => "Jul" | 8 => "Aug" | 9 => "Sep" | 10 => "Oct"
  | 11 => "Nov" | 12 => "Dec"
  | _ => ""
  end.

Definition digit (d : nat) : ascii := Ascii.ascii_of_nat (48 + d).

Definition two_digits (n : nat) : string :=
  String (digit (n / 10)) (String (digit (n mod 10)) EmptyString).

Definition spec_time_stamp (t : datetime) : string :=
  two_digits (day t) +:+ "-" +:+ spec_month_name (month t) +:+ "-" +:+
  two_digits (year t mod 100) +:+ "_" +:+
  two_digits (hour t) +:+ "-" +:+ two_digits (minute t).

Definition spec_file_name (asset_id : string) (t : datetime) : string :=
  (if decide (asset_id = "") then "" else spec_lowercased asset_id +:+ "_") +:+
  "traveler_report_" +:+ spec_time_stamp t +:+ ".xlsx".

(** ** Effects

    A computation runs on a world [W] (the object store and the trace of
    calls made so far) and ends in one of three ways: it returns, it calls
    [st.stop()], or it raises a Python exception. *)

Inductive outcome (A : Type) : Type :=
| Done (a : A)
| Stopped
| Raised (exc : string).
Arguments Done {A} a.
Arguments Stopped {A}.
Arguments Raised {A} exc.

Definition M (W A : Type) : Type := W → outcome A * W.

Definition M_ret {W A} (a : A) : M W A := λ w, (Done a, w).

Definition M_bind {W A B} (f : A → M W B) (m : M W A) : M W B :=
  λ w, match m w with
       | (Done a, w') => f a w'
       | (Stopped, w') => (Stopped, w')
       | (Raised e, w') => (Raised e, w')
       end.

Global Instance M_mret {W} : MRet (M W) := λ A, M_ret.
Global Instance M_mbind {W} : MBind (M W) := λ A B, M_bind.

(** [raise Exception(e)] *)
Definition raise {W A} (e : string) : M W A := λ w, (Raised e, w).

(** [st.stop()] *)
Definition st_stop {W A} : M W A := λ w, (Stopped, w).

(** [try: body  except Exception as e: handler(str(e))] *)
Definition try_except {W A} (body : M W A) (handler : string → M W A) : M W A :=
  λ w, match body w with
       | (Raised e, w') => handler e w'
       | r => r
       end.

(** ** Data frames *)

(** Scalars as they come from the spreadsheet reader and from the JSON
    reply, timestamps (with or without a time zone), and the library
    functions applied to them. *)
Class Runtime := {
  value : Type;
  timestamp : Type;
  (** [str(v)] of a scalar and of a timestamp *)
  str_value : value → string;
  str_timestamp : timestamp → string;
  (** a Python [str] as a scalar *)
  value_of_str : string → value
}.

Section Frames.
Context {rt : Runtime}.

Inductive cell : Type :=
| Val (v : value)
| NaN
| Time (t : timestamp)
| NaT.

(** [str(c)], as an f-string formats a cell. *)
Definition str_cell (c : cell) : string :=
  match c with
  | Val v => str_value v
  | NaN => "nan"
  | Time t => str_timestamp t
  | NaT => "NaT"
  end.

(** A frame is its column labels and its rows; the index is positional. *)
Record DataFrame := mk_df {
  columns : list string;
  rows : list (list cell)
}.

(** [len(df)] *)
Definition df_len (df : DataFrame) : nat := length (rows df).

(** [df.empty]: some axis has length 0. *)
Definition df_empty (df : DataFrame) : bool :=
  match columns df, rows df with
  | [], _ => true
  | _, [] => true
  | _, _ => false
  end.

(** [name in df.columns] *)
Definition has_column (name : string) (df : DataFrame) : bool :=
  bool_decide (name ∈ columns df).

(** [df.columns.get_loc(name)] *)
Fixpoint get_loc (name : string) (cols : list string) : option nat :=
  match cols with
  | [] => None
  | c :: cols' => if String.eqb c name then Some 0 else S <$> get_loc name cols'
  end.

(** A JSON object is a list of key/value pairs in the order received. *)
Definition record : Type := list (string * value).

Fixpoint record_get (key : string) (r : record) : option value :=
  match r with
  | [] => None
  | (k, v) :: r' => if String.eqb k key then Some v else record_get key r'
  end.

(** Column labels of [pd.DataFrame(data)]: the keys of the records in
    order of first appearance. *)
Fixpoint add_keys (seen : list string) (keys : list string) : list string :=
  match keys with
  | [] => seen
  | k :: keys' =>
      add_keys (if bool_decide (k ∈ seen) then seen else seen ++ [k]) keys'
  end.

Definition frame_columns (data : list record) : list string :=
  foldl (λ seen r, add_keys seen r.*1) [] data.

(** [pd.DataFrame(data)] for a list of records: a key a record lacks
    gives NaN. *)
Definition frame_of_records (data : list record) : DataFrame :=
  let cols := frame_columns data in
  mk_df cols
    (map (λ r, map (λ c, from_option Val NaN (record_get c r)) cols) data).

(** Cells of a row kept by [drop(columns=names)]. *)
Fixpoint drop_cells {A} (names cols : list string) (r : list A) : list A :=
  match cols, r with
  | c :: cols', x :: r' =>
      if bool_decide (c ∈ names) then drop_cells names cols' r'
      else x :: drop_cells names cols' r'
  | _, _ => []
  end.

(** [df.drop(columns=names, errors="ignore")] (the new frame's content). *)
Definition drop_columns (names : list string) (df : DataFrame) : DataFrame :=
  mk_df (filter (λ c, c ∉ names) (columns df))
        (map (drop_cells names (columns df)) (rows df)).

(** [df[name]]: the column's cells, top to bottom. *)
Definition get_column (name : string) (df : DataFrame) : option (list cell) :=
  i ← get_loc name (columns df);
  Some (map (λ r, nth i r NaN) (rows df)).

(** [df[name] = vals]: an existing column is replaced in place, a new one
    is added as the last column. *)
Definition set_column (name : string) (vals : list cell) (df : DataFrame)
  : DataFrame :=
  match get_loc name (columns df) with
  | Some i => mk_df (columns df) (zip_with (λ r v, <[i := v]> r) (rows df) vals)
  | None => mk_df (columns df ++ [name])
                  (zip_with (λ r v, (r ++ [v])%list) (rows df) vals)
  end.

(** A row as [iterrows] yields it: a Series whose index is the frame's
    column labels. *)
Definition Series : Type := list (string * cell).

Definition iterrows (df : DataFrame) : list Series :=
  map (λ r, zip (columns df) r) (rows df).

(** [row.index] *)
Definition series_index (row : Series) : list string := row.*1.

(** [row[label]] *)
Fixpoint series_get (label : string) (row : Series) : option cell :=
  match row with
  | [] => None
  | (k, c) :: row' => if String.eqb k label then Some c else series_get label row'
  end.

End Frames.

(** ** The outgoing request and the reply *)

Section Request.
Context {rt : Runtime}.

(** One entry of the [measurements] list. *)
Record measurement := mk_measurement {
  M_value : cell;
  M_name : cell
}.

(** One entry of the [custom_ranges] dict. *)
Record range_entry := mk_range {
  enabled : bool;
  range_value : Q
}.

(** The JSON body built by [query_aws_api]. *)
Record payload := mk_payload {
  p_asset_id : string;
  p_timeframes : list string;
  p_report_date : string;
  p_scope_days : Z;
  p_custom_ranges : gmap string range_entry;
  p_measurements : list measurement
}.

(** The object [response.json()] returns; a key may be missing. *)
Record api_result := mk_api_result {
  r_data : option (list record);
  r_count : option Z;
  r_hlc_records_processed : option Z
}.

(** What [requests.post] does: it raises, or it returns a response with
    a status code, a body text, and a body that parses as JSON or does
    not. *)
Inductive http_reply : Type :=
| PostRaises (e : string)
| Response (status_code : Z) (text : string) (json : string + api_result).

(** What one turn of the export loop writes into a worksheet: the cells
    [to_excel] wrote (without the index), the header cells rewritten with
    the header format, and the column given the date format and width
    18. *)
Record sheet := mk_sheet {
  sheet_table : DataFrame;
  sheet_header : list (nat * string);
  sheet_date_col : option nat
}.

(** A worksheet of the workbook: its name and what was written into it,
    oldest first. A worksheet that is written into again keeps its
    place in the workbook. *)
Record worksheet := mk_worksheet {
  ws_name : string;
  ws_written : list sheet
}.

(** Calls that leave the program: Streamlit output and the HTTP request. *)
Inductive event : Type :=
| st_markdown (body : string)
| st_error (body : string)
| st_info (body : string)
| st_success (body : string)
| st_warning (body : string)
| st_metric (label val : string)
| st_dataframe (df : DataFrame)
| st_download_button (label : string) (data : list worksheet)
                     (file_name mime help : string)
| requests_post (url : string) (json : payload) (timeout : nat).

(** The object store ([store w !! l] is the frame at reference [l]) and
    the calls made so far, oldest first. *)
Record world := mk_world {
  store : list DataFrame;
  trace : list event
}.

Definition loc : Type := nat.

Definition emit (e : event) : M world unit :=
  λ w, (Done tt, mk_world (store w) (trace w ++ [e])).

(** A new frame object. *)
Definition alloc (df : DataFrame) : M world loc :=
  λ w, (Done (length (store w)), mk_world (store w ++ [df]) (trace w)).

Definition load (l : loc) : M world DataFrame :=
  λ w, match store w !! l with
       | Some df => (Done df, w)
       | None => (Raised "ReferenceError", w)
       end.

(** In-place update of the frame object at [l]. *)
Definition assign (l : loc) (df : DataFrame) : M world unit :=
  λ w, (Done tt, mk_world (<[l := df]> (store w)) (trace w)).

(** [df.copy()] *)
Definition df_copy (l : loc) : M world loc :=
  df ← load l; alloc df.

(** [df.drop(columns=names, errors="ignore")]: a new frame. *)
Definition df_drop (l : loc) (names : list string) : M world loc :=
  df ← load l; alloc (drop_columns names df).

(** [df[name]] *)
Definition df_getitem (l : loc) (name : string) : M world (list cell) :=
  df ← load l;
  match get_column name df with
  | Some col => mret col
  | None => raise "KeyError"
  end.

(** [df[name] = vals] *)
Definition df_setitem (l : loc) (name : string) (vals : list cell)
  : M world unit :=
  df ← load l; assign l (set_column name vals df).

End Request.

(** ** [render_unified_export] *)

(** pandas as the export sees it.

    [pd.to_datetime(col, errors="coerce")] reads the column as a whole (the
    format it expects is taken from the column, so what becomes of one cell
    depends on the others): it raises, or it returns a column of the same
    index in which every position holds a timestamp or NaT. The flag tells
    the call with [infer_datetime_format=True] from the one without.

    [df.to_excel(writer, sheet_name=name, index=False)] followed by
    [writer.sheets[name]] raises or does not, depending on the worksheets
    the workbook has so far, on the name and on the frame (the xlsxwriter
    engine refuses some names and some cells, timestamps with a time zone
    among them). *)
Class Pandas {rt : Runtime} := {
  to_datetime_error : bool → list cell → option string;
  to_datetime_value : bool → list cell → nat → option timestamp;
  to_excel_error : list worksheet → string → DataFrame → option string
}.

Section ExportModel.
Context {rt : Runtime} {pd : Pandas}.

(** A value of the [traveler_reports] dict: a reference to a data frame,
    or some other object. *)
Inductive pyobj : Type :=
| Frame (l : loc)
| NotAFrame.

(** The dict in iteration order. *)
Definition reports : Type := list (string * pyobj).

(** [f"{asset_id.lower()}_" if asset_id else ""] *)
Definition asset_prefix (asset_id : string) : string :=
  match asset_id with
  | EmptyString => ""
  | _ => lower asset_id +:+ "_"
  end.

(** [f"{asset_prefix}traveler_report_{report_datetime_str}.xlsx"] *)
Definition export_file_name (asset_id : string) (report_time : datetime)
  : string :=
  asset_prefix asset_id +:+ "traveler_report_" +:+
  strftime_export report_time +:+ ".xlsx".

(** The column [pd.to_datetime] returns when it does not raise. *)
Definition converted (infer_datetime_format : bool) (col : list cell)
  : list cell :=
  imap (λ i _, from_option Time NaT
                 (to_datetime_value infer_datetime_format col i)) col.

(** [pd.to_datetime(col, errors="coerce")], and with the flag
    [pd.to_datetime(col, errors="coerce", infer_datetime_format=True)]. *)
Definition pd_to_datetime (col : list cell) (infer_datetime_format : bool)
  : M world (list cell) :=
  match to_datetime_error infer_datetime_format col with
  | Some e => raise e
  | None => mret (converted infer_datetime_format col)
  end.

(** The nested helper: it works on [df.copy()] and returns that copy. *)
Definition _coerce_arrival_datetime (df : loc) : M world loc :=
  df ← df_copy df;
  cur ← load df;
  (if has_column "Arrival_datetime" cur then
     col ← df_getitem df "Arrival_datetime";
     arrival ← pd_to_datetime col false;
     df_setitem df "Arrival" arrival
   else if has_column "Arrival" cur then
     col ← df_getitem df "Arrival";
     arrival ← pd_to_datetime col true;
     df_setitem df "Arrival" arrival
   else mret tt);;
  mret df.

(** [group_name.replace(" ", "_").replace("-", "_")[:31]] *)
Definition sheet_name_of (group_name : string) : string :=
  str_take 31 (replace_char "-" "_" (replace_char " " "_" group_name)).

(** Where [to_excel] puts its cells: in the worksheet of that name when
    the workbook has one, and in a new last worksheet otherwise. *)
Fixpoint write_sheet (sheet_name : string) (s : sheet) (book : list worksheet)
  : list worksheet :=
  match book with
  | [] => [mk_worksheet sheet_name [s]]
  | ws :: book' =>
      if String.eqb (ws_name ws) sheet_name
      then mk_worksheet (ws_name ws) (ws_written ws ++ [s])%list :: book'
      else ws :: write_sheet sheet_name s book'
  end.

(** [export_data.to_excel(writer, sheet_name=sheet_name, index=False)] and
    [ws = writer.sheets[sheet_name]]: an exception here leaves the loop
    and the function. *)
Definition to_excel (writer : list worksheet) (export_data : DataFrame)
    (sheet_name : string) : M world unit :=
  match to_excel_error writer sheet_name export_data with
  | Some e => raise e
  | None => mret tt
  end.

(** One turn of the loop over [traveler_reports.items()]; [writer] is
    the workbook so far. *)
Definition export_group (writer : list worksheet) (item : string * pyobj)
  : M world (list worksheet) :=
  let '(group_name, group_data) := item in
  match group_data with
  | NotAFrame => mret writer
  | Frame l =>
      g ← load l;
      if df_empty g then mret writer
      else
        let sheet_name := sheet_name_of group_name in
        export_data ← df_drop l ["Group"];
        export_data ← df_copy export_data;
        export_data ← _coerce_arrival_datetime export_data;
        written ← load export_data;
        to_excel writer written sheet_name;;
        mret (write_sheet sheet_name
                (mk_sheet written
                   (imap (λ c name, (c, name)) (columns written))
                   (get_loc "Arrival" (columns written)))
                writer)
  end.

Fixpoint export_groups (writer : list worksheet) (items : reports)
  : M world (list worksheet) :=
  match items with
  | [] => mret writer
  | item :: items' =>
      writer ← export_group writer item;
      export_groups writer items'
  end.

(** [sum(len(df) for df in traveler_reports.values()
         if isinstance(df, pd.DataFrame))] *)
Fixpoint total_entries (items : reports) : M world nat :=
  match items with
  | [] => mret 0
  | (_, Frame l) :: items' =>
      df ← load l; n ← total_entries items'; mret (df_len df + n)
  | (_, NotAFrame) :: items' => total_entries items'
  end.

(** [sum(1 for v in traveler_reports.values()
         if isinstance(v, pd.DataFrame) and not v.empty)] *)
Fixpoint num_groups (items : reports) : M world nat :=
  match items with
  | [] => mret 0
  | (_, Frame l) :: items' =>
      v ← load l; n ← num_groups items';
      mret ((if df_empty v then 0 else 1) + n)
  | (_, NotAFrame) :: items' => num_groups items'
  end.

Definition xlsx_mime : string :=
  "application/vnd.openxmlformats-officedocument.spreadsheetml.sheet".

(** Leaving the [with] block closes the writer: xlsxwriter gives a workbook
    without worksheets one empty worksheet, [Sheet1], when it saves it. *)
Definition close_workbook (book : list worksheet) : list worksheet :=
  match book with
  | [] => [mk_worksheet "Sheet1" []]
  | _ => book
  end.

Definition render_unified_export
    (traveler_reports : reports) (report_time : datetime) (asset_id : string)
  : M world unit :=
  match traveler_reports with
  | [] => mret tt
  | _ =>
      emit (st_markdown "---");;
      emit (st_markdown "### 📥 Unified Excel Download");;
      workbook ← export_groups [] traveler_reports;
      let excel_buffer := close_workbook workbook in
      total ← total_entries traveler_reports;
      groups ← num_groups traveler_reports;
      emit (st_download_button "📥 Download Excel Report" excel_buffer
              (export_file_name asset_id report_time) xlsx_mime
              ("Excel file contains " +:+ pretty groups +:+ " sheets with " +:+
               pretty total +:+ " total entries"))
  end.

End ExportModel.

(** ** The "Run AWS Query" handler *)

(** The remote service as the program sees it, and the elapsed wall-clock
    time as Python formats it (["{:.2f}"], ["{:.1f}"], and the speed-up
    figure). *)
Class Service {rt : Runtime} := {
  post_reply : payload → http_reply;
  elapsed_2f : string;
  elapsed_1f : string;
  speedup_1f : string
}.

Section Query.
Context {rt : Runtime} {pd : Pandas} {svc : Service}.

Definition API_ENDPOINT : string :=
  "https://5c9t51huga.execute-api.us-east-2.amazonaws.com/prod/query".

(** The uploaded measurement file, as [pd.read_excel] finds it. *)
Inductive upload : Type :=
| Unreadable (e : string)
| Workbook (first_sheet : DataFrame).

(** The widget values at the moment the button is pressed. The centers
    typed into the number inputs are taken as rationals. *)
Record submission := mk_submission {
  asset_id : string;
  measurement_file : option upload;
  report_time : datetime;
  use_high1 : bool; high1_input : Q;
  use_high2 : bool; high2_input : Q;
  use_low1 : bool; low1_input : Q;
  use_low2 : bool; low2_input : Q;
  scope_days : Z;
  timeframes : list string
}.

(** [st.number_input(...) if use else 0.0] *)
Definition high1 (s : submission) : Q := if use_high1 s then high1_input s else 0%Q.
Definition high2 (s : submission) : Q := if use_high2 s then high2_input s else 0%Q.
Definition low1 (s : submission) : Q := if use_low1 s then low1_input s else 0%Q.
Definition low2 (s : submission) : Q := if use_low2 s then low2_input s else 0%Q.

(** [x > 0] *)
Definition gt0 (x : Q) : bool := negb (Qle_bool x 0).

(** [next((c for c in candidates if c in index), None)] *)
Definition next_in (candidates index : list string) : option string :=
  List.find (λ c, bool_decide (c ∈ index)) candidates.

Definition value_spellings : list string :=
  ["M value"; "M Value"; "M_Value"; "m_value"].
Definition name_spellings : list string :=
  ["M Name"; "M name"; "M_name"; "m_name"].

(** Truth value of [None] or a string. *)
Definition truthy (o : option string) : bool :=
  match o with
  | Some (String _ _) => true
  | _ => false
  end.

(** [row[label]] when [label] may be [None]. *)
Definition row_getitem (row : Series) (label : option string) : M world cell :=
  match label ≫= λ l, series_get l row with
  | Some c => mret c
  | None => raise "KeyError"
  end.

(** The body of the loop over [measurements_df.iterrows()]. *)
Definition add_measurement (measurements : list measurement) (row : Series)
  : M world (list measurement) :=
  let m_val_col := next_in value_spellings (series_index row) in
  let m_name_col := next_in name_spellings (series_index row) in
  if truthy m_val_col then
    m_value ← row_getitem row m_val_col;
    m_name ← (if truthy m_name_col then row_getitem row m_name_col
              else
                v ← row_getitem row m_val_col;
                mret (Val (value_of_str ("M" +:+ str_cell v))));
    mret (measurements ++ [mk_measurement m_value m_name])%list
  else mret measurements.

Fixpoint add_measurements (measurements : list measurement) (rows : list Series)
  : M world (list measurement) :=
  match rows with
  | [] => mret measurements
  | row :: rows' =>
      measurements ← add_measurement measurements row;
      add_measurements measurements rows'
  end.

(** [pd.read_excel(measurement_file, sheet_name=0)] *)
Definition pd_read_excel (file : upload) : M world DataFrame :=
  match file with
  | Unreadable e => raise e
  | Workbook df => mret df
  end.

(** The [try] block that loads the measurements. *)
Definition load_measurements (file : upload) : M world (list measurement) :=
  try_except
    (measurements_df ← pd_read_excel file;
     measurements ← add_measurements [] (iterrows measurements_df);
     emit (st_info ("Loaded " +:+ pretty (length measurements) +:+
                    " measurements"));;
     mret measurements)
    (λ e, emit (st_error ("Error loading measurements: " +:+ e));; st_stop).

(** The [custom_ranges] dict. *)
Definition build_custom_ranges (s : submission) : gmap string range_entry :=
  let custom_ranges : gmap string range_entry := ∅ in
  let custom_ranges :=
    if use_high1 s && gt0 (high1 s)
    then <["High 1" := mk_range true (high1 s)]> custom_ranges
    else custom_ranges in
  let custom_ranges :=
    if use_high2 s && gt0 (high2 s)
    then <["High 2" := mk_range true (high2 s)]> custom_ranges
    else custom_ranges in
  let custom_ranges :=
    if use_low1 s && gt0 (low1 s)
    then <["Low 1" := mk_range true (low1 s)]> custom_ranges
    else custom_ranges in
  let custom_ranges :=
    if use_low2 s && gt0 (low2 s)
    then <["Low 2" := mk_range true (low2 s)]> custom_ranges
    else custom_ranges in
  custom_ranges.

(** The pair [query_aws_api] returns: [(True, json)] or [(False, text)]. *)
Inductive query_result : Type :=
| QueryOk (result : api_result)
| QueryFailed (reason : string).

Definition query_aws_api
    (asset_id : string) (timeframes : list string) (report_date : string)
    (scope_days : Z) (custom_ranges : gmap string range_entry)
    (measurements : list measurement) : M world query_result :=
  let payload :=
    mk_payload asset_id timeframes report_date scope_days custom_ranges
               measurements in
  emit (requests_post API_ENDPOINT payload 30);;
  match post_reply payload with
  | PostRaises e => mret (QueryFailed e)
  | Response status_code text json =>
      if (status_code =? 200)%Z then
        match json with
        | inr result => mret (QueryOk result)
        | inl e => mret (QueryFailed e)
        end
      else mret (QueryFailed ("API returned status " +:+ pretty status_code +:+
                              ": " +:+ text))
  end.

(** What the handler does with a successful reply. *)
Definition show_result (s : submission) (result : api_result) : M world unit :=
  let data := default [] (r_data result) in
  let count := default 0%Z (r_count result) in
  let hlc_processed := default 0%Z (r_hlc_records_processed result) in
  emit (st_success ("✅ Query complete in " +:+ elapsed_2f +:+ " seconds!"));;
  emit (st_metric "Processing Time" (elapsed_1f +:+ "s"));;
  emit (st_metric "Traveler Entries" (pretty count));;
  emit (st_metric "HLC Records Processed" (pretty hlc_processed));;
  if (0 <? count)%Z then
    df ← alloc (frame_of_records data);
    emit (st_markdown "---");;
    emit (st_markdown "### 📊 Results");;
    shown ← load df;
    emit (st_dataframe shown);;
    let traveler_reports := [("Grp_All", Frame df)] in
    render_unified_export traveler_reports (report_time s) (asset_id s);;
    emit (st_markdown "---");;
    emit (st_markdown "### ⚡ Performance Comparison");;
    emit (st_info ("**Local Processing:** ~178s  |  **AWS Lambda:** " +:+
                   elapsed_1f +:+ "s  |  **Speedup:** " +:+ speedup_1f +:+
                   "x faster!"))
  else emit (st_warning "No traveler entries found matching the criteria").

(** The block under [if st.button("🚀 Run AWS Query", type="primary")]. *)
Definition run_aws_query (s : submission) : M world unit :=
  file ← match measurement_file s with
         | None => emit (st_error "Please upload a measurement file");; st_stop
         | Some file => mret file
         end;
  measurements ← load_measurements file;
  let custom_ranges := build_custom_ranges s in
  (if bool_decide (custom_ranges = ∅) then
     emit (st_error "Please enable at least one custom range");; st_stop
   else mret tt);;
  r ← query_aws_api (asset_id s) (timeframes s) (strftime_date (report_time s))
        (scope_days s) custom_ranges measurements;
  match r with
  | QueryOk result => show_result s result
  | QueryFailed reason => emit (st_error ("Query failed: " +:+ reason))
  end.

End Query.

(** ** What the export writes, as functions of the frame *)

Section Content.
Context {rt : Runtime} {pd : Pandas}.

(** A frame is rectangular: every row has one cell per column. *)
Definition rectangular (df : DataFrame) : Prop :=
  Forall (λ r, length r = length (columns df)) (rows df).

(** The exception [_coerce_arrival_datetime] raises for a frame, if it
    raises: the one of its call of [pd.to_datetime]. *)
Definition coerce_error (df : DataFrame) : option string :=
  if has_column "Arrival_datetime" df then
    get_column "Arrival_datetime" df ≫= to_datetime_error false
  else if has_column "Arrival" df then
    get_column "Arrival" df ≫= to_datetime_error true
  else None.

(** Content of the frame [_coerce_arrival_datetime] returns. *)
Definition coerced (df : DataFrame) : DataFrame :=
  if has_column "Arrival_datetime" df then
    match get_column "Arrival_datetime" df with
    | Some col => set_column "Arrival" (converted false col) df
    | None => df
    end
  else if has_column "Arrival" df then
    match get_column "Arrival" df with
    | Some col => set_column "Arrival" (converted true col) df
    | None => df
    end
  else df.

(** Content of [export_data] when it is written to its sheet. *)
Definition exported (group_data : DataFrame) : DataFrame :=
  coerced (drop_columns ["Group"] group_data).

(** What a turn of the loop writes into the worksheet for the frame
    [written]. *)
Definition sheet_of (written : DataFrame) : sheet :=
  mk_sheet written
           (imap (λ c name, (c, name)) (columns written))
           (get_loc "Arrival" (columns written)).

(** The exception that ends the turn of the loop for a non-empty group,
    if one does: the one of [pd.to_datetime], or else the one of
    [to_excel] on the workbook so far. *)
Definition export_error (writer : list worksheet) (group_name : string)
    (group_data : DataFrame) : option string :=
  match coerce_error (drop_columns ["Group"] group_data) with
  | Some e => Some e
  | None => to_excel_error writer (sheet_name_of group_name)
                           (exported group_data)
  end.

(** The frame a value of the dict refers to, in the store [st]. *)
Definition group_frame (st : list DataFrame) (obj : pyobj) : option DataFrame :=
  match obj with
  | Frame l => st !! l
  | NotAFrame => None
  end.

(** The groups the loop does not skip: the non-empty data frames, with
    their names, in the dict's order. *)
Definition written_groups (st : list DataFrame) (items : reports)
  : list (string * DataFrame) :=
  omap (λ item : string * pyobj,
          match group_frame st item.2 with
          | Some g => if df_empty g then None else Some (item.1, g)
          | None => None
          end) items.

(** The loop over those groups: the exception that ends it, or the
    workbook it leaves. *)
Fixpoint write_groups (writer : list worksheet)
    (groups : list (string * DataFrame)) : string + list worksheet :=
  match groups with
  | [] => inr writer
  | (group_name, group_data) :: groups' =>
      match export_error writer group_name group_data with
      | Some e => inl e
      | None =>
          write_groups
            (write_sheet (sheet_name_of group_name)
               (sheet_of (exported group_data)) writer) groups'
      end
  end.



(** The two counts of the help text. *)
Definition total_of (st : list DataFrame) (items : reports) : nat :=
  sum_list (omap (λ item, df_len <$> group_frame st item.2) items).

Definition groups_of (st : list DataFrame) (items : reports) : nat :=
  length (filter (λ g, df_empty g = false)
            (omap (λ item, group_frame st item.2) items)).

(** Every frame reference of the dict is a live object of the store. *)
Definition frames_valid (st : list DataFrame) (items : reports) : Prop :=
  Forall (λ item, match item.2 with
                  | Frame l => is_Some (st !! l)
                  | NotAFrame => True
                  end) items.

(** A computation that only adds objects to the store. *)
Definition grows {A} (m : M world A) : Prop :=
  ∀ w, store w `prefix_of` store (m w).2.

(** A computation that only adds calls to the trace, and one that adds
    none. *)
Definition extends {A} (m : M world A) : Prop :=
  ∀ w, trace w `prefix_of` trace (m w).2.

Definition silent {A} (m : M world A) : Prop :=
  ∀ w, trace (m w).2 = trace w.

(** The workbooks handed to every download button of a trace, and the
    file names they are offered under. *)
Definition downloads (tr : list event) : list (list worksheet) :=
  omap (λ e, match e with
             | st_download_button _ data _ _ _ => Some data
             | _ => None
             end) tr.

Definition file_names (tr : list event) : list string :=
  omap (λ e, match e with
             | st_download_button _ _ file_name _ _ => Some file_name
             | _ => None
             end) tr.

(** The tables shown with [st.dataframe] in a trace. *)
Definition shown_tables (tr : list event) : list DataFrame :=
  omap (λ e, match e with
             | st_dataframe df => Some df
             | _ => None
             end) tr.

(** The bodies posted to the remote service in a trace. *)
Definition posts (tr : list event) : list payload :=
  omap (λ e, match e with
             | requests_post _ json _ => Some json
             | _ => None
             end) tr.

(** The messages shown with [st.error] in a trace. *)
Definition errors (tr : list event) : list string :=
  omap (λ e, match e with
             | st_error body => Some body
             | _ => None
             end) tr.

End Content.

(** ** The sort order the specification describes

    [app_32.py] has no sorting step; this is the order written in the
    specification, used to compare the export against it. *)

Section SpecSort.
Context {rt : Runtime}.
Variable compare_cell : cell → cell → comparison.

Fixpoint compare_keys (a b : list cell) : comparison :=
  match a, b with
  | x :: a', y :: b' =>
      match compare_cell x y with
      | Eq => compare_keys a' b'
      | c => c
      end
  | _, _ => Eq
  end.

Definition spec_sort_keys (df : DataFrame) : list string :=
  if has_column "Range" df then ["Range"; "Group"; "Output"; "Arrival"]
  else ["Group"; "Output"; "Arrival"].

Definition spec_key (cols keys : list string) (r : list cell) : list cell :=
  map (λ k, from_option (λ i, nth i r NaN) NaN (get_loc k cols)) keys.

(** Stable insertion: [x] goes before the first row whose key is larger. *)
Fixpoint spec_insert (key : list cell → list cell) (x : list cell)
    (sorted : list (list cell)) : list (list cell) :=
  match sorted with
  | [] => [x]
  | y :: sorted' =>
      match compare_keys (key x) (key y) with
      | Gt => y :: spec_insert key x sorted'
      | _ => x :: y :: sorted'
      end
  end.

Definition spec_sort_values (df : DataFrame) : DataFrame :=
  let key := spec_key (columns df) (spec_sort_keys df) in
  mk_df (columns df) (foldr (spec_insert key) [] (rows df)).

End SpecSort.

(** ** Letter-case folding, as the specification describes column matching *)

(** Two labels that differ only in letter case. *)
Definition spec_same_ignoring_case (a b : string) : Prop := lower a = lower b.

(** ** A small concrete runtime, for examples *)

Inductive jval : Type :=
| JStr (s : string)
| JNum (n : Z).

Definition demo_runtime : Runtime := {|
  value := jval;
  timestamp := string;
  str_value := λ v, match v with JStr s => s | JNum n => pretty n end;
  str_timestamp := λ t, t;
  value_of_str := JStr
|}.

(** A small stand-in for pandas. It reads [YYYY-MM-DD],
    [YYYY-MM-DDTHH:MM:SS] and [YYYY-MM-DDTHH:MM:SSZ] shaped text as a
    date, takes the shape of the first date of a column as the column's
    format, and gives NaT for everything that has another shape. Its
    writer refuses a sheet name with a slash and a timestamp with a time
    zone. *)
Definition demo_date (c : cell (rt := demo_runtime)) : option string :=
  match c with
  | Val (JStr s) =>
      if ((String.length s =? 10)%nat || (String.length s =? 19)%nat ||
          (String.length s =? 20)%nat) &&
         bool_decide (String.get 4 s = Some "-"%char) &&
         bool_decide (String.get 7 s = Some "-"%char)
      then Some s else None
  | Time t => Some t
  | _ => None
  end.

Definition demo_format (col : list (cell (rt := demo_runtime))) : option nat :=
  String.length <$> head (omap demo_date col).

Definition demo_to_datetime (col : list (cell (rt := demo_runtime))) (i : nat)
  : option string :=
  format ← demo_format col;
  date ← col !! i ≫= demo_date;
  if (String.length date =? format)%nat then Some date else None.

Definition demo_zoned (c : cell (rt := demo_runtime)) : bool :=
  match c with
  | Time t => bool_decide (String.get (String.length t - 1) t = Some "Z"%char)
  | _ => false
  end.

Definition demo_to_excel_error (book : list (worksheet (rt := demo_runtime)))
    (sheet_name : string) (df : DataFrame (rt := demo_runtime))
  : option string :=
  if bool_decide ("/"%char ∈ String.list_ascii_of_string sheet_name)
  then Some "InvalidWorksheetName"
  else if existsb (existsb demo_zoned) (rows df)
  then Some "Excel does not support datetimes with timezones"
  else None.

#[global] Instance demo_pandas : Pandas (rt := demo_runtime) := {|
  to_datetime_error := λ _ _, None;
  to_datetime_value := λ _, demo_to_datetime;
  to_excel_error := demo_to_excel_error
|}.

(** A service that answers every request with [reply]. *)
Definition demo_service (reply : http_reply (rt := demo_runtime))
  : Service (rt := demo_runtime) := {|
  post_reply := λ _, reply;
  elapsed_2f := "0.50";
  elapsed_1f := "0.5";
  speedup_1f := "356.0"
|}.

(** Text before numbers, numbers by size, text lexically, missing last. *)
Definition demo_compare (a b : cell (rt := demo_runtime)) : comparison :=
  match a, b with
  | Val (JStr x), Val (JStr y) => String.compare x y
  | Val (JNum x), Val (JNum y) => Z.compare x y
  | Val (JStr _), Val (JNum _) => Lt
  | Val (JNum _), Val (JStr _) => Gt
  | Time x, Time y => String.compare x y
  | Val _, _ => Lt
  | _, Val _ => Gt
  | Time _, _ => Lt
  | _, Time _ => Gt
  | _, _ => Eq
  end.

(** The two rows of the specification's sort example, in the order given. *)
Definition sort_example : list (record (rt := demo_runtime)) :=
  [ [("Range", JStr "Low 1"); ("Group", JStr "A"); ("Output", JNum 2);
     ("Arrival", JStr "2024-01-02")];
    [("Range", JStr "High 1"); ("Group", JStr "A"); ("Output", JNum 1);
     ("Arrival", JStr "2024-01-01")] ].

Definition empty_world {rt : Runtime} : world := mk_world [] [].

(** Cells of the concrete runtime. *)
Definition num (n : Z) : cell (rt := demo_runtime) :=
  Val (rt := demo_runtime) (JNum n).
Definition txt (s : string) : cell (rt := demo_runtime) :=
  Val (rt := demo_runtime) (JStr s).

(** A reply carrying the two rows, a service that always sends it, and
    sample widget values. *)
Definition demo_result : api_result (rt := demo_runtime) :=
  mk_api_result (rt := demo_runtime) (Some sort_example) (Some 2%Z) (Some 10%Z).

Definition demo_svc : Service (rt := demo_runtime) :=
  demo_service (Response 200 "" (inr demo_result)).

Definition demo_time : datetime := mk_datetime 2024 3 5 18 0.

Definition demo_measurements : DataFrame (rt := demo_runtime) :=
  mk_df (rt := demo_runtime) ["M value"; "Note"]
        [[num 5; txt "first"]; [num 7; NaN]].

Definition demo_submission (file : option (upload (rt := demo_runtime)))
    (use_high1 : bool) (timeframes : list string)
  : submission (rt := demo_runtime) :=
  mk_submission (rt := demo_runtime) "NQ" file demo_time use_high1 4500 false 0 false 0 false 0
                20 timeframes.

(** A result frame with both arrival columns: a date and time, a date of
    another shape, and a text that is no date. *)
Definition demo_arrivals : DataFrame (rt := demo_runtime) :=
  mk_df (rt := demo_runtime) ["Group"; "Arrival"; "Arrival_datetime"]
        [[txt "A"; txt "stale"; txt "2024-03-05T18:00:00"];
         [txt "A"; txt "stale"; txt "2024-03-06"];
         [txt "A"; txt "stale"; txt "soon"]].

(** A reply whose one record has an arrival time with a time zone. *)
Definition zoned_result : api_result (rt := demo_runtime) :=
  mk_api_result (rt := demo_runtime)
    (Some [[("Output", JNum 1); ("Arrival", JStr "2024-03-05T18:00:00Z")]])
    (Some 1%Z) (Some 10%Z).

(** The entry a row adds to [measurements], if it adds one. *)
Definition normalized {rt : Runtime} (row : Series) : option measurement :=
  m_val_col ← next_in value_spellings (series_index row);
  m_value ← series_get m_val_col row;
  Some (mk_measurement m_value
          (default (Val (value_of_str ("M" +:+ str_cell m_value)))
             (next_in name_spellings (series_index row) ≫=
              λ m_name_col, series_get m_name_col row))).

(** The body posted for a submission, and what [query_aws_api] returns for
    a reply. *)
Definition request_of {rt : Runtime} (s : submission)
    (measurements : list measurement) : payload :=
  mk_payload (asset_id s) (timeframes s) (strftime_date (report_time s))
             (scope_days s) (build_custom_ranges s) measurements.

Definition answer {rt : Runtime} (reply : http_reply) : query_result :=
  match reply with
  | PostRaises e => QueryFailed e
  | Response status_code text json =>
      if (status_code =? 200)%Z then
        match json with
        | inr result => QueryOk result
        | inl e => QueryFailed e
        end
      else QueryFailed ("API returned status " +:+ pretty status_code +:+
                        ": " +:+ text)
  end.

(** The exception that ends the handling of a successful reply, if one
    does: the one of the export, which runs when the count is positive
    (and writes when the table is not empty). *)
Definition result_error {rt : Runtime} {pd : Pandas} (result : api_result)
  : option string :=
  let table := frame_of_records (default [] (r_data result)) in
  if (0 <? default 0%Z (r_count result))%Z && negb (df_empty table)
  then export_error [] "Grp_All" table
  else None.

(** The workbook offered for the table of a reply. *)
Definition result_workbook {rt : Runtime} {pd : Pandas} (table : DataFrame)
  : list worksheet :=
  close_workbook
    (if df_empty table then []
     else [mk_worksheet "Grp_All" [sheet_of (exported table)]]).

(** The events a successful reply adds before anything depends on the
    count. *)
Definition result_summary {rt : Runtime} {svc : Service} (result : api_result)
  : list event :=
  [st_success ("✅ Query complete in " +:+ elapsed_2f +:+ " seconds!");
   st_metric "Processing Time" (elapsed_1f +:+ "s");
   st_metric "Traveler Entries" (pretty (default 0%Z (r_count result)));
   st_metric "HLC Records Processed"
     (pretty (default 0%Z (r_hlc_records_processed result)))].

(** ** Uploading files to S3 *)

Definition AWS_REGION : string := "us-east-2".
Definition S3_BUCKET : string := "traveler-app-uploads".

(** An uploaded file object: its [name] and its bytes. *)
Record uploaded_file := mk_file {
  upload_name : string;
  upload_content : string
}.

(** The storage service as the program sees it: the exception, if any,
    that creating the client raises, and the exception, if any, that
    [upload_fileobj] raises for a bucket, a key and a file. *)
Class Storage := {
  client_raises : option string;
  upload_raises : string → string → uploaded_file → option string
}.

Section Upload.
Context {rt : Runtime} {s3 : Storage}.

(** What the upload handler does to the outside: Streamlit output and
    calls of [upload_fileobj]. *)
Inductive upload_event : Type :=
| shown (e : event)
| s3_upload_fileobj (bucket key : string) (file : uploaded_file).

Definition upload_log : Type := list upload_event.

Definition log (e : upload_event) : M upload_log unit :=
  λ w, (Done tt, (w ++ [e])%list).

(** [boto3.client('s3', region_name=AWS_REGION)] *)
Definition boto3_client : M upload_log unit :=
  match client_raises with
  | Some e => raise e
  | None => mret tt
  end.

(** [s3_client.upload_fileobj(file, bucket, key)] *)
Definition upload_fileobj (file : uploaded_file) (bucket key : string)
  : M upload_log unit :=
  log (s3_upload_fileobj bucket key file);;
  match upload_raises bucket key file with
  | Some e => raise e
  | None => mret tt
  end.

(** [f"{asset_id}/{timeframe}/{feed_type}/{filename}"] *)
Definition s3_key_of (asset_id timeframe feed_type filename : string) : string :=
  asset_id +:+ "/" +:+ timeframe +:+ "/" +:+ feed_type +:+ "/" +:+ filename.

(** [file.seek(0)] rewinds the file object and leaves nothing to see in
    this model, where a file is its name and its bytes. *)
Definition upload_to_s3 (file : uploaded_file)
    (asset_id timeframe feed_type : string) : M upload_log (bool * string) :=
  try_except
    (boto3_client;;
     let filename := upload_name file in
     let s3_key := s3_key_of asset_id timeframe feed_type filename in
     upload_fileobj file S3_BUCKET s3_key;;
     mret (true, s3_key))
    (λ e, mret (false, e)).

(** One entry of [files_to_upload]: the uploader's value and its slot. *)
Definition upload_slot : Type := option uploaded_file * string * string.

(** The body of the loop over [files_to_upload]; the state is
    [uploaded_count] and [upload_errors]. *)
Definition upload_step (asset_id : string) (state : nat * list string)
    (slot : upload_slot) : M upload_log (nat * list string) :=
  let '(uploaded_count, upload_errors) := state in
  let '(file, timeframe, feed_type) := slot in
  match file with
  | None => mret state
  | Some file =>
      r ← upload_to_s3 file asset_id timeframe feed_type;
      let '(success, result) := (r : bool * string) in
      if success then
        log (shown (st_success ("✅ Uploaded: " +:+ result)));;
        mret (S uploaded_count, upload_errors)
      else
        mret (uploaded_count,
              (upload_errors ++
               ["❌ Failed to upload " +:+ upload_name file +:+ ": " +:+
                result])%list)
  end.

Fixpoint upload_loop (asset_id : string) (state : nat * list string)
    (files_to_upload : list upload_slot) : M upload_log (nat * list string) :=
  match files_to_upload with
  | [] => mret state
  | slot :: rest =>
      state ← upload_step asset_id state slot;
      upload_loop asset_id state rest
  end.

Fixpoint show_errors (upload_errors : list string) : M upload_log unit :=
  match upload_errors with
  | [] => mret tt
  | error :: rest => log (shown (st_error error));; show_errors rest
  end.

(** The messages after the loop. *)
Definition upload_summary (state : nat * list string) : M upload_log unit :=
  let '(uploaded_count, upload_errors) := state in
  (if (0 <? uploaded_count)%nat then
     log (shown (st_success ("✅ Successfully uploaded " +:+
                             pretty uploaded_count +:+ " files!")));;
     log (shown (st_info ("⏳ AWS Lambda is now processing your files in " +:+
                          "the background. Wait 10-30 seconds, then run " +:+
                          "your query.")))
   else mret tt);;
  show_errors upload_errors.

(** The six uploaders in the order of [files_to_upload]. *)
Definition files_to_upload
    (small_3m_file small_5m_file small_15m_file
     big_3m_file big_5m_file big_15m_file : option uploaded_file)
  : list upload_slot :=
  [(small_3m_file, "3m", "small");
   (small_5m_file, "5m", "small");
   (small_15m_file, "15m", "small");
   (big_3m_file, "3m", "big");
   (big_5m_file, "5m", "big");
   (big_15m_file, "15m", "big")].

(** The block under [if st.button("📤 Upload Files to AWS S3")], for any
    list of slots. *)
Definition upload_files (asset_id : string) (slots : list upload_slot)
  : M upload_log unit :=
  state ← upload_loop asset_id (0, []) slots;
  upload_summary state.

(** The calls of [upload_fileobj] in a log, and the Streamlit output. *)
Definition s3_calls (w : upload_log) : list (string * string * uploaded_file) :=
  omap (λ e, match e with
             | s3_upload_fileobj bucket key file => Some (bucket, key, file)
             | shown _ => None
             end) w.

Definition shown_events (w : upload_log) : list event :=
  omap (λ e, match e with
             | shown e => Some e
             | s3_upload_fileobj _ _ _ => None
             end) w.

(** The files chosen among the slots, with their slot, in slot order. *)
Definition chosen (slots : list upload_slot)
  : list (uploaded_file * string * string) :=
  omap (λ slot : upload_slot,
          let '(file, timeframe, feed_type) := slot in
          (λ f, (f, timeframe, feed_type)) <$> file) slots.

(** The exception text with which the upload of a chosen file fails, if it
    fails. *)
Definition upload_failure (asset_id : string)
    (c : uploaded_file * string * string) : option string :=
  let '(file, timeframe, feed_type) := c in
  match client_raises with
  | Some e => Some e
  | None =>
      upload_raises S3_BUCKET
        (s3_key_of asset_id timeframe feed_type (upload_name file)) file
  end.

(** The S3 key of a chosen file, the keys of the files whose upload
    succeeds, the messages for those whose upload fails, and the calls of
    [upload_fileobj] made for them. *)
Definition chosen_key (asset_id : string)
    (c : uploaded_file * string * string) : string :=
  let '(file, timeframe, feed_type) := c in
  s3_key_of asset_id timeframe feed_type (upload_name file).

Definition uploaded_keys (asset_id : string)
    (cs : list (uploaded_file * string * string)) : list string :=
  omap (λ c, match upload_failure asset_id c with
             | None => Some (chosen_key asset_id c)
             | Some _ => None
             end) cs.

Definition failure_messages (asset_id : string)
    (cs : list (uploaded_file * string * string)) : list string :=
  omap (λ c, (λ e, "❌ Failed to upload " +:+ upload_name c.1.1 +:+ ": " +:+ e)
               <$> upload_failure asset_id c) cs.

Definition attempted_calls (asset_id : string)
    (cs : list (uploaded_file * string * string))
  : list (string * string * uploaded_file) :=
  match client_raises with
  | Some _ => []
  | None => map (λ c, (S3_BUCKET, chosen_key asset_id c, c.1.1)) cs
  end.

End Upload.

(** A storage service that refuses files named [bad.csv], and sample
    files. *)
Definition demo_storage : Storage := {|
  client_raises := None;
  upload_raises := λ _ _ file,
    if String.eqb (upload_name file) "bad.csv" then Some "AccessDenied"
    else None
|}.

Definition feed_file : uploaded_file := mk_file "feed.csv" "t,o,h,l,c".
Definition bad_file : uploaded_file := mk_file "bad.csv" "".



(** The characters of a string, and the two that a sheet name replaces. *)
Definition chars (s : string) : list ascii := String.list_ascii_of_string s.
Definition space : ascii := " "%char.
Definition hyphen : ascii := "-"%char.
Definition slash : ascii := "/"%char.

(** * Properties *)

(** ** Running computations *)

Lemma bind_run {W A B} (m : M W A) (f : A → M W B) (w : W) :
  (m ≫= f) w =
  match m w with
  | (Done a, w') => f a w'
  | (Stopped, w') => (Stopped, w')
  | (Raised e, w') => (Raised e, w')
  end.
Proof. reflexivity. Qed.

Lemma ret_run {W A} (a : A) (w : W) : (mret a : M W A) w = (Done a, w).
Proof. reflexivity. Qed.

Lemma bind_done {W A B} (m : M W A) (f : A → M W B) (w w' : W) (a : A) :
  m w = (Done a, w') → (m ≫= f) w = f a w'.
Proof. intros Hm. rewrite bind_run, Hm. reflexivity. Qed.

(** Runs the leading binds and returns of a computation, using [tac] for
    the calls whose result is already known. *)
Ltac run_with tac :=
  repeat (first [rewrite bind_run | rewrite ret_run | tac];
          cbv beta iota; cbn [store trace]).

Ltac run := run_with fail.

(** Membership in a list of labels, by computation. *)
Lemma label_in (x : string) (l : list string) :
  bool_decide (x ∈ l) = true → x ∈ l.
Proof. apply bool_decide_eq_true_1. Qed.

Lemma label_not_in (x : string) (l : list string) :
  bool_decide (x ∈ l) = false → x ∉ l.
Proof. apply bool_decide_eq_false_1. Qed.

(** ** Column lookup *)

Lemma get_loc_Some (name : string) (cols : list string) :
  name ∈ cols → is_Some (get_loc name cols).
Proof.
  induction cols as [|c cols IH]; intros Hin.
  - inversion Hin.
  - simpl. destruct (String.eqb_spec c name) as [->|Hne]; [eauto|].
    apply elem_of_cons in Hin as [->|Hin]; [done|].
    destruct (IH Hin) as [i ->]. simpl. eauto.
Qed.

Lemma get_loc_None (name : string) (cols : list string) :
  name ∉ cols → get_loc name cols = None.
Proof.
  induction cols as [|c cols IH]; intros Hnin; [done|].
  simpl. destruct (String.eqb_spec c name) as [->|Hne].
  - exfalso. apply Hnin. left.
  - rewrite IH; [done|]. intros Hin. apply Hnin. by right.
Qed.

Lemma get_loc_lt (name : string) (cols : list string) (i : nat) :
  get_loc name cols = Some i → i < length cols.
Proof.
  revert i. induction cols as [|c cols IH]; intros i; simpl; [done|].
  destruct (String.eqb c name).
  - intros [= <-]. lia.
  - destruct (get_loc name cols) as [j|]; simpl; [|done].
    intros [= <-]. specialize (IH j eq_refl). lia.
Qed.

Section MeasurementProofs.
Context {rt : Runtime}.

Lemma series_get_Some (label : string) (row : Series) :
  label ∈ series_index row → is_Some (series_get label row).
Proof.
  unfold series_index.
  induction row as [|[k c] row IH]; simpl; intros Hin.
  - inversion Hin.
  - destruct (String.eqb_spec k label) as [->|Hne]; [eauto|].
    apply elem_of_cons in Hin as [->|Hin]; [done|]. by apply IH.
Qed.

(** [next_in] returns the first candidate, in list order, that is a
    label of the index, compared by string equality. *)
Lemma next_in_Some (candidates index : list string) (c : string) :
  next_in candidates index = Some c ↔
  ∃ before after, candidates = (before ++ c :: after)%list ∧
                  c ∈ index ∧ ∀ x, x ∈ before → x ∉ index.
Proof.
  unfold next_in. induction candidates as [|x candidates IH]; simpl.
  - split; [done|]. intros (before & after & Heq & _).
    by destruct before.
  - case_bool_decide as Hx.
    + split.
      * intros [= <-]. exists [], candidates. split_and!; [done..|].
        intros y Hy. inversion Hy.
      * intros (before & after & Heq & Hc & Hbefore).
        destruct before as [|y before]; simplify_eq/=; [done|].
        exfalso. apply (Hbefore y); [left|done].
    + rewrite IH. split.
      * intros (before & after & -> & Hc & Hbefore).
        exists (x :: before), after. split_and!; [done..|].
        intros y [->|Hy]%elem_of_cons; auto.
      * intros (before & after & Heq & Hc & Hbefore).
        destruct before as [|y before]; simplify_eq/=; [done|].
        exists before, after. split_and!; [done..|].
        intros z Hz. apply Hbefore. by right.
Qed.

Lemma next_in_None (candidates index : list string) :
  next_in candidates index = None ↔ ∀ x, x ∈ candidates → x ∉ index.
Proof.
  unfold next_in. induction candidates as [|x candidates IH]; simpl.
  - split; [|done]. intros _ y Hy. inversion Hy.
  - case_bool_decide as Hx.
    + split; [done|]. intros Hall. exfalso. apply (Hall x); [left|done].
    + rewrite IH. split.
      * intros Hall y [->|Hy]%elem_of_cons; auto.
      * intros Hall y Hy. apply Hall. by right.
Qed.

Lemma next_in_elem (candidates index : list string) (c : string) :
  next_in candidates index = Some c → c ∈ candidates ∧ c ∈ index.
Proof.
  intros (before & after & -> & Hc & _)%next_in_Some. split; [|done].
  apply elem_of_app. right. left.
Qed.

Lemma truthy_value_spelling (index : list string) (c : string) :
  next_in value_spellings index = Some c → truthy (Some c) = true.
Proof.
  intros [Hc _]%next_in_elem. unfold value_spellings in Hc.
  repeat (apply elem_of_cons in Hc as [->|Hc]; [done|]). inversion Hc.
Qed.

Lemma truthy_name_spelling (index : list string) (c : string) :
  next_in name_spellings index = Some c → truthy (Some c) = true.
Proof.
  intros [Hc _]%next_in_elem. unfold name_spellings in Hc.
  repeat (apply elem_of_cons in Hc as [->|Hc]; [done|]). inversion Hc.
Qed.

(** One turn of the loop never raises and leaves the world alone. *)
Lemma add_measurement_run (measurements : list measurement) (row : Series)
    (w : world) :
  add_measurement measurements row w =
  (Done (measurements ++ option_list (normalized row))%list, w).
Proof.
  unfold add_measurement, normalized, row_getitem. cbv zeta.
  destruct (next_in value_spellings (series_index row)) as [vc|] eqn:Hv.
  - rewrite (truthy_value_spelling _ _ Hv).
    destruct (next_in_elem _ _ _ Hv) as [_ Hvi].
    destruct (series_get_Some _ _ Hvi) as [v Hget].
    destruct (next_in name_spellings (series_index row)) as [nc|] eqn:Hn.
    + rewrite (truthy_name_spelling _ _ Hn).
      destruct (next_in_elem _ _ _ Hn) as [_ Hni].
      destruct (series_get_Some _ _ Hni) as [n Hgetn].
      rewrite !bind_run. cbn. rewrite Hget, Hgetn. reflexivity.
    + rewrite bind_run. simpl. rewrite Hget. simpl.
      reflexivity.
  - cbn. rewrite app_nil_r. reflexivity.
Qed.

Lemma add_measurements_run (measurements : list measurement)
    (rows : list Series) (w : world) :
  add_measurements measurements rows w =
  (Done (measurements ++ omap normalized rows)%list, w).
Proof.
  revert measurements. induction rows as [|row rows IH]; intros ms; simpl.
  - by rewrite app_nil_r.
  - rewrite bind_run, add_measurement_run, IH, <- app_assoc.
    do 2 f_equal. f_equal. destruct (normalized row); reflexivity.
Qed.

End MeasurementProofs.

(** ** Measurement Normalizer *)

Section NormalizerProofs.
Context {rt : Runtime}.

(** C4 (as amended). The value column and the name column of a row are
    resolved against the fixed lists [value_spellings] and
    [name_spellings], in list order: the result is the first listed
    spelling that is a label of the row, compared by exact string
    equality, and there is no result exactly when no listed spelling is a
    label of the row. Letter case is not folded. *)
Theorem measurement_columns_first_exact_spelling (row : Series) :
  (∀ c, next_in value_spellings (series_index row) = Some c ↔
        ∃ before after, value_spellings = (before ++ c :: after)%list ∧
          c ∈ series_index row ∧ ∀ x, x ∈ before → x ∉ series_index row) ∧
  (next_in value_spellings (series_index row) = None ↔
     ∀ x, x ∈ value_spellings → x ∉ series_index row) ∧
  (∀ c, next_in name_spellings (series_index row) = Some c ↔
        ∃ before after, name_spellings = (before ++ c :: after)%list ∧
          c ∈ series_index row ∧ ∀ x, x ∈ before → x ∉ series_index row) ∧
  (next_in name_spellings (series_index row) = None ↔
     ∀ x, x ∈ name_spellings → x ∉ series_index row).
Proof.
  split_and!.
  - intros c. apply next_in_Some.
  - apply next_in_None.
  - intros c. apply next_in_Some.
  - apply next_in_None.
Qed.

Lemma load_measurements_run (df : DataFrame) (w : world) :
  load_measurements (Workbook df) w =
    (Done (omap normalized (iterrows df)),
     mk_world (store w)
       (trace w ++
        [st_info ("Loaded " +:+
                  pretty (length (omap normalized (iterrows df))) +:+
                  " measurements")])).
Proof.
  unfold load_measurements, try_except, pd_read_excel.
  run_with ltac:(rewrite add_measurements_run). reflexivity.
Qed.

(** C8. Loading a readable measurement table never raises and never
    stops: the list built is the rows' entries in row order, rows without
    a recognizable value column contributing nothing. A table without rows
    gives the empty list. A row with a value column and no recognizable
    name column gets the name "M" followed by the text of its value. *)
Theorem measurement_normalizer_order_preserving_tolerant
    (df : DataFrame) (w : world) :
  load_measurements (Workbook df) w =
    (Done (omap normalized (iterrows df)),
     mk_world (store w)
       (trace w ++
        [st_info ("Loaded " +:+
                  pretty (length (omap normalized (iterrows df))) +:+
                  " measurements")])) ∧
  (∀ measurements row w',
     next_in value_spellings (series_index row) = None →
     add_measurement measurements row w' = (Done measurements, w')) ∧
  (rows df = [] → omap normalized (iterrows df) = []) ∧
  (∀ measurements row w' m_val_col m_value,
     next_in value_spellings (series_index row) = Some m_val_col →
     series_get m_val_col row = Some m_value →
     next_in name_spellings (series_index row) = None →
     add_measurement measurements row w' =
       (Done (measurements ++
              [mk_measurement m_value
                 (Val (value_of_str ("M" +:+ str_cell m_value)))])%list, w')).
Proof.
  split_and!.
  - apply load_measurements_run.
  - intros ms row w' Hnone. rewrite add_measurement_run.
    unfold normalized. rewrite Hnone. simpl. by rewrite app_nil_r.
  - intros Hrows. unfold iterrows. rewrite Hrows. reflexivity.
  - intros ms row w' vc v Hv Hget Hn. rewrite add_measurement_run.
    unfold normalized. rewrite Hv, Hn. simpl. rewrite Hget. reflexivity.
Qed.

End NormalizerProofs.

(** ** Range Resolver *)

Lemma gt0_spec (x : Q) : gt0 x = true ↔ (0 < x)%Q.
Proof.
  unfold gt0. rewrite negb_true_iff. split.
  - intros Hle. apply Qnot_le_lt. intros Hx.
    apply Qle_bool_iff in Hx. congruence.
  - intros Hlt. destruct (Qle_bool x 0) eqn:Hle; [|done].
    apply Qle_bool_iff in Hle. exfalso. by apply (Qlt_not_le 0 x).
Qed.

Section RangeProofs.
Context {rt : Runtime}.

Lemma slot_active (use : bool) (input : Q) :
  use && gt0 (if use then input else 0%Q) = true ↔ use = true ∧ (0 < input)%Q.
Proof.
  destruct use; simpl.
  - rewrite gt0_spec. split; [intros Hpos; by split | by intros [_ Hpos]].
  - split; [done | by intros [Hf _]].
Qed.

(** The entry of one slot, given what the lookup of its key finds. *)
Lemma slot_entry (use : bool) (input : Q) (found : option range_entry)
    (e : range_entry) :
  found = (if use && gt0 (if use then input else 0%Q)
           then Some (mk_range true (if use then input else 0%Q)) else None) →
  found = Some e ↔ use = true ∧ (0 < input)%Q ∧ e = mk_range true input.
Proof.
  intros ->. destruct (use && gt0 _) eqn:Hd.
  - apply slot_active in Hd as [-> Hpos].
    split; [by intros [= <-] | by intros (_ & _ & ->)].
  - split; [done|]. intros (Hu & Hpos & _).
    assert (use && gt0 (if use then input else 0%Q) = true) as Hc
      by (apply slot_active; done).
    congruence.
Qed.

Ltac slot_cases :=
  unfold build_custom_ranges; cbv zeta;
  destruct (use_high1 _ && gt0 _); destruct (use_high2 _ && gt0 _);
  destruct (use_low1 _ && gt0 _); destruct (use_low2 _ && gt0 _);
  repeat (rewrite lookup_insert_ne by done);
  rewrite ?lookup_insert_eq, ?lookup_empty; reflexivity.

Lemma lookup_high1 (s : submission) :
  build_custom_ranges s !! "High 1" =
  if use_high1 s && gt0 (high1 s) then Some (mk_range true (high1 s)) else None.
Proof. slot_cases. Qed.

Lemma lookup_high2 (s : submission) :
  build_custom_ranges s !! "High 2" =
  if use_high2 s && gt0 (high2 s) then Some (mk_range true (high2 s)) else None.
Proof. slot_cases. Qed.

Lemma lookup_low1 (s : submission) :
  build_custom_ranges s !! "Low 1" =
  if use_low1 s && gt0 (low1 s) then Some (mk_range true (low1 s)) else None.
Proof. slot_cases. Qed.

Lemma lookup_low2 (s : submission) :
  build_custom_ranges s !! "Low 2" =
  if use_low2 s && gt0 (low2 s) then Some (mk_range true (low2 s)) else None.
Proof. slot_cases. Qed.

Lemma lookup_other_label (s : submission) (label : string) :
  label ∉ ["High 1"; "High 2"; "Low 1"; "Low 2"] →
  build_custom_ranges s !! label = None.
Proof.
  rewrite !not_elem_of_cons. intros (?&?&?&?&_).
  unfold build_custom_ranges; cbv zeta.
  destruct (use_high1 _ && gt0 _); destruct (use_high2 _ && gt0 _);
  destruct (use_low1 _ && gt0 _); destruct (use_low2 _ && gt0 _);
  repeat (rewrite lookup_insert_ne by done); apply lookup_empty.
Qed.

(** C5. Each of the four slots is a key of [custom_ranges] exactly when
    its toggle is on and its center is positive, its entry is then
    [{enabled: True, value: center}], and there are no other keys. *)
Theorem custom_ranges_resolved (s : submission) :
  (∀ e, build_custom_ranges s !! "High 1" = Some e ↔
        use_high1 s = true ∧ (0 < high1_input s)%Q ∧
        e = mk_range true (high1_input s)) ∧
  (∀ e, build_custom_ranges s !! "High 2" = Some e ↔
        use_high2 s = true ∧ (0 < high2_input s)%Q ∧
        e = mk_range true (high2_input s)) ∧
  (∀ e, build_custom_ranges s !! "Low 1" = Some e ↔
        use_low1 s = true ∧ (0 < low1_input s)%Q ∧
        e = mk_range true (low1_input s)) ∧
  (∀ e, build_custom_ranges s !! "Low 2" = Some e ↔
        use_low2 s = true ∧ (0 < low2_input s)%Q ∧
        e = mk_range true (low2_input s)) ∧
  (∀ label, label ∉ ["High 1"; "High 2"; "Low 1"; "Low 2"] →
            build_custom_ranges s !! label = None).
Proof.
  split_and!.
  - intros e. apply slot_entry, lookup_high1.
  - intros e. apply slot_entry, lookup_high2.
  - intros e. apply slot_entry, lookup_low1.
  - intros e. apply slot_entry, lookup_low2.
  - apply lookup_other_label.
Qed.

End RangeProofs.

(** ** Export: the store *)

Section StoreProofs.
Context {rt : Runtime} {pd : Pandas}.

Lemma load_run (l : loc) (df : DataFrame) (w : world) :
  store w !! l = Some df → load l w = (Done df, w).
Proof. intros Hl. unfold load. by rewrite Hl. Qed.

Lemma load_fresh (st : list DataFrame) (df : DataFrame) (tr : list event) :
  load (length st) (mk_world (st ++ [df]) tr) =
  (Done df, mk_world (st ++ [df]) tr).
Proof. apply load_run. simpl. apply list_lookup_middle. reflexivity. Qed.

Lemma assign_fresh (st : list DataFrame) (old new : DataFrame)
    (tr : list event) :
  assign (length st) new (mk_world (st ++ [old]) tr) =
  (Done tt, mk_world (st ++ [new]) tr).
Proof.
  unfold assign. simpl. do 2 f_equal.
  rewrite insert_app_r_alt by lia. by rewrite Nat.sub_diag.
Qed.

Lemma has_column_get (name : string) (df : DataFrame) :
  has_column name df = true → is_Some (get_column name df).
Proof.
  unfold has_column, get_column. intros Hin%bool_decide_eq_true.
  destruct (get_loc_Some _ _ Hin) as [i ->]. simpl. eauto.
Qed.

(** [_coerce_arrival_datetime] returns a new object holding the coerced
    content, or raises what [pd.to_datetime] raises; the object it was
    given keeps its content either way. *)
Lemma coerce_run (l : loc) (df : DataFrame) (w : world) :
  store w !! l = Some df →
  _coerce_arrival_datetime l w =
  match coerce_error df with
  | Some e => (Raised e, mk_world (store w ++ [df]) (trace w))
  | None => (Done (length (store w)),
             mk_world (store w ++ [coerced df]) (trace w))
  end.
Proof.
  intros Hl.
  unfold _coerce_arrival_datetime, df_copy, df_getitem, df_setitem,
    pd_to_datetime.
  run_with ltac:(rewrite (load_run _ _ _ Hl)).
  unfold alloc at 1. cbv beta iota.
  run_with ltac:(rewrite load_fresh).
  unfold coerced, coerce_error.
  destruct (has_column "Arrival_datetime" df) eqn:Had.
  - destruct (has_column_get _ _ Had) as [col Hcol]. rewrite Hcol.
    run_with ltac:(first [rewrite load_fresh | rewrite Hcol]).
    simpl. destruct (to_datetime_error false col) as [e|]; [reflexivity|].
    run_with ltac:(first [rewrite load_fresh | rewrite assign_fresh]).
    reflexivity.
  - destruct (has_column "Arrival" df) eqn:Ha.
    + destruct (has_column_get _ _ Ha) as [col Hcol]. rewrite Hcol.
      run_with ltac:(first [rewrite load_fresh | rewrite Hcol]).
      simpl. destruct (to_datetime_error true col) as [e|]; [reflexivity|].
      run_with ltac:(first [rewrite load_fresh | rewrite assign_fresh]).
      reflexivity.
    + run. destruct w; reflexivity.
Qed.

Lemma grows_ret {A} (a : A) : grows (mret a).
Proof. intros w. reflexivity. Qed.

Lemma grows_raise {A} (e : string) : grows (raise (A := A) e).
Proof. intros w. reflexivity. Qed.

Lemma grows_bind {A B} (m : M world A) (f : A → M world B) :
  grows m → (∀ a, grows (f a)) → grows (m ≫= f).
Proof.
  intros Hm Hf w. rewrite bind_run. specialize (Hm w).
  destruct (m w) as [[a| |e] w']; simpl in *; [|done..].
  etrans; [exact Hm|apply Hf].
Qed.

Lemma grows_emit (e : event) : grows (emit e).
Proof. intros w. reflexivity. Qed.

Lemma grows_load (l : loc) : grows (load l).
Proof. intros w. unfold load. by destruct (store w !! l). Qed.

Lemma grows_alloc (df : DataFrame) : grows (alloc df).
Proof. intros w. simpl. by apply prefix_app_r. Qed.

Lemma grows_to_excel (writer : list worksheet) (df : DataFrame)
    (name : string) :
  grows (to_excel writer df name).
Proof.
  unfold to_excel. destruct (to_excel_error writer name df);
    [apply grows_raise|apply grows_ret].
Qed.

Lemma grows_coerce (l : loc) : grows (_coerce_arrival_datetime l).
Proof.
  intros w. destruct (store w !! l) as [df|] eqn:Hl.
  - rewrite (coerce_run _ _ _ Hl).
    destruct (coerce_error df); simpl; by apply prefix_app_r.
  - unfold _coerce_arrival_datetime, df_copy. rewrite !bind_run.
    unfold load at 1. rewrite Hl. reflexivity.
Qed.

Lemma grows_export_group (writer : list worksheet) (item : string * pyobj) :
  grows (export_group writer item).
Proof.
  destruct item as [name [l|]]; simpl; [|apply grows_ret].
  apply grows_bind; [apply grows_load|]. intros g.
  destruct (df_empty g); [apply grows_ret|].
  unfold df_drop, df_copy.
  repeat (first [apply grows_coerce | apply grows_load | apply grows_alloc
                | apply grows_to_excel | apply grows_ret | apply grows_bind
                | intros ?]).
Qed.

Lemma grows_export_groups (items : reports) (writer : list worksheet) :
  grows (export_groups writer items).
Proof.
  revert writer. induction items as [|item items IH]; intros writer; simpl.
  - apply grows_ret.
  - apply grows_bind; [apply grows_export_group|]. intros writer'. apply IH.
Qed.

Lemma grows_total_entries (items : reports) : grows (total_entries items).
Proof.
  induction items as [|[name [l|]] items IH]; simpl; [apply grows_ret| |done].
  repeat (first [apply grows_bind | apply grows_load | apply grows_ret
                | exact IH | intros ?]).
Qed.

Lemma grows_num_groups (items : reports) : grows (num_groups items).
Proof.
  induction items as [|[name [l|]] items IH]; simpl; [apply grows_ret| |done].
  repeat (first [apply grows_bind | apply grows_load | apply grows_ret
                | exact IH | intros ?]).
Qed.

Lemma grows_render (traveler_reports : reports) (report_time : datetime)
    (asset_id : string) :
  grows (render_unified_export traveler_reports report_time asset_id).
Proof.
  unfold render_unified_export.
  destruct traveler_reports as [|item items]; [apply grows_ret|].
  repeat (first [apply grows_emit | apply grows_export_groups
                | apply grows_total_entries | apply grows_num_groups
                | apply grows_bind | intros ?]).
Qed.

End StoreProofs.

(** ** Export: the trace *)

Section TraceProofs.
Context {rt : Runtime} {pd : Pandas}.

Lemma silent_ret {A} (a : A) : silent (mret a).
Proof. intros w. reflexivity. Qed.

Lemma silent_raise {A} (e : string) : silent (raise (A := A) e).
Proof. intros w. reflexivity. Qed.

Lemma silent_bind {A B} (m : M world A) (f : A → M world B) :
  silent m → (∀ a, silent (f a)) → silent (m ≫= f).
Proof.
  intros Hm Hf w. rewrite bind_run. specialize (Hm w).
  destruct (m w) as [[a| |e] w']; simpl in *; [|done..].
  by rewrite Hf.
Qed.

Lemma silent_load (l : loc) : silent (load l).
Proof. intros w. unfold load. by destruct (store w !! l). Qed.

Lemma silent_alloc (df : DataFrame) : silent (alloc df).
Proof. intros w. reflexivity. Qed.

Lemma silent_assign (l : loc) (df : DataFrame) : silent (assign l df).
Proof. intros w. reflexivity. Qed.

Lemma silent_to_datetime (col : list cell) (infer : bool) :
  silent (pd_to_datetime col infer).
Proof.
  unfold pd_to_datetime. destruct (to_datetime_error infer col);
    [apply silent_raise|apply silent_ret].
Qed.

Lemma silent_to_excel (writer : list worksheet) (df : DataFrame)
    (name : string) :
  silent (to_excel writer df name).
Proof.
  unfold to_excel. destruct (to_excel_error writer name df);
    [apply silent_raise|apply silent_ret].
Qed.

Lemma silent_getitem (l : loc) (name : string) : silent (df_getitem l name).
Proof.
  unfold df_getitem. apply silent_bind; [apply silent_load|]. intros df.
  destruct (get_column name df); [apply silent_ret|apply silent_raise].
Qed.

Lemma silent_coerce (l : loc) : silent (_coerce_arrival_datetime l).
Proof.
  unfold _coerce_arrival_datetime, df_copy, df_setitem.
  apply silent_bind;
    [apply silent_bind; [apply silent_load|intros ?; apply silent_alloc]|].
  intros l'. apply silent_bind; [apply silent_load|]. intros cur.
  apply silent_bind; [|intros ?; apply silent_ret].
  destruct (has_column "Arrival_datetime" cur);
    [|destruct (has_column "Arrival" cur); [|apply silent_ret]];
    repeat (first [apply silent_getitem | apply silent_to_datetime
                  | apply silent_load | apply silent_assign
                  | apply silent_bind | intros ?]).
Qed.

Lemma silent_export_group (writer : list worksheet) (item : string * pyobj) :
  silent (export_group writer item).
Proof.
  destruct item as [name [l|]]; simpl; [|apply silent_ret].
  apply silent_bind; [apply silent_load|]. intros g.
  destruct (df_empty g); [apply silent_ret|].
  unfold df_drop, df_copy.
  repeat (first [apply silent_coerce | apply silent_load | apply silent_alloc
                | apply silent_to_excel | apply silent_ret | apply silent_bind
                | intros ?]).
Qed.

Lemma silent_export_groups (items : reports) (writer : list worksheet) :
  silent (export_groups writer items).
Proof.
  revert writer. induction items as [|item items IH]; intros writer; simpl.
  - apply silent_ret.
  - apply silent_bind; [apply silent_export_group|]. intros writer'. apply IH.
Qed.

Lemma silent_total_entries (items : reports) : silent (total_entries items).
Proof.
  induction items as [|[name [l|]] items IH]; simpl; [apply silent_ret| |done].
  repeat (first [apply silent_bind | apply silent_load | apply silent_ret
                | exact IH | intros ?]).
Qed.

Lemma silent_num_groups (items : reports) : silent (num_groups items).
Proof.
  induction items as [|[name [l|]] items IH]; simpl; [apply silent_ret| |done].
  repeat (first [apply silent_bind | apply silent_load | apply silent_ret
                | exact IH | intros ?]).
Qed.

Lemma extends_silent {A} (m : M world A) : silent m → extends m.
Proof. intros Hm w. by rewrite Hm. Qed.

Lemma extends_ret {A} (a : A) : extends (mret a).
Proof. intros w. reflexivity. Qed.

Lemma extends_emit (e : event) : extends (emit e).
Proof. intros w. simpl. by apply prefix_app_r. Qed.

Lemma extends_bind {A B} (m : M world A) (f : A → M world B) :
  extends m → (∀ a, extends (f a)) → extends (m ≫= f).
Proof.
  intros Hm Hf w. rewrite bind_run. specialize (Hm w).
  destruct (m w) as [[a| |e] w']; simpl in *; [|done..].
  etrans; [exact Hm|apply Hf].
Qed.

Lemma extends_render (traveler_reports : reports) (report_time : datetime)
    (asset_id : string) :
  extends (render_unified_export traveler_reports report_time asset_id).
Proof.
  unfold render_unified_export.
  destruct traveler_reports as [|item items]; [apply extends_ret|].
  repeat (first [apply extends_emit
                | apply extends_silent, silent_export_groups
                | apply extends_silent, silent_total_entries
                | apply extends_silent, silent_num_groups
                | apply extends_bind | intros ?]).
Qed.

(** What the export adds to the trace, whatever the dict holds: the two
    headings, and the download button when it gets that far. *)
Lemma render_trace (traveler_reports : reports) (report_time : datetime)
    (asset_id : string) (w : world) :
  traveler_reports ≠ [] →
  let after := render_unified_export traveler_reports report_time asset_id w in
  match after.1 with
  | Done _ =>
      ∃ data help,
        trace after.2 =
        (trace w ++
         [st_markdown "---"; st_markdown "### 📥 Unified Excel Download";
          st_download_button "📥 Download Excel Report" data
            (export_file_name asset_id report_time) xlsx_mime help])%list
  | _ =>
      trace after.2 =
      (trace w ++
       [st_markdown "---"; st_markdown "### 📥 Unified Excel Download"])%list
  end.
Proof.
  intros Hne. unfold render_unified_export.
  destruct traveler_reports as [|item items]; [done|].
  set (its := item :: items). unfold emit. run. cbv zeta.
  set (w1 := mk_world _ _).
  pose proof (silent_export_groups its [] w1) as H1.
  destruct (export_groups [] its w1) as [[bk| |e] w2]; simpl in H1;
    [|cbn [fst snd]; by rewrite H1, <- app_assoc..].
  run. pose proof (silent_total_entries its w2) as H2.
  destruct (total_entries its w2) as [[total| |e] w3]; simpl in H2;
    [|cbn [fst snd]; by rewrite H2, H1, <- app_assoc..].
  run. pose proof (silent_num_groups its w3) as H3.
  destruct (num_groups its w3) as [[groups| |e] w4]; simpl in H3;
    [|cbn [fst snd]; by rewrite H3, H2, H1, <- app_assoc..].
  cbn [fst snd trace]. eexists _, _.
  rewrite H3, H2, H1, <- !app_assoc. reflexivity.
Qed.

End TraceProofs.

(** ** Export: what is written *)

Section ExportProofs.
Context {rt : Runtime} {pd : Pandas}.

Lemma group_frame_app (st extra : list DataFrame) (obj : pyobj) (g : DataFrame) :
  group_frame st obj = Some g → group_frame (st ++ extra) obj = Some g.
Proof.
  destruct obj as [l|]; simpl; [|done]. intros Hl.
  by apply lookup_app_l_Some.
Qed.

Lemma frames_valid_app (st extra : list DataFrame) (items : reports) :
  frames_valid st items → frames_valid (st ++ extra) items.
Proof.
  unfold frames_valid. intros Hv. eapply Forall_impl; [exact Hv|].
  intros [name [l|]]; simpl; [|done].
  intros [g Hg]. exists g. by apply lookup_app_l_Some.
Qed.

Lemma valid_group_frame (st : list DataFrame) (item : string * pyobj)
    (items : reports) :
  frames_valid st (item :: items) →
  (item.2 = NotAFrame ∨ ∃ l g, item.2 = Frame l ∧ st !! l = Some g) ∧
  frames_valid st items.
Proof.
  intros Hv. apply Forall_cons in Hv as [Hi Hv]. split; [|done].
  destruct item as [name [l|]]; simpl in *; [|by left].
  destruct Hi as [g Hg]. right. eauto.
Qed.

Lemma written_groups_cons (st : list DataFrame) (item : string * pyobj)
    (items : reports) :
  written_groups st (item :: items) =
  match group_frame st item.2 with
  | Some g =>
      if df_empty g then written_groups st items
      else (item.1, g) :: written_groups st items
  | None => written_groups st items
  end.
Proof.
  unfold written_groups. simpl.
  destruct (group_frame st item.2) as [g|]; [|done]. by destruct (df_empty g).
Qed.

Lemma total_of_cons (st : list DataFrame) (item : string * pyobj)
    (items : reports) :
  total_of st (item :: items) =
  match group_frame st item.2 with
  | Some g => df_len g + total_of st items
  | None => total_of st items
  end.
Proof. unfold total_of. simpl. by destruct (group_frame st item.2). Qed.

Lemma groups_of_cons (st : list DataFrame) (item : string * pyobj)
    (items : reports) :
  groups_of st (item :: items) =
  match group_frame st item.2 with
  | Some g => (if df_empty g then 0 else 1) + groups_of st items
  | None => groups_of st items
  end.
Proof.
  unfold groups_of. simpl. destruct (group_frame st item.2) as [g|]; [|done].
  rewrite filter_cons. by destruct (df_empty g).
Qed.

Lemma valid_group_frame_app (st extra : list DataFrame) (item : string * pyobj)
    (items : reports) :
  frames_valid st (item :: items) →
  group_frame (st ++ extra) item.2 = group_frame st item.2.
Proof.
  intros [Hi _]%valid_group_frame.
  destruct Hi as [Hn|(l & g & Hf & Hg)].
  - by rewrite Hn.
  - rewrite Hf. simpl. by rewrite Hg, (lookup_app_l_Some _ _ _ _ Hg).
Qed.

Lemma written_groups_app (st extra : list DataFrame) (items : reports) :
  frames_valid st items →
  written_groups (st ++ extra) items = written_groups st items.
Proof.
  induction items as [|item items IH]; [done|]. intros Hv.
  rewrite !written_groups_cons, (valid_group_frame_app _ _ _ _ Hv).
  apply valid_group_frame in Hv as [_ Hv]. by rewrite IH.
Qed.

Lemma total_of_app (st extra : list DataFrame) (items : reports) :
  frames_valid st items → total_of (st ++ extra) items = total_of st items.
Proof.
  induction items as [|item items IH]; [done|]. intros Hv.
  rewrite !total_of_cons, (valid_group_frame_app _ _ _ _ Hv).
  apply valid_group_frame in Hv as [_ Hv]. by rewrite IH.
Qed.

Lemma groups_of_app (st extra : list DataFrame) (items : reports) :
  frames_valid st items → groups_of (st ++ extra) items = groups_of st items.
Proof.
  induction items as [|item items IH]; [done|]. intros Hv.
  rewrite !groups_of_cons, (valid_group_frame_app _ _ _ _ Hv).
  apply valid_group_frame in Hv as [_ Hv]. by rewrite IH.
Qed.


(** One turn of the export loop on a live frame. *)
Lemma export_group_run (writer : list worksheet) (name : string) (l : loc)
    (g : DataFrame) (w : world) :
  store w !! l = Some g →
  ∃ created,
    export_group writer (name, Frame l) w =
    (if df_empty g then Done writer
     else match export_error writer name g with
          | Some e => Raised e
          | None => Done (write_sheet (sheet_name_of name)
                            (sheet_of (exported g)) writer)
          end,
     mk_world (store w ++ created) (trace w)).
Proof.
  intros Hl. unfold export_group, df_drop, df_copy, to_excel, export_error,
    exported.
  run_with ltac:(rewrite (load_run _ _ _ Hl)).
  destruct (df_empty g).
  { exists []. rewrite app_nil_r. by destruct w. }
  cbv zeta.
  run_with ltac:(rewrite (load_run _ _ _ Hl)).
  unfold alloc at 1. cbv beta iota.
  run_with ltac:(rewrite load_fresh).
  unfold alloc at 1. cbv beta iota. simpl store. simpl trace.
  set (d := drop_columns ["Group"] g).
  rewrite bind_run.
  rewrite (coerce_run (length (store w ++ [d])) d).
  2:{ simpl. by apply list_lookup_middle. }
  simpl store. simpl trace.
  destruct (coerce_error d) as [e|].
  { eexists. rewrite <- !app_assoc. reflexivity. }
  run_with ltac:(rewrite load_fresh).
  destruct (to_excel_error writer (sheet_name_of name) (coerced d)) as [e|];
    run; eexists; rewrite <- !app_assoc; reflexivity.
Qed.

Lemma export_groups_run (items : reports) (writer : list worksheet)
    (w : world) :
  frames_valid (store w) items →
  ∃ created,
    export_groups writer items w =
    (match write_groups writer (written_groups (store w) items) with
     | inl e => Raised e
     | inr book => Done book
     end,
     mk_world (store w ++ created) (trace w)).
Proof.
  revert writer w. induction items as [|item items IH]; intros writer w Hv.
  - exists []. simpl. rewrite ret_run, app_nil_r. by destruct w.
  - pose proof Hv as Hv0.
    apply valid_group_frame in Hv as [Hi Hv]. simpl export_groups.
    destruct item as [name obj]. simpl in Hi.
    rewrite written_groups_cons. simpl fst. simpl snd.
    destruct Hi as [->|(l & g & -> & Hg)].
    + rewrite bind_run. simpl export_group. rewrite ret_run. cbv beta iota.
      simpl group_frame. by apply IH.
    + simpl group_frame. rewrite Hg.
      destruct (export_group_run writer name l g w Hg) as (created & Hrun).
      rewrite bind_run, Hrun.
      destruct (df_empty g).
      * destruct (IH writer (mk_world (store w ++ created) (trace w)))
          as (created' & ->); [by apply frames_valid_app|].
        simpl store. simpl trace. rewrite written_groups_app by done.
        exists (created ++ created')%list. by rewrite <- app_assoc.
      * simpl write_groups.
        destruct (export_error writer name g) as [e|]; [by eexists|].
        destruct (IH (write_sheet (sheet_name_of name) (sheet_of (exported g))
                        writer)
                     (mk_world (store w ++ created) (trace w)))
          as (created' & ->); [by apply frames_valid_app|].
        simpl store. simpl trace. rewrite written_groups_app by done.
        exists (created ++ created')%list. by rewrite <- app_assoc.
Qed.

Lemma total_entries_run (items : reports) (w : world) :
  frames_valid (store w) items →
  total_entries items w = (Done (total_of (store w) items), w).
Proof.
  induction items as [|[name obj] items IH]; [done|].
  intros [Hi Hv]%valid_group_frame. simpl in Hi. rewrite total_of_cons.
  destruct Hi as [->|(l & g & -> & Hg)]; simpl.
  - by apply IH.
  - run_with ltac:(first [rewrite (load_run _ _ _ Hg) | rewrite (IH Hv)]).
    by rewrite Hg.
Qed.

Lemma num_groups_run (items : reports) (w : world) :
  frames_valid (store w) items →
  num_groups items w = (Done (groups_of (store w) items), w).
Proof.
  induction items as [|[name obj] items IH]; [done|].
  intros [Hi Hv]%valid_group_frame. simpl in Hi. rewrite groups_of_cons.
  destruct Hi as [->|(l & g & -> & Hg)]; simpl.
  - by apply IH.
  - run_with ltac:(first [rewrite (load_run _ _ _ Hg) | rewrite (IH Hv)]).
    by rewrite Hg.
Qed.

(** The whole export, for a dict with at least one key. *)
Lemma render_run (traveler_reports : reports) (report_time : datetime)
    (asset_id : string) (w : world) :
  traveler_reports ≠ [] →
  frames_valid (store w) traveler_reports →
  ∃ created,
    render_unified_export traveler_reports report_time asset_id w =
    match write_groups [] (written_groups (store w) traveler_reports) with
    | inl e =>
        (Raised e,
         mk_world (store w ++ created)
           (trace w ++
            [st_markdown "---";
             st_markdown "### 📥 Unified Excel Download"]))
    | inr book =>
        (Done tt,
         mk_world (store w ++ created)
           (trace w ++
            [st_markdown "---";
             st_markdown "### 📥 Unified Excel Download";
             st_download_button "📥 Download Excel Report"
               (close_workbook book)
               (export_file_name asset_id report_time) xlsx_mime
               ("Excel file contains " +:+
                pretty (groups_of (store w) traveler_reports) +:+
                " sheets with " +:+
                pretty (total_of (store w) traveler_reports) +:+
                " total entries")]))
    end.
Proof.
  intros Hne Hv. unfold render_unified_export.
  destruct traveler_reports as [|item items]; [done|].
  set (its := item :: items) in *.
  unfold emit. run.
  set (w1 := mk_world _ _).
  destruct (export_groups_run its [] w1) as (created & Hrun); [done|].
  rewrite Hrun. exists created. subst w1. simpl store. simpl trace.
  destruct (write_groups [] (written_groups (store w) its)) as [e|book].
  { by rewrite <- !app_assoc. }
  cbv zeta.
  run_with ltac:(first
    [ rewrite total_entries_run by (by apply frames_valid_app)
    | rewrite num_groups_run by (by apply frames_valid_app) ]).
  simpl store. simpl trace.
  rewrite total_of_app, groups_of_app by done.
  rewrite <- !app_assoc. reflexivity.
Qed.

End ExportProofs.

(** ** Export: file name, empty reports, Arrival, frame condition *)

Lemma zfill_two_digits (n : nat) :
  n < 100 → zfill 2 (pretty n) = two_digits n.
Proof.
  intros Hn.
  assert (forallb (λ k, bool_decide (zfill 2 (pretty k) = two_digits k))
            (seq 0 100) = true) as Hall by (vm_compute; reflexivity).
  rewrite forallb_forall in Hall.
  specialize (Hall n). rewrite bool_decide_eq_true in Hall. apply Hall.
  apply in_seq. lia.
Qed.

Lemma string_append_assoc (a b c : string) :
  (a +:+ b) +:+ c = a +:+ b +:+ c.
Proof.
  induction a as [|x a IH]; [done|].
  change (String x ((a +:+ b) +:+ c) = String x (a +:+ b +:+ c)).
  by rewrite IH.
Qed.

Lemma string_length_append (a b : string) :
  String.length (a +:+ b) = String.length a + String.length b.
Proof.
  induction a as [|x a IH]; [done|].
  change (S (String.length (a +:+ b)) = S (String.length a + String.length b)).
  by rewrite IH.
Qed.

(** The code's lowercase and month abbreviation against the
    specification's alphabets and calendar. *)
Lemma ascii_lower_spec (c : ascii) :
  ascii_lower c = spec_lowercase_letter c capital_letters small_letters.
Proof.
  destruct c as [[] [] [] [] [] [] [] []]; vm_compute; reflexivity.
Qed.

Lemma lower_spec (s : string) : lower s = spec_lowercased s.
Proof.
  induction s as [|c s IH]; [done|]. simpl. by rewrite IH, ascii_lower_spec.
Qed.

Lemma month_abbr_spec (m : nat) :
  (1 ≤ m ≤ 12)%nat → month_abbr m = spec_month_name m.
Proof.
  intros [Hlo Hhi].
  destruct m as [|[|[|[|[|[|[|[|[|[|[|[|[|m]]]]]]]]]]]]]; try reflexivity; lia.
Qed.

Lemma export_file_name_spec (asset_id : string) (t : datetime) :
  valid_datetime t → export_file_name asset_id t = spec_file_name asset_id t.
Proof.
  intros (Hmo & Hd & Hh & Hm).
  unfold export_file_name, spec_file_name, spec_time_stamp, strftime_export,
    asset_prefix.
  rewrite !zfill_two_digits by (try lia; apply Nat.mod_upper_bound; lia).
  rewrite (month_abbr_spec _ Hmo), lower_spec.
  rewrite !string_append_assoc.
  destruct asset_id; [reflexivity|].
  destruct (decide _) as [Heq|_]; [discriminate Heq|].
  rewrite !string_append_assoc. reflexivity.
Qed.

Lemma file_names_app {rt : Runtime} (tr tr' : list event) :
  file_names (tr ++ tr') = (file_names tr ++ file_names tr')%list.
Proof. apply omap_app. Qed.

Lemma downloads_app {rt : Runtime} (tr tr' : list event) :
  downloads (tr ++ tr') = (downloads tr ++ downloads tr')%list.
Proof. apply omap_app. Qed.

Section ExportTheorems.
Context {rt : Runtime} {pd : Pandas}.

(** C9. For a report time within the fields' ranges and an ASCII asset
    id, the name the code builds is the specification's: the asset id
    with each capital letter replaced by its small letter and an
    underscore (nothing at all when the asset id is empty), then
    [traveler_report_], the report time as two-digit day, three-letter
    month name, two-digit year, two-digit hour and minute, and [.xlsx].
    The export offers a download under that name when it is given a dict
    with a key and runs to its end, and offers no download otherwise. *)
Theorem export_file_name_format (traveler_reports : reports)
    (report_time : datetime) (asset_id : string) (w : world) :
  valid_datetime report_time →
  ascii_text asset_id →
  let after := render_unified_export traveler_reports report_time asset_id w in
  export_file_name asset_id report_time = spec_file_name asset_id report_time ∧
  file_names (trace after.2) =
    (file_names (trace w) ++
     match traveler_reports, after.1 with
     | _ :: _, Done _ => [spec_file_name asset_id report_time]
     | _, _ => []
     end)%list ∧
  (asset_id = "" →
   spec_file_name asset_id report_time =
     "traveler_report_" +:+ spec_time_stamp report_time +:+ ".xlsx") ∧
  (asset_id ≠ "" →
   spec_file_name asset_id report_time =
     spec_lowercased asset_id +:+ "_traveler_report_" +:+
     spec_time_stamp report_time +:+ ".xlsx") ∧
  String.length (spec_time_stamp report_time) = 15.
Proof.
  intros Ht Hascii after. split_and!.
  - by apply export_file_name_spec.
  - subst after. destruct traveler_reports as [|item items].
    { simpl. by rewrite app_nil_r. }
    pose proof (render_trace (item :: items) report_time asset_id w) as Htr.
    cbv zeta in Htr. specialize (Htr ltac:(done)).
    destruct (render_unified_export _ _ _ w) as [[[]| |e] w']; cbn [fst snd] in *.
    + destruct Htr as (data & help & ->).
      rewrite file_names_app. simpl. by rewrite export_file_name_spec.
    + rewrite Htr, file_names_app. reflexivity.
    + rewrite Htr, file_names_app. reflexivity.
  - intros ->. reflexivity.
  - intros Hid. unfold spec_file_name.
    destruct (decide (asset_id = "")) as [Heq|_]; [done|].
    by rewrite !string_append_assoc.
  - destruct Ht as ((Hm1 & Hm2) & _). unfold spec_time_stamp.
    assert (String.length (spec_month_name (month report_time)) = 3) as Hlen.
    { destruct (month report_time) as [|[|[|[|[|[|[|[|[|[|[|[|[|m]]]]]]]]]]]]];
        try reflexivity; lia. }
    rewrite !string_length_append, Hlen. reflexivity.
Qed.

(** A dict whose values are all non-frames or frames without rows: the
    loop writes nothing and both counts are 0. *)
Lemma all_empty_run (items : reports) (w : world) :
  Forall (λ item, match item.2 with
                  | Frame l => ∃ g, store w !! l = Some g ∧ rows g = []
                  | NotAFrame => True
                  end) items →
  (∀ writer, export_groups writer items w = (Done writer, w)) ∧
  total_entries items w = (Done 0, w) ∧
  num_groups items w = (Done 0, w).
Proof.
  induction 1 as [|[name obj] items Hi _ (He & Ht & Hg)]; [done|].
  simpl in Hi. destruct obj as [l|]; simpl.
  - destruct Hi as (g & Hl & Hrows).
    assert (df_empty g = true) as Hempty
      by (unfold df_empty; rewrite Hrows; by destruct (columns g)).
    split_and!.
    + intros writer.
      run_with ltac:(first [rewrite (load_run _ _ _ Hl) | rewrite Hempty]).
      apply He.
    + run_with ltac:(first [rewrite (load_run _ _ _ Hl) | rewrite Ht]).
      unfold df_len. by rewrite Hrows.
    + run_with ltac:(first [rewrite (load_run _ _ _ Hl) | rewrite Hg]).
      by rewrite Hempty.
  - split_and!; [|done..]. intros writer. run. apply He.
Qed.

(** C2 (as amended). For a dict with at least one key in which every
    value is not a data frame or is a data frame without rows, the export
    does not raise: it writes into no worksheet, creates no frame, and
    offers the download of the workbook as the writer closes it, which
    holds the one empty worksheet [Sheet1], under a help text that
    reports 0 sheets and 0 entries. For the dict without keys it returns
    at once and offers nothing. *)
Theorem export_of_empty_groups (traveler_reports : reports)
    (report_time : datetime) (asset_id : string) (w : world) :
  Forall (λ item, match item.2 with
                  | Frame l => ∃ g, store w !! l = Some g ∧ rows g = []
                  | NotAFrame => True
                  end) traveler_reports →
  render_unified_export traveler_reports report_time asset_id w =
  match traveler_reports with
  | [] => (Done tt, w)
  | _ =>
      (Done tt,
       mk_world (store w)
         (trace w ++
          [st_markdown "---"; st_markdown "### 📥 Unified Excel Download";
           st_download_button "📥 Download Excel Report"
             [mk_worksheet "Sheet1" []]
             (export_file_name asset_id report_time) xlsx_mime
             "Excel file contains 0 sheets with 0 total entries"]))
  end.
Proof.
  intros Hempty. unfold render_unified_export.
  destruct traveler_reports as [|item items]; [reflexivity|].
  set (its := item :: items) in *. unfold emit. run. cbv zeta.
  set (w1 := mk_world _ _).
  destruct (all_empty_run its w1 Hempty) as (He & Ht & Hg).
  run_with ltac:(first [rewrite He | rewrite Ht | rewrite Hg]).
  subst w1. simpl. rewrite <- !app_assoc. reflexivity.
Qed.

(** C10. The export does not change any object that existed before the
    call: every frame of the store, and so every group's table, has the
    same columns and rows afterwards, whatever the export returns. *)
Theorem export_leaves_input_unchanged (traveler_reports : reports)
    (report_time : datetime) (asset_id : string) (w : world)
    (l : loc) (df : DataFrame) :
  store w !! l = Some df →
  store (render_unified_export traveler_reports report_time asset_id w).2 !! l
  = Some df.
Proof.
  intros Hl. eapply prefix_lookup_Some; [exact Hl|]. apply grows_render.
Qed.

End ExportTheorems.

(** ** Arrival coercion *)

Section ArrivalProofs.
Context {rt : Runtime} {pd : Pandas}.

Lemma get_loc_app_new (name : string) (cols : list string) :
  get_loc name cols = None →
  get_loc name (cols ++ [name]) = Some (length cols).
Proof.
  induction cols as [|c cols IH]; simpl.
  - by rewrite String.eqb_refl.
  - destruct (String.eqb c name); [done|].
    destruct (get_loc name cols); [done|]. intros _. by rewrite IH.
Qed.

Lemma read_after_insert (i : nat) (rows : list (list cell)) (vals : list cell) :
  Forall (λ r, i < length r) rows → length vals = length rows →
  map (λ r, nth i r NaN) (zip_with (λ r v, <[i := v]> r) rows vals) = vals.
Proof.
  intros Hrows. revert vals.
  induction Hrows as [|r rows Hr _ IH]; intros [|v vals] Hlen;
    simplify_eq/=; [done|].
  f_equal; [|by apply IH].
  by rewrite nth_lookup, list_lookup_insert_eq.
Qed.

Lemma read_after_append (n : nat) (rows : list (list cell)) (vals : list cell) :
  Forall (λ r, length r = n) rows → length vals = length rows →
  map (λ r, nth n r NaN) (zip_with (λ r v, (r ++ [v])%list) rows vals) = vals.
Proof.
  intros Hrows. revert vals.
  induction Hrows as [|r rows Hr _ IH]; intros [|v vals] Hlen;
    simplify_eq/=; [done|].
  f_equal; [|by apply IH].
  by rewrite nth_lookup, list_lookup_middle.
Qed.

(** Reading a column back after [df[name] = vals]. *)
Lemma get_set_column (name : string) (vals : list cell) (df : DataFrame) :
  rectangular df → length vals = length (rows df) →
  get_column name (set_column name vals df) = Some vals.
Proof.
  intros Hrect Hlen. unfold set_column, get_column.
  destruct (get_loc name (columns df)) as [i|] eqn:Hloc; simpl.
  - rewrite Hloc. simpl. f_equal. apply read_after_insert; [|done].
    eapply Forall_impl; [exact Hrect|]. intros r ->. simpl.
    by eapply get_loc_lt.
  - rewrite (get_loc_app_new _ _ Hloc). simpl. f_equal.
    by apply read_after_append.
Qed.

Lemma get_column_length (name : string) (df : DataFrame) (col : list cell) :
  get_column name df = Some col → length col = length (rows df).
Proof.
  unfold get_column. destruct (get_loc name (columns df)); simpl; [|done].
  intros [= <-]. by rewrite length_map.
Qed.

Lemma has_column_false (name : string) (df : DataFrame) :
  has_column name df = false ↔ get_column name df = None.
Proof.
  unfold has_column, get_column. rewrite bool_decide_eq_false. split.
  - intros Hnin. by rewrite (get_loc_None _ _ Hnin).
  - intros Hnone Hin. destruct (get_loc_Some _ _ Hin) as [i Hi].
    by rewrite Hi in Hnone.
Qed.

Lemma converted_length (infer : bool) (col : list cell) :
  length (converted infer col) = length col.
Proof. apply length_imap. Qed.

Lemma converted_lookup (infer : bool) (col : list cell) (i : nat) (c : cell) :
  converted infer col !! i = Some c →
  c = from_option Time NaT (to_datetime_value infer col i).
Proof.
  unfold converted. rewrite list_lookup_imap.
  destruct (col !! i); simpl; [|done]. by intros [= <-].
Qed.

Lemma converted_stamp (infer : bool) (col : list cell) :
  Forall (λ c, c = NaT ∨ ∃ t, c = Time t) (converted infer col).
Proof.
  apply Forall_lookup. intros i c ->%converted_lookup.
  destruct (to_datetime_value infer col i); simpl; eauto.
Qed.

(** The [Arrival] column of the frame [_coerce_arrival_datetime] returns. *)
Lemma coerced_arrival (df : DataFrame) :
  rectangular df →
  (∀ src, get_column "Arrival_datetime" df = Some src →
          get_column "Arrival" (coerced df) = Some (converted false src)) ∧
  (get_column "Arrival_datetime" df = None →
   ∀ src, get_column "Arrival" df = Some src →
          get_column "Arrival" (coerced df) = Some (converted true src)) ∧
  (get_column "Arrival_datetime" df = None →
   get_column "Arrival" df = None → coerced df = df).
Proof.
  intros Hrect. unfold coerced. split_and!.
  - intros src Hsrc.
    destruct (has_column "Arrival_datetime" df) eqn:Had.
    + rewrite Hsrc. apply get_set_column; [done|].
      rewrite converted_length. by eapply get_column_length.
    + apply has_column_false in Had. congruence.
  - intros Hnone src Hsrc.
    apply has_column_false in Hnone as ->.
    destruct (has_column "Arrival" df) eqn:Ha.
    + rewrite Hsrc. apply get_set_column; [done|].
      rewrite converted_length. by eapply get_column_length.
    + apply has_column_false in Ha. congruence.
  - intros Hnone Hnone'.
    apply has_column_false in Hnone as ->.
    by apply has_column_false in Hnone' as ->.
Qed.

(** Dropping other columns does not touch a column that is kept. *)
Lemma drop_cells_length (names cols : list string) (r : list cell) :
  length r = length cols →
  length (drop_cells names cols r) = length (filter (λ c, c ∉ names) cols).
Proof.
  revert r. induction cols as [|c cols IH]; intros [|x r] Hlen;
    simplify_eq/=; [done|].
  rewrite filter_cons. case_bool_decide as Hc.
  - rewrite decide_False by (intros Hn; by apply Hn). by apply IH.
  - rewrite decide_True by done. simpl. f_equal. by apply IH.
Qed.

Lemma rectangular_drop (names : list string) (df : DataFrame) :
  rectangular df → rectangular (drop_columns names df).
Proof.
  unfold rectangular, drop_columns. simpl. intros Hrect.
  apply Forall_fmap. eapply Forall_impl; [exact Hrect|].
  intros r Hr. simpl. by apply drop_cells_length.
Qed.

Lemma get_loc_drop (name : string) (names cols : list string) :
  name ∉ names →
  match get_loc name cols with
  | Some i =>
      ∃ j, get_loc name (filter (λ c, c ∉ names) cols) = Some j ∧
           ∀ r : list cell, length r = length cols →
                nth j (drop_cells names cols r) NaN = nth i r NaN
  | None => get_loc name (filter (λ c, c ∉ names) cols) = None
  end.
Proof.
  intros Hname. induction cols as [|c cols IH]; [done|].
  simpl get_loc. rewrite filter_cons.
  destruct (String.eqb_spec c name) as [->|Hne].
  - rewrite decide_True by done. simpl. rewrite String.eqb_refl.
    exists 0. split; [done|]. intros [|x r] Hlen; simplify_eq/=.
    by rewrite bool_decide_eq_false_2.
  - destruct (decide (c ∉ names)) as [Hc|Hc].
    + simpl. apply String.eqb_neq in Hne. rewrite Hne.
      destruct (get_loc name cols) as [i|]; simpl.
      * destruct IH as (j & -> & Hnth). exists (S j). split; [done|].
        intros [|x r] Hlen; simplify_eq/=.
        rewrite bool_decide_eq_false_2 by done. simpl. by apply Hnth.
      * by rewrite IH.
    + destruct (get_loc name cols) as [i|]; simpl.
      * destruct IH as (j & -> & Hnth). exists j. split; [done|].
        intros [|x r] Hlen; simplify_eq/=.
        rewrite bool_decide_eq_true_2 by (by apply dec_stable). by apply Hnth.
      * exact IH.
Qed.

Lemma get_column_drop (name : string) (names : list string) (df : DataFrame) :
  name ∉ names → rectangular df →
  get_column name (drop_columns names df) = get_column name df.
Proof.
  intros Hname Hrect. unfold get_column, drop_columns. simpl.
  pose proof (get_loc_drop name names (columns df) Hname) as Hloc.
  destruct (get_loc name (columns df)) as [i|]; simpl.
  - destruct Hloc as (j & -> & Hnth). simpl. f_equal.
    rewrite map_map. apply Forall_fmap_ext.
    eapply Forall_impl; [exact Hrect|]. intros r Hr. simpl. by apply Hnth.
  - by rewrite Hloc.
Qed.

(** One turn of the loop for a group the libraries accept. *)
Lemma export_group_writes (writer : list worksheet) (name : string) (l : loc)
    (g : DataFrame) (w : world) :
  store w !! l = Some g → df_empty g = false →
  export_error writer name g = None →
  ∃ created,
    export_group writer (name, Frame l) w =
    (Done (write_sheet (sheet_name_of name) (sheet_of (exported g)) writer),
     mk_world (store w ++ created) (trace w)).
Proof.
  intros Hl Hne Hok.
  destruct (export_group_run writer name l g w Hl) as (created & Hrun).
  exists created. by rewrite Hrun, Hne, Hok.
Qed.


End ArrivalProofs.

(** ** The columns of a written table *)

Section SheetFacts.
Context {rt : Runtime} {pd : Pandas}.

Lemma get_loc_lookup (name : string) (cols : list string) (i : nat) :
  get_loc name cols = Some i → cols !! i = Some name.
Proof.
  revert i. induction cols as [|c cols IH]; intros i; simpl; [done|].
  destruct (String.eqb_spec c name) as [->|_].
  - by intros [= <-].
  - destruct (get_loc name cols) as [j|]; simpl; [|done].
    intros [= <-]. by apply IH.
Qed.

Lemma get_loc_is_Some (name : string) (cols : list string) :
  is_Some (get_loc name cols) ↔ name ∈ cols.
Proof.
  split; [|apply get_loc_Some].
  intros [i Hi]. eapply list_elem_of_lookup_2, get_loc_lookup, Hi.
Qed.

Lemma get_loc_app_other (name other : string) (cols : list string) :
  name ≠ other → get_loc name (cols ++ [other]) = get_loc name cols.
Proof.
  intros Hne. induction cols as [|c cols IH]; simpl.
  - destruct (String.eqb_spec other name) as [->|_]; done.
  - destruct (String.eqb c name); [done|]. by rewrite IH.
Qed.

Lemma set_column_columns (name : string) (vals : list cell) (df : DataFrame) :
  columns (set_column name vals df) =
  if bool_decide (name ∈ columns df) then columns df
  else (columns df ++ [name])%list.
Proof.
  unfold set_column. case_bool_decide as Hin.
  - by destruct (get_loc_Some _ _ Hin) as [i ->].
  - by rewrite (get_loc_None _ _ Hin).
Qed.

Lemma coerced_columns (df : DataFrame) :
  columns (coerced df) =
  if bool_decide ("Arrival_datetime" ∈ columns df) &&
     negb (bool_decide ("Arrival" ∈ columns df))
  then (columns df ++ ["Arrival"])%list else columns df.
Proof.
  unfold coerced, has_column.
  destruct (bool_decide ("Arrival_datetime" ∈ columns df)) eqn:Had; simpl.
  - destruct (has_column_get "Arrival_datetime" df Had) as [col ->].
    rewrite set_column_columns.
    by destruct (bool_decide ("Arrival" ∈ columns df)).
  - destruct (bool_decide ("Arrival" ∈ columns df)) eqn:Ha; [|done].
    destruct (has_column_get "Arrival" df Ha) as [col ->].
    rewrite set_column_columns. unfold has_column in Ha. by rewrite Ha.
Qed.

Lemma set_column_rows_length (name : string) (vals : list cell) (df : DataFrame) :
  length vals = length (rows df) →
  length (rows (set_column name vals df)) = length (rows df).
Proof.
  intros Hlen. unfold set_column.
  destruct (get_loc name (columns df)); simpl; rewrite length_zip_with; lia.
Qed.

Lemma rectangular_set_column (name : string) (vals : list cell) (df : DataFrame) :
  rectangular df → length vals = length (rows df) →
  rectangular (set_column name vals df).
Proof.
  unfold rectangular, set_column. intros Hrect Hlen.
  destruct (get_loc name (columns df)) as [i|]; simpl.
  - revert vals Hlen. induction Hrect as [|r rs Hr _ IH]; intros [|v vals] Hlen;
      simplify_eq/=; constructor; [by rewrite length_insert|by apply IH].
  - revert vals Hlen. induction Hrect as [|r rs Hr _ IH]; intros [|v vals] Hlen;
      simplify_eq/=; constructor; [|by apply IH].
    rewrite !length_app. simpl. lia.
Qed.

Lemma rectangular_coerced (df : DataFrame) :
  rectangular df → rectangular (coerced df).
Proof.
  intros Hrect. unfold coerced.
  destruct (has_column "Arrival_datetime" df).
  - destruct (get_column "Arrival_datetime" df) as [col|] eqn:Hcol; [|done].
    apply rectangular_set_column; [done|].
    rewrite converted_length. by eapply get_column_length.
  - destruct (has_column "Arrival" df); [|done].
    destruct (get_column "Arrival" df) as [col|] eqn:Hcol; [|done].
    apply rectangular_set_column; [done|].
    rewrite converted_length. by eapply get_column_length.
Qed.

Lemma map_zip_with_unchanged {A B C} (f : A → C) (g : A → B → A)
    (xs : list A) (ys : list B) :
  length ys = length xs →
  Forall (λ x, ∀ y, f (g x y) = f x) xs →
  map f (zip_with g xs ys) = map f xs.
Proof.
  intros Hlen Hall. revert ys Hlen.
  induction Hall as [|x xs Hx _ IH]; intros [|y ys] Hlen; simplify_eq/=;
    [done|]. by rewrite Hx, IH.
Qed.

(** [df[name] = vals] leaves every other column as it was. *)
Lemma get_set_other_column (k name : string) (vals : list cell) (df : DataFrame) :
  k ≠ name → rectangular df → length vals = length (rows df) →
  get_column k (set_column name vals df) = get_column k df.
Proof.
  intros Hne Hrect Hlen. unfold get_column, set_column.
  destruct (get_loc name (columns df)) as [i|] eqn:Hi; simpl.
  - destruct (get_loc k (columns df)) as [j|] eqn:Hj; simpl; [|done].
    f_equal. apply map_zip_with_unchanged; [done|].
    eapply Forall_impl; [exact Hrect|]. intros r Hr v. simpl.
    rewrite !nth_lookup, list_lookup_insert_ne; [done|].
    intros ->. apply get_loc_lookup in Hi, Hj. congruence.
  - rewrite get_loc_app_other by done.
    destruct (get_loc k (columns df)) as [j|] eqn:Hj; simpl; [|done].
    f_equal. apply map_zip_with_unchanged; [done|].
    eapply Forall_impl; [exact Hrect|]. intros r Hr v. simpl.
    rewrite !nth_lookup, lookup_app_l; [done|].
    rewrite Hr. by eapply get_loc_lt.
Qed.

Lemma get_coerced_other_column (k : string) (df : DataFrame) :
  k ≠ "Arrival" → rectangular df →
  get_column k (coerced df) = get_column k df.
Proof.
  intros Hne Hrect. unfold coerced.
  destruct (has_column "Arrival_datetime" df).
  - destruct (get_column "Arrival_datetime" df) as [col|] eqn:Hcol; [|done].
    apply get_set_other_column; [done..|].
    rewrite converted_length. by eapply get_column_length.
  - destruct (has_column "Arrival" df); [|done].
    destruct (get_column "Arrival" df) as [col|] eqn:Hcol; [|done].
    apply get_set_other_column; [done..|].
    rewrite converted_length. by eapply get_column_length.
Qed.

Lemma coerced_rows_length (df : DataFrame) :
  length (rows (coerced df)) = length (rows df).
Proof.
  unfold coerced.
  destruct (has_column "Arrival_datetime" df).
  - destruct (get_column "Arrival_datetime" df) as [col|] eqn:Hcol; [|done].
    apply set_column_rows_length.
    rewrite converted_length. by eapply get_column_length.
  - destruct (has_column "Arrival" df); [|done].
    destruct (get_column "Arrival" df) as [col|] eqn:Hcol; [|done].
    apply set_column_rows_length.
    rewrite converted_length. by eapply get_column_length.
Qed.

Lemma exported_rows_length (g : DataFrame) :
  length (rows (exported g)) = length (rows g).
Proof.
  unfold exported. rewrite coerced_rows_length. simpl. by rewrite length_map.
Qed.

Lemma exported_columns (g : DataFrame) :
  columns (exported g) =
  (filter (λ c, c ≠ "Group") (columns g) ++
   if bool_decide ("Arrival_datetime" ∈ columns g) &&
      negb (bool_decide ("Arrival" ∈ columns g))
   then ["Arrival"] else [])%list.
Proof.
  unfold exported. rewrite coerced_columns. simpl.
  assert (filter (λ c, c ∉ ["Group"]) (columns g) =
          filter (λ c, c ≠ "Group") (columns g)) as ->.
  { apply list_filter_iff. intros c. by rewrite list_elem_of_singleton. }
  assert (∀ k, k ≠ "Group" →
            bool_decide (k ∈ filter (λ c, c ≠ "Group") (columns g)) =
            bool_decide (k ∈ columns g)) as Hmem.
  { intros k Hk. apply bool_decide_ext. rewrite list_elem_of_filter.
    split; [by intros [_ ?]|by intros ?]. }
  rewrite !Hmem by done.
  destruct (_ && _); [done|by rewrite app_nil_r].
Qed.

End SheetFacts.

(** ** The table built from the reply *)

Section ReplyFacts.
Context {rt : Runtime}.

Lemma rectangular_frame_of_records (data : list record) :
  rectangular (frame_of_records data).
Proof.
  unfold rectangular, frame_of_records. simpl.
  apply Forall_fmap, Forall_true. intros r. simpl. by rewrite length_map.
Qed.

Lemma add_keys_elem (k : string) (keys seen : list string) :
  k ∈ add_keys seen keys ↔ k ∈ seen ∨ k ∈ keys.
Proof.
  revert seen. induction keys as [|x keys IH]; intros seen; simpl.
  - split; [auto|]. intros [Hk|Hk]; [done|by apply not_elem_of_nil in Hk].
  - rewrite IH. case_bool_decide as Hx.
    + rewrite elem_of_cons. split; [intros [?|?]; auto|].
      intros [?|[->|?]]; auto.
    + rewrite elem_of_app, list_elem_of_singleton, elem_of_cons.
      split; [intros [[?|?]|?]; auto|intros [?|[?|?]]; auto].
Qed.

Lemma frame_columns_elem_from (k : string) (data : list record)
    (seen : list string) :
  k ∈ foldl (λ seen r, add_keys seen r.*1) seen data ↔
  k ∈ seen ∨ ∃ r, r ∈ data ∧ k ∈ r.*1.
Proof.
  revert seen. induction data as [|r data IH]; intros seen; simpl.
  - split; [auto|]. intros [?|(r & Hr & _)]; [done|].
    by apply not_elem_of_nil in Hr.
  - rewrite IH, add_keys_elem. split.
    + intros [[?|?]|(r' & Hr' & Hk)]; [by left| |].
      * right. exists r. split; [left|done].
      * right. exists r'. split; [by right|done].
    + intros [?|(r' & Hr' & Hk)]; [by left; left|].
      apply elem_of_cons in Hr' as [->|Hr']; [by left; right|].
      right. eauto.
Qed.

Lemma frame_columns_elem (k : string) (data : list record) :
  k ∈ frame_columns data ↔ ∃ r, r ∈ data ∧ k ∈ r.*1.
Proof.
  unfold frame_columns. rewrite frame_columns_elem_from. split; [|auto].
  intros [Hk|?]; [by apply not_elem_of_nil in Hk|done].
Qed.

(** A column of [pd.DataFrame(data)] holds each record's value for that
    key, or NaN, in record order. *)
Lemma frame_of_records_column (k : string) (data : list record) :
  k ∈ frame_columns data →
  get_column k (frame_of_records data) =
  Some (map (λ r, from_option Val NaN (record_get k r)) data).
Proof.
  intros Hk. unfold get_column, frame_of_records. simpl.
  destruct (get_loc_Some _ _ Hk) as [i Hi]. rewrite Hi. simpl. f_equal.
  rewrite map_map. apply map_ext. intros r.
  apply get_loc_lookup in Hi.
  by rewrite nth_lookup, list_lookup_fmap, Hi.
Qed.

End ReplyFacts.

Section ReplyExport.
Context {rt : Runtime} {pd : Pandas}.

(** The exported table of a reply, column by column: outside [Group] and
    [Arrival] a column holds the records' values in reply order. *)
Lemma exported_reply_column (data : list record) (k : string) :
  k ∈ frame_columns data → k ≠ "Group" → k ≠ "Arrival" →
  get_column k (exported (frame_of_records data)) =
  Some (map (λ r, from_option Val NaN (record_get k r)) data).
Proof.
  intros Hk Hk1 Hk2. unfold exported.
  rewrite get_coerced_other_column
    by (done || apply rectangular_drop, rectangular_frame_of_records).
  rewrite get_column_drop;
    [|by rewrite list_elem_of_singleton|apply rectangular_frame_of_records].
  by apply frame_of_records_column.
Qed.

Lemma exported_column_kept (g : DataFrame) (k : string) :
  k ∈ columns (exported g) → k ≠ "Arrival" → k ∈ columns g ∧ k ≠ "Group".
Proof.
  rewrite exported_columns. intros [Hin|Hin]%elem_of_app Hk.
  - by apply list_elem_of_filter in Hin as [? ?].
  - destruct (_ && _); [|by apply not_elem_of_nil in Hin].
    by apply list_elem_of_singleton in Hin.
Qed.

Lemma rectangular_exported (g : DataFrame) :
  rectangular g → rectangular (exported g).
Proof. intros Hrect. by apply rectangular_coerced, rectangular_drop. Qed.

(** The same, row by row. *)
Lemma exported_reply_row (data : list record) (i : nat) (r : record) :
  data !! i = Some r →
  ∃ row,
    rows (exported (frame_of_records data)) !! i = Some row ∧
    ∀ k j, get_loc k (columns (exported (frame_of_records data))) = Some j →
           k ≠ "Arrival" →
           row !! j = Some (from_option Val NaN (record_get k r)).
Proof.
  intros Hi. set (table := frame_of_records data).
  assert (is_Some (rows (exported table) !! i)) as [row Hrow].
  { apply lookup_lt_is_Some. rewrite exported_rows_length. simpl.
    rewrite length_map. by eapply lookup_lt_Some. }
  exists row. split; [done|]. intros k j Hj Hk.
  assert (k ∈ columns (exported table)) as Hin
    by (apply get_loc_is_Some; eauto).
  destruct (exported_column_kept _ _ Hin Hk) as [Hcol Hgroup].
  pose proof (exported_reply_column data k Hcol Hgroup Hk) as Hc.
  fold table in Hc. unfold get_column in Hc. rewrite Hj in Hc. simpl in Hc.
  injection Hc as Hc.
  apply (f_equal (λ l, l !! i)) in Hc.
  rewrite !list_lookup_fmap, Hrow, Hi in Hc. simpl in Hc.
  injection Hc as Hc. rewrite nth_lookup in Hc.
  assert (is_Some (row !! j)) as [x Hx].
  { apply lookup_lt_is_Some.
    pose proof (rectangular_exported table
                  (rectangular_frame_of_records data)) as Hrect.
    unfold rectangular in Hrect. rewrite Forall_lookup in Hrect.
    rewrite (Hrect _ _ Hrow). by eapply get_loc_lt. }
  rewrite Hx in Hc. simpl in Hc. by rewrite Hx, Hc.
Qed.

End ReplyExport.

(** ** The query handler *)

Section QueryProofs.
Context {rt : Runtime} {pd : Pandas} {svc : Service}.

Lemma load_measurements_unreadable (e : string) (w : world) :
  load_measurements (Unreadable e) w =
  (Stopped,
   mk_world (store w)
     (trace w ++ [st_error ("Error loading measurements: " +:+ e)])).
Proof. reflexivity. Qed.

Lemma query_aws_api_run (s : submission) (measurements : list measurement)
    (w : world) :
  query_aws_api (asset_id s) (timeframes s) (strftime_date (report_time s))
    (scope_days s) (build_custom_ranges s) measurements w =
  (Done (answer (post_reply (request_of s measurements))),
   mk_world (store w)
     (trace w ++ [requests_post API_ENDPOINT (request_of s measurements) 30])).
Proof.
  unfold query_aws_api, answer. fold (request_of s measurements).
  rewrite bind_run. unfold emit. cbv beta iota.
  destruct (post_reply (request_of s measurements)) as [e|code text [e|r]];
    [reflexivity|..]; by destruct (code =? 200)%Z.
Qed.

(** The loop of the export on the dict [{"Grp_All": df}]. *)
Lemma write_result_table (st : list DataFrame) (table : DataFrame) :
  write_groups [] (written_groups (st ++ [table])
                     [("Grp_All", Frame (length st))]) =
  if df_empty table then inr []
  else match export_error [] "Grp_All" table with
       | Some e => inl e
       | None => inr [mk_worksheet "Grp_All" [sheet_of (exported table)]]
       end.
Proof.
  rewrite written_groups_cons. simpl group_frame.
  rewrite list_lookup_middle by done.
  destruct (df_empty table); [reflexivity|]. simpl.
  by destruct (export_error [] "Grp_All" table).
Qed.

(** A reply with a positive count: the table is built and shown, and the
    export either raises or offers the workbook. *)
Lemma show_result_run (s : submission) (result : api_result) (w : world) :
  (0 < default 0 (r_count result))%Z →
  let table := frame_of_records (default [] (r_data result)) in
  ∃ created help,
    show_result s result w =
    match result_error result with
    | Some e =>
        (Raised e,
         mk_world (store w ++ table :: created)
           (trace w ++ result_summary result ++
            [st_markdown "---"; st_markdown "### 📊 Results";
             st_dataframe table;
             st_markdown "---"; st_markdown "### 📥 Unified Excel Download"]))
    | None =>
        (Done tt,
         mk_world (store w ++ table :: created)
           (trace w ++ result_summary result ++
            [st_markdown "---"; st_markdown "### 📊 Results";
             st_dataframe table;
             st_markdown "---"; st_markdown "### 📥 Unified Excel Download";
             st_download_button "📥 Download Excel Report"
               (result_workbook table)
               (export_file_name (asset_id s) (report_time s)) xlsx_mime help;
             st_markdown "---"; st_markdown "### ⚡ Performance Comparison";
             st_info ("**Local Processing:** ~178s  |  **AWS Lambda:** " +:+
                      elapsed_1f +:+ "s  |  **Speedup:** " +:+ speedup_1f +:+
                      "x faster!")]))
    end.
Proof.
  intros Hcount table. unfold show_result, result_error, result_workbook.
  cbv zeta. apply Z.ltb_lt in Hcount. rewrite Hcount. fold table.
  unfold emit, alloc.
  run_with ltac:(rewrite load_fresh).
  set (w1 := mk_world _ _).
  destruct (render_run [("Grp_All", Frame (length (store w)))] (report_time s)
              (asset_id s) w1) as (created & Hrun); [done| |].
  { constructor; [|constructor]. simpl.
    rewrite list_lookup_middle by done. eauto. }
  rewrite Hrun. subst w1. simpl store. simpl trace.
  rewrite write_result_table. exists created. eexists.
  destruct (df_empty table); simpl negb; cbv iota.
  - run. simpl store. simpl trace. unfold result_summary.
    rewrite <- !app_assoc. simpl. reflexivity.
  - destruct (export_error [] "Grp_All" table) as [e|].
    + unfold result_summary. rewrite <- !app_assoc. simpl. reflexivity.
    + run. simpl store. simpl trace. unfold result_summary.
      rewrite <- !app_assoc. simpl. reflexivity.
Qed.

Lemma show_result_none (s : submission) (result : api_result) (w : world) :
  (default 0 (r_count result) ≤ 0)%Z →
  show_result s result w =
  (Done tt,
   mk_world (store w)
     (trace w ++ result_summary result ++
      [st_warning "No traveler entries found matching the criteria"])).
Proof.
  intros Hcount. unfold show_result. cbv zeta.
  apply Z.ltb_ge in Hcount. rewrite Hcount. unfold emit. run.
  simpl. unfold result_summary. rewrite <- !app_assoc. reflexivity.
Qed.

Lemma extends_show_result (s : submission) (result : api_result) :
  extends (show_result s result).
Proof.
  intros w.
  destruct (Z.lt_ge_cases 0 (default 0%Z (r_count result))) as [Hpos|Hle].
  - destruct (show_result_run s result w Hpos) as (created & help & ->).
    destruct (result_error result); simpl; by apply prefix_app_r.
  - rewrite (show_result_none s result w Hle). simpl. by apply prefix_app_r.
Qed.

(** The handler once the file is read and a range is active. *)
Lemma run_aws_query_valid (s : submission) (df : DataFrame) (w : world) :
  measurement_file s = Some (Workbook df) →
  build_custom_ranges s ≠ ∅ →
  let measurements := omap normalized (iterrows df) in
  run_aws_query s w =
  match answer (post_reply (request_of s measurements)) with
  | QueryOk result => show_result s result
  | QueryFailed reason => emit (st_error ("Query failed: " +:+ reason))
  end
    (mk_world (store w)
       (trace w ++
        [st_info ("Loaded " +:+ pretty (length measurements) +:+ " measurements");
         requests_post API_ENDPOINT (request_of s measurements) 30])).
Proof.
  intros Hfile Hranges measurements. unfold run_aws_query. rewrite Hfile.
  rewrite bool_decide_eq_false_2 by done.
  run_with ltac:(first [rewrite load_measurements_run
                       | rewrite query_aws_api_run]).
  fold measurements. rewrite <- app_assoc. reflexivity.
Qed.

(** The handler up to and including the request. *)
Lemma run_aws_query_posts (s : submission) (df : DataFrame) (w : world) :
  measurement_file s = Some (Workbook df) →
  build_custom_ranges s ≠ ∅ →
  let measurements := omap normalized (iterrows df) in
  ∃ rest,
    trace (run_aws_query s w).2 =
    (trace w ++
     [st_info ("Loaded " +:+ pretty (length measurements) +:+ " measurements");
      requests_post API_ENDPOINT (request_of s measurements) 30] ++ rest)%list.
Proof.
  intros Hfile Hranges measurements.
  rewrite (run_aws_query_valid s df w Hfile Hranges). fold measurements.
  set (w1 := mk_world _ _).
  assert (trace w1 `prefix_of`
          trace (match answer (post_reply (request_of s measurements)) with
                 | QueryOk result => show_result s result
                 | QueryFailed reason =>
                     emit (st_error ("Query failed: " +:+ reason))
                 end w1).2) as [rest Hrest].
  { destruct (answer _); [apply extends_show_result|apply extends_emit]. }
  exists rest. rewrite Hrest. subst w1. simpl. by rewrite <- !app_assoc.
Qed.

Lemma posts_app (tr tr' : list event) :
  posts (tr ++ tr') = (posts tr ++ posts tr')%list.
Proof. apply omap_app. Qed.


Lemma shown_tables_app (tr tr' : list event) :
  shown_tables (tr ++ tr') = (shown_tables tr ++ shown_tables tr')%list.
Proof. apply omap_app. Qed.

End QueryProofs.

Section QueryTheorems.
Context {rt : Runtime} {pd : Pandas} {svc : Service}.

(** C1 (as amended). A reply with a positive count is shown and
    exported without any sorting step, whether or not there is a [Range]
    column: the table shown, which is the one handed to the export, has
    the reply's records as its rows in the order the service sent them.
    When that table is not empty and neither [pd.to_datetime] nor the
    writer raises, the handler offers one workbook whose only worksheet,
    [Grp_All], was written once, with one row per record: every cell of
    row [i] outside the [Arrival] column is the value of record [i] under
    the column's label, NaN when the record lacks it. *)
Theorem result_rows_exported_in_reply_order (s : submission)
    (result : api_result) (w : world) :
  (0 < default 0 (r_count result))%Z →
  let data := default [] (r_data result) in
  let table := frame_of_records data in
  let after := show_result s result w in
  shown_tables (trace after.2) = (shown_tables (trace w) ++ [table])%list ∧
  rows table =
    map (λ r, map (λ c, from_option Val NaN (record_get c r))
                  (frame_columns data)) data ∧
  (df_empty table = false →
   export_error [] "Grp_All" table = None →
   after.1 = Done tt ∧
   downloads (trace after.2) =
     (downloads (trace w) ++
      [[mk_worksheet "Grp_All" [sheet_of (exported table)]]])%list ∧
   length (rows (exported table)) = length data ∧
   ∀ i r, data !! i = Some r →
     ∃ row,
       rows (exported table) !! i = Some row ∧
       ∀ k j, get_loc k (columns (exported table)) = Some j →
              k ≠ "Arrival" →
              row !! j = Some (from_option Val NaN (record_get k r))).
Proof.
  intros Hcount data table after. subst after.
  destruct (show_result_run s result w Hcount) as (created & help & Hrun).
  fold data table in Hrun. split_and!.
  - rewrite Hrun.
    destruct (result_error result); cbn [snd trace];
      rewrite !shown_tables_app; reflexivity.
  - reflexivity.
  - intros Hne Hok.
    assert (result_error result = None) as Hnone.
    { unfold result_error. cbv zeta. fold data table.
      apply Z.ltb_lt in Hcount. by rewrite Hcount, Hne. }
    rewrite Hnone in Hrun. rewrite Hrun. cbn [fst snd trace]. split_and!.
    + reflexivity.
    + rewrite !downloads_app. unfold result_workbook. rewrite Hne.
      reflexivity.
    + rewrite exported_rows_length. simpl. by rewrite length_map.
    + apply exported_reply_row.
Qed.

(** C3 (as amended). An empty timeframe selection is not checked. When
    the measurement file loads and at least one range is active, the
    handler reports no validation error and posts the request, whose
    [timeframes] list is empty. *)
Theorem empty_timeframes_are_posted (s : submission) (df : DataFrame)
    (w : world) :
  timeframes s = [] →
  measurement_file s = Some (Workbook df) →
  build_custom_ranges s ≠ ∅ →
  let measurements := omap normalized (iterrows df) in
  p_timeframes (request_of s measurements) = [] ∧
  ∃ rest,
    trace (run_aws_query s w).2 =
    (trace w ++
     [st_info ("Loaded " +:+ pretty (length measurements) +:+ " measurements");
      requests_post API_ENDPOINT (request_of s measurements) 30] ++ rest)%list.
Proof.
  intros Htf Hfile Hranges measurements. split; [exact Htf|].
  by apply run_aws_query_posts.
Qed.

(** C6 (as amended). When no slot is both enabled and positive, the
    handler stops without posting any request and without touching the
    store. The message shown is the no-active-range one whenever the
    measurement file was uploaded and read; without a file, or with an
    unreadable one, the run has already stopped on that error. *)
Theorem no_active_range_stops_before_request (s : submission) (w : world) :
  build_custom_ranges s = ∅ →
  (run_aws_query s w).1 = Stopped ∧
  store (run_aws_query s w).2 = store w ∧
  posts (trace (run_aws_query s w).2) = posts (trace w) ∧
  trace (run_aws_query s w).2 =
    (trace w ++
     match measurement_file s with
     | None => [st_error "Please upload a measurement file"]
     | Some (Unreadable e) => [st_error ("Error loading measurements: " +:+ e)]
     | Some (Workbook df) =>
         [st_info ("Loaded " +:+
                   pretty (length (omap normalized (iterrows df))) +:+
                   " measurements");
          st_error "Please enable at least one custom range"]
     end)%list.
Proof.
  intros Hnone. unfold run_aws_query. rewrite Hnone.
  rewrite bool_decide_eq_true_2 by done.
  destruct (measurement_file s) as [[e|df]|].
  - run_with ltac:(rewrite load_measurements_unreadable).
    cbn [fst snd store trace].
    split_and!; [done..| |done]. by rewrite posts_app, app_nil_r.
  - unfold emit, st_stop.
    run_with ltac:(rewrite load_measurements_run).
    cbn [fst snd store trace].
    split_and!; [done..| |by rewrite <- app_assoc].
    by rewrite !posts_app, !app_nil_r.
  - unfold emit, st_stop. run. cbn [fst snd store trace].
    split_and!; [done..| |done]. by rewrite posts_app, app_nil_r.
Qed.

End QueryTheorems.

(** ** The claims at concrete inputs *)

(** The specification's file name scenario. *)
Example file_name_scenario :
  export_file_name "NQ" demo_time = "nq_traveler_report_05-Mar-24_18-00.xlsx".
Proof. vm_compute. reflexivity. Qed.

(** The specification's sort example: the rows reach the sheet as sent,
    [Low 1] before [High 1], while the order the specification describes
    puts [High 1] first. *)
Lemma result_rows_sorted_counterexample :
  let sent := frame_of_records (rt := demo_runtime) sort_example in
  let sorted := spec_sort_values demo_compare sent in
  let after := (show_result (svc := demo_svc) (demo_submission None true [])
                  demo_result empty_world).2 in
  get_column "Range" sorted = Some [txt "High 1"; txt "Low 1"] ∧
  shown_tables (trace after) = [sent] ∧
  downloads (trace after) =
    [[mk_worksheet "Grp_All" [sheet_of (exported sent)]]] ∧
  get_column "Range" (exported sent) = Some [txt "Low 1"; txt "High 1"] ∧
  downloads (trace after) ≠
    [[mk_worksheet "Grp_All" [sheet_of (exported sorted)]]].
Proof.
  split_and!; [vm_compute; reflexivity..|].
  vm_compute. intros Heq. discriminate Heq.
Qed.

(** A dict without keys has only empty groups, yet no workbook is made:
    the export returns before the download is offered. And a dict whose
    one group is an empty frame gives a workbook that is not without
    sheets: it holds the worksheet the writer adds on closing. *)
Lemma export_without_groups_counterexample :
  let after := (render_unified_export (rt := demo_runtime) [] demo_time "NQ"
                  empty_world).2 in
  let w := mk_world (rt := demo_runtime) [mk_df ["Group"] []] [] in
  let after' := (render_unified_export [("Grp_All", Frame 0)] demo_time "NQ"
                   w).2 in
  downloads (trace after) = [] ∧ downloads (trace after) ≠ [[]] ∧
  downloads (trace after') = [[mk_worksheet "Sheet1" []]] ∧
  downloads (trace after') ≠ [[]].
Proof.
  split_and!; [reflexivity| |reflexivity|];
    vm_compute; intros Heq; discriminate Heq.
Qed.

(** No timeframe selected: no error is shown and the request is posted
    with an empty [timeframes] list. *)
Lemma empty_timeframes_counterexample :
  let s := demo_submission (Some (Workbook demo_measurements)) true [] in
  let after := (run_aws_query (svc := demo_svc) s empty_world).2 in
  timeframes s = [] ∧ errors (trace after) = [] ∧
  p_timeframes <$> posts (trace after) = [[]].
Proof. split_and!; vm_compute; reflexivity. Qed.

(** A column spelled [M_value] differs from the accepted [M_Value] only in
    letter case and is not matched: the row is dropped. *)
Lemma case_insensitive_match_counterexample :
  let row : Series (rt := demo_runtime) :=
    [("M_value", num 5); ("M_Name", txt "five")] in
  "M_value" ∈ series_index row ∧ "M_Value" ∈ value_spellings ∧
  spec_same_ignoring_case "M_value" "M_Value" ∧
  next_in value_spellings (series_index row) = None ∧
  next_in name_spellings (series_index row) = None ∧
  add_measurement [] row empty_world = (Done [], empty_world).
Proof.
  split_and!; [by apply label_in|by apply label_in|reflexivity..].
Qed.

(** No active range and no measurement file: the message shown is the
    one about the file, not the one about ranges. *)
Lemma no_active_range_counterexample :
  let s := demo_submission None false ["3m"] in
  let after := (run_aws_query (svc := demo_svc) s empty_world).2 in
  build_custom_ranges s = ∅ ∧
  errors (trace after) = ["Please upload a measurement file"] ∧
  "Please enable at least one custom range" ∉ errors (trace after).
Proof.
  split_and!; [reflexivity..|]. vm_compute.
  intros Hin. apply list_elem_of_singleton in Hin. discriminate Hin.
Qed.

Lemma result_rows_exported_in_reply_order_witness :
  let s := demo_submission None true [] in
  let table := frame_of_records (rt := demo_runtime) sort_example in
  (0 < default 0 (r_count demo_result))%Z ∧
  df_empty table = false ∧
  export_error [] "Grp_All" table = None ∧
  shown_tables
    (trace (show_result (svc := demo_svc) s demo_result empty_world).2)
  = [table] ∧
  downloads (trace (show_result (svc := demo_svc) s demo_result empty_world).2)
  = [[mk_worksheet "Grp_All" [sheet_of (exported table)]]] ∧
  ∃ row,
    rows (exported table) !! 0 = Some row ∧
    row !! 0 = Some (txt "Low 1") ∧ row !! 1 = Some (num 2).
Proof.
  intros s table.
  assert (0 < default 0 (r_count demo_result))%Z as Hcount by reflexivity.
  assert (df_empty table = false) as Hne by reflexivity.
  assert (export_error [] "Grp_All" table = None) as Hok by reflexivity.
  split; [exact Hcount|]. split; [exact Hne|]. split; [exact Hok|].
  destruct (result_rows_exported_in_reply_order (svc := demo_svc) s
              demo_result empty_world Hcount) as (Hshown & _ & Hsheet).
  destruct (Hsheet Hne Hok) as (_ & Hd & _ & Hrows).
  split; [exact Hshown|]. split; [exact Hd|].
  destruct (Hrows 0 _ eq_refl) as (row & Hrow & Hcells).
  exists row. split; [exact Hrow|]. split.
  - exact (Hcells "Range" 0 eq_refl ltac:(discriminate)).
  - exact (Hcells "Output" 1 eq_refl ltac:(discriminate)).
Defined.

Lemma export_of_empty_groups_witness :
  let w := mk_world (rt := demo_runtime) [mk_df ["Group"; "Output"] []] [] in
  let traveler_reports := [("Grp_All", Frame 0); ("Notes", NotAFrame)] in
  Forall (λ item, match item.2 with
                  | Frame l => ∃ g, store w !! l = Some g ∧ rows g = []
                  | NotAFrame => True
                  end) traveler_reports ∧
  render_unified_export traveler_reports demo_time "NQ" w =
  (Done tt,
   mk_world (store w)
     [st_markdown "---"; st_markdown "### 📥 Unified Excel Download";
      st_download_button "📥 Download Excel Report"
        [mk_worksheet "Sheet1" []]
        "nq_traveler_report_05-Mar-24_18-00.xlsx" xlsx_mime
        "Excel file contains 0 sheets with 0 total entries"]).
Proof.
  intros w traveler_reports.
  assert (Forall (λ item, match item.2 with
                          | Frame l => ∃ g, store w !! l = Some g ∧ rows g = []
                          | NotAFrame => True
                          end) traveler_reports) as Hempty.
  { repeat constructor. simpl. eexists. split; reflexivity. }
  split; [exact Hempty|].
  exact (export_of_empty_groups traveler_reports demo_time "NQ" w Hempty).
Defined.

Lemma demo_high1_active (file : option upload) (tf : list string) :
  build_custom_ranges (demo_submission file true tf) ≠ ∅.
Proof.
  intros Heq. apply (f_equal (λ m, m !! "High 1")) in Heq.
  rewrite lookup_high1, lookup_empty in Heq. discriminate Heq.
Qed.

Lemma empty_timeframes_are_posted_witness :
  let s := demo_submission (Some (Workbook demo_measurements)) true [] in
  let measurements := omap normalized (iterrows demo_measurements) in
  timeframes s = [] ∧
  measurement_file s = Some (Workbook demo_measurements) ∧
  build_custom_ranges s ≠ ∅ ∧
  p_timeframes (request_of s measurements) = [] ∧
  ∃ rest,
    trace (run_aws_query (svc := demo_svc) s empty_world).2 =
    ([st_info "Loaded 2 measurements";
      requests_post API_ENDPOINT (request_of s measurements) 30] ++ rest)%list.
Proof.
  intros s measurements.
  split; [reflexivity|]. split; [reflexivity|].
  split; [apply demo_high1_active|].
  exact (empty_timeframes_are_posted (svc := demo_svc) s demo_measurements
           empty_world eq_refl eq_refl (demo_high1_active _ _)).
Defined.

Lemma no_active_range_stops_before_request_witness :
  let s := demo_submission (Some (Workbook demo_measurements)) false ["3m"] in
  build_custom_ranges s = ∅ ∧
  (run_aws_query (svc := demo_svc) s empty_world).1 = Stopped ∧
  posts (trace (run_aws_query (svc := demo_svc) s empty_world).2) = [] ∧
  trace (run_aws_query (svc := demo_svc) s empty_world).2 =
    [st_info "Loaded 2 measurements";
     st_error "Please enable at least one custom range"].
Proof.
  intros s. split; [reflexivity|].
  destruct (no_active_range_stops_before_request (svc := demo_svc) s
              empty_world eq_refl) as (Hstop & _ & Hposts & Htrace).
  split; [exact Hstop|]. split; [exact Hposts|exact Htrace].
Defined.

Lemma demo_arrivals_rectangular : rectangular demo_arrivals.
Proof. repeat constructor. Qed.

Lemma labels_distinct (labels : list string) :
  bool_decide (NoDup labels) = true → NoDup labels.
Proof. apply bool_decide_eq_true_1. Qed.

Lemma demo_arrivals_labels : NoDup (columns demo_arrivals).
Proof. by apply labels_distinct. Qed.


Lemma ascii_text_NQ : ascii_text "NQ".
Proof. repeat constructor; simpl; lia. Qed.

Lemma demo_time_valid : valid_datetime demo_time.
Proof. unfold valid_datetime; simpl; lia. Qed.

Lemma export_file_name_format_witness :
  let w := mk_world (rt := demo_runtime) [frame_of_records sort_example] [] in
  let traveler_reports := [("Grp_All", Frame 0)] in
  valid_datetime demo_time ∧
  ascii_text "NQ" ∧
  export_file_name "NQ" demo_time = "nq_traveler_report_05-Mar-24_18-00.xlsx" ∧
  file_names
    (trace (render_unified_export traveler_reports demo_time "NQ" w).2) =
  ["nq_traveler_report_05-Mar-24_18-00.xlsx"].
Proof.
  intros w traveler_reports.
  split; [exact demo_time_valid|]. split; [exact ascii_text_NQ|].
  destruct (export_file_name_format traveler_reports demo_time "NQ" w
              demo_time_valid ascii_text_NQ) as (Hname & Hfiles & _).
  split; [rewrite Hname; reflexivity|].
  rewrite Hfiles. reflexivity.
Defined.

Lemma export_leaves_input_unchanged_witness :
  let table := frame_of_records (rt := demo_runtime) sort_example in
  let w := mk_world [table] [] in
  store w !! 0 = Some table ∧
  store (render_unified_export [("Grp_All", Frame 0)] demo_time "NQ" w).2 !! 0
  = Some table.
Proof.
  intros table w. split; [reflexivity|].
  exact (export_leaves_input_unchanged [("Grp_All", Frame 0)] demo_time "NQ" w
           0 table eq_refl).
Defined.

Lemma measurement_columns_first_exact_spelling_witness :
  let row : Series (rt := demo_runtime) :=
    [("m_value", num 5); ("M Value", num 6); ("M name", txt "six")] in
  next_in value_spellings (series_index row) = Some "M Value" ∧
  next_in name_spellings (series_index row) = Some "M name".
Proof.
  intros row.
  destruct (measurement_columns_first_exact_spelling row)
    as (Hvalue & _ & Hname & _).
  split.
  - apply Hvalue. exists ["M value"], ["M_Value"; "m_value"].
    split; [reflexivity|]. split; [by apply label_in|].
    intros x Hx. apply list_elem_of_singleton in Hx as ->.
    by apply label_not_in.
  - apply Hname. exists ["M Name"], ["M_name"; "m_name"].
    split; [reflexivity|]. split; [by apply label_in|].
    intros x Hx. apply list_elem_of_singleton in Hx as ->.
    by apply label_not_in.
Defined.

Lemma custom_ranges_resolved_witness :
  let s := demo_submission None true ["3m"] in
  build_custom_ranges s !! "High 1" = Some (mk_range true 4500) ∧
  build_custom_ranges s !! "Mid 1" = None.
Proof.
  intros s.
  destruct (custom_ranges_resolved s) as (Hhigh1 & _ & _ & _ & Hother).
  split.
  - apply Hhigh1. split; [reflexivity|]. split; reflexivity.
  - apply Hother. by apply label_not_in.
Defined.

Lemma measurement_normalizer_order_preserving_tolerant_witness :
  load_measurements (Workbook demo_measurements) empty_world =
  (Done [mk_measurement (num 5) (txt "M5"); mk_measurement (num 7) (txt "M7")],
   mk_world [] [st_info "Loaded 2 measurements"]) ∧
  add_measurement [] [("Note", txt "no value here")] empty_world =
  (Done [], empty_world).
Proof.
  destruct (measurement_normalizer_order_preserving_tolerant
              demo_measurements empty_world) as (Hrun & Hdrop & _).
  split; [exact Hrun|]. apply Hdrop. reflexivity.
Defined.

(** A frame with rows and no columns is [.empty], so it gets no sheet, but
    [len] still counts its rows in the reported total. *)
Example columnless_rows_are_counted :
  let w := mk_world (rt := demo_runtime) [mk_df [] [[]; []]] [] in
  render_unified_export [("Grp_All", Frame 0)] demo_time "NQ" w =
  (Done tt,
   mk_world (store w)
     [st_markdown "---"; st_markdown "### 📥 Unified Excel Download";
      st_download_button "📥 Download Excel Report"
        [mk_worksheet "Sheet1" []]
        "nq_traveler_report_05-Mar-24_18-00.xlsx" xlsx_mime
        "Excel file contains 0 sheets with 2 total entries"]).
Proof. vm_compute. reflexivity. Qed.

(** An arrival time with a time zone: the writer refuses the sheet, and
    the handling of the reply ends in that exception after the table was
    shown, with no download offered. *)
Example zoned_arrival_ends_the_run :
  let after := show_result (svc := demo_svc) (demo_submission None true [])
                 zoned_result empty_world in
  after.1 = Raised "Excel does not support datetimes with timezones" ∧
  downloads (trace after.2) = [] ∧
  length (shown_tables (trace after.2)) = 1.
Proof. split_and!; vm_compute; reflexivity. Qed.

(** * Further properties of the code *)

(** ** Sheet names *)

Lemma str_take_length (n : nat) (s : string) : (String.length (str_take n s) ≤ n)%nat.
Proof.
  revert s. induction n as [|n IH]; intros [|c s]; simpl; try lia.
  specialize (IH s). lia.
Qed.

Lemma str_take_chars (n : nat) (s : string) :
  chars (str_take n s) = take n (chars s).
Proof.
  revert s. induction n as [|n IH]; intros [|c s]; simpl; try done.
  unfold chars in *. simpl. by rewrite IH.
Qed.

Lemma str_take_all (n : nat) (s : string) :
  (String.length s ≤ n)%nat → str_take n s = s.
Proof.
  revert s. induction n as [|n IH]; intros [|c s]; simpl; try done; try lia.
  intros Hlen. rewrite IH; [done|lia].
Qed.

Lemma replace_char_chars (a b : ascii) (s : string) :
  chars (replace_char a b s) =
  map (λ c, if Ascii.eqb c a then b else c) (chars s).
Proof.
  induction s as [|c s IH]; [done|]. unfold chars in *. simpl. by rewrite IH.
Qed.

Lemma replace_char_absent (a b : ascii) (s : string) :
  a ∉ chars s → replace_char a b s = s.
Proof.
  induction s as [|c s IH]; [done|]. unfold chars in *. simpl.
  intros [Hc Hs]%not_elem_of_cons.
  destruct (Ascii.eqb_spec c a) as [->|_]; [done|]. by rewrite IH.
Qed.

Lemma replaced_char_gone (a b : ascii) (l : list ascii) :
  a ≠ b → a ∉ map (λ c, if Ascii.eqb c a then b else c) l.
Proof.
  intros Hab. induction l as [|c l IH]; simpl; [apply not_elem_of_nil|].
  apply not_elem_of_cons. split; [|done].
  destruct (Ascii.eqb_spec c a) as [->|Hne]; congruence.
Qed.

Lemma replaced_char_keeps_absent (a b x : ascii) (l : list ascii) :
  x ≠ b → x ∉ l → x ∉ map (λ c, if Ascii.eqb c a then b else c) l.
Proof.
  intros Hxb. induction l as [|c l IH]; simpl; [done|].
  intros [Hc Hl]%not_elem_of_cons. apply not_elem_of_cons. split; [|auto].
  destruct (Ascii.eqb c a); congruence.
Qed.

Lemma char_not_in (x : ascii) (l : list ascii) :
  bool_decide (x ∈ l) = false → x ∉ l.
Proof. apply bool_decide_eq_false_1. Qed.

Lemma not_elem_of_take {A} (x : A) (n : nat) (l : list A) :
  x ∉ l → x ∉ take n l.
Proof. intros Hx Hin. apply Hx. by eapply subseteq_take. Qed.

(** X1. A sheet name has at most 31 characters and holds no space and no
    hyphen. A group name that already is such a name is its own sheet
    name, so naming a sheet name again changes nothing. *)
Theorem sheet_name_is_safe (group_name : string) :
  (String.length (sheet_name_of group_name) ≤ 31)%nat ∧
  (space ∉ chars (sheet_name_of group_name)) ∧
  (hyphen ∉ chars (sheet_name_of group_name)) ∧
  ((String.length group_name ≤ 31)%nat → space ∉ chars group_name →
   hyphen ∉ chars group_name → sheet_name_of group_name = group_name) ∧
  sheet_name_of (sheet_name_of group_name) = sheet_name_of group_name.
Proof.
  assert (String.length (sheet_name_of group_name) ≤ 31)%nat as Hlen
    by apply str_take_length.
  assert (space ∉ chars (sheet_name_of group_name)) as Hsp.
  { unfold sheet_name_of. rewrite str_take_chars, !replace_char_chars.
    apply not_elem_of_take, replaced_char_keeps_absent; [done|].
    by apply replaced_char_gone. }
  assert (hyphen ∉ chars (sheet_name_of group_name)) as Hhy.
  { unfold sheet_name_of. rewrite str_take_chars, !replace_char_chars.
    by apply not_elem_of_take, replaced_char_gone. }
  assert (∀ g, (String.length g ≤ 31)%nat → space ∉ chars g →
               hyphen ∉ chars g → sheet_name_of g = g) as Hfix.
  { intros g Hg Hs Hh. unfold sheet_name_of.
    rewrite (replace_char_absent " " "_" g Hs), (replace_char_absent "-" "_" g Hh).
    by apply str_take_all. }
  split_and!; [done..|by apply Hfix|by apply Hfix].
Qed.

Lemma sheet_name_is_safe_witness :
  sheet_name_of "Grp All-Day" = "Grp_All_Day" ∧
  sheet_name_of "Grp_All_Day" = "Grp_All_Day" ∧
  String.length
    (sheet_name_of "a group name that is forty characters lg") = 31.
Proof.
  split; [reflexivity|]. split; [|reflexivity].
  destruct (sheet_name_is_safe "Grp_All_Day") as (_ & _ & _ & Hfix & _).
  apply Hfix; [simpl; lia|by apply char_not_in|by apply char_not_in].
Defined.

(** ** The shape and content of a written sheet *)

Section SheetTheorems.
Context {rt : Runtime} {pd : Pandas}.

Lemma imap_pair_zip_seq {A} (k : nat) (l : list A) :
  imap (λ c x, (k + c, x)) l = zip (seq k (length l)) l.
Proof.
  revert k. induction l as [|x l IH]; intros k; [done|].
  rewrite imap_cons. simpl. rewrite Nat.add_0_r. f_equal.
  rewrite <- IH. apply imap_ext. intros i y _. simpl. f_equal. lia.
Qed.

(** X2. Take a non-empty group with distinct column labels for which
    neither [pd.to_datetime] nor the writer raises. The table written into the worksheet named after
    the group has the group's columns in their order without [Group],
    followed by a new [Arrival] column when the group has
    [Arrival_datetime] and no [Arrival]. It has one row per row of the
    group, it is rectangular when the group is, and every column header
    is rewritten at its own position. *)
Theorem written_sheet_shape (writer : list worksheet) (group_name : string)
    (l : loc) (group_data : DataFrame) (w : world) :
  store w !! l = Some group_data →
  NoDup (columns group_data) →
  df_empty group_data = false →
  export_error writer group_name group_data = None →
  ∃ written created,
    export_group writer (group_name, Frame l) w =
      (Done (write_sheet (sheet_name_of group_name) written writer),
       mk_world (store w ++ created) (trace w)) ∧
    columns (sheet_table written) =
      (filter (λ c, c ≠ "Group") (columns group_data) ++
       if bool_decide ("Arrival_datetime" ∈ columns group_data) &&
          negb (bool_decide ("Arrival" ∈ columns group_data))
       then ["Arrival"] else [])%list ∧
    ("Group" ∉ columns (sheet_table written)) ∧
    length (rows (sheet_table written)) = length (rows group_data) ∧
    (rectangular group_data → rectangular (sheet_table written)) ∧
    sheet_header written =
      zip (seq 0 (length (columns (sheet_table written))))
          (columns (sheet_table written)).
Proof.
  intros Hl Hlabels Hne Hok.
  destruct (export_group_writes _ _ _ _ _ Hl Hne Hok) as (created & Hrun).
  exists (sheet_of (exported group_data)), created.
  split; [exact Hrun|]. simpl.
  split; [apply exported_columns|]. split_and!.
  - rewrite exported_columns. intros [Hin|Hin]%elem_of_app.
    + apply list_elem_of_filter in Hin as [Hin _]. done.
    + destruct (_ && _); [|by apply not_elem_of_nil in Hin].
      by apply list_elem_of_singleton in Hin.
  - apply exported_rows_length.
  - apply rectangular_exported.
  - apply (imap_pair_zip_seq 0).
Qed.

(** X3. Take a non-empty rectangular group with distinct column labels
    for which neither [pd.to_datetime] nor the writer raises. Exporting it changes no value
    outside [Group] and [Arrival]: every other column of the table
    written is the group's column of that name, cell for cell, and a
    column the group lacks stays absent. *)
Theorem written_sheet_keeps_columns (writer : list worksheet)
    (group_name : string) (l : loc) (group_data : DataFrame) (w : world)
    (k : string) :
  store w !! l = Some group_data →
  df_empty group_data = false →
  rectangular group_data →
  NoDup (columns group_data) →
  export_error writer group_name group_data = None →
  k ≠ "Group" → k ≠ "Arrival" →
  ∃ written created,
    export_group writer (group_name, Frame l) w =
      (Done (write_sheet (sheet_name_of group_name) written writer),
       mk_world (store w ++ created) (trace w)) ∧
    get_column k (sheet_table written) = get_column k group_data.
Proof.
  intros Hl Hne Hrect Hlabels Hok Hk1 Hk2.
  destruct (export_group_writes _ _ _ _ _ Hl Hne Hok) as (created & Hrun).
  exists (sheet_of (exported group_data)), created.
  split; [exact Hrun|]. simpl. unfold exported.
  rewrite get_coerced_other_column by (done || by apply rectangular_drop).
  apply get_column_drop; [|done]. by rewrite list_elem_of_singleton.
Qed.

(** X4. Take a non-empty rectangular group with distinct column labels
    for which neither [pd.to_datetime] nor the writer raises. Its worksheet gets a
    date-formatted column exactly when the group has an [Arrival] or an
    [Arrival_datetime] column. That column is the one labelled [Arrival],
    it holds what [pd.to_datetime] returned, and every cell in it is a
    timestamp or NaT. *)
Theorem written_sheet_date_column (writer : list worksheet)
    (group_name : string) (l : loc) (group_data : DataFrame) (w : world) :
  store w !! l = Some group_data →
  df_empty group_data = false →
  rectangular group_data →
  NoDup (columns group_data) →
  export_error writer group_name group_data = None →
  ∃ written created,
    export_group writer (group_name, Frame l) w =
      (Done (write_sheet (sheet_name_of group_name) written writer),
       mk_world (store w ++ created) (trace w)) ∧
    (is_Some (sheet_date_col written) ↔
       "Arrival" ∈ columns group_data ∨
       "Arrival_datetime" ∈ columns group_data) ∧
    (∀ i, sheet_date_col written = Some i →
       columns (sheet_table written) !! i = Some "Arrival" ∧
       ∃ infer src,
         get_column "Arrival" (sheet_table written) =
           Some (converted infer src) ∧
         Forall (λ c, c = NaT ∨ ∃ t, c = Time t) (converted infer src)).
Proof.
  intros Hl Hne Hrect Hlabels Hok.
  destruct (export_group_writes _ _ _ _ _ Hl Hne Hok) as (created & Hrun).
  exists (sheet_of (exported group_data)), created.
  split; [exact Hrun|]. simpl. split.
  - rewrite get_loc_is_Some, exported_columns, elem_of_app, list_elem_of_filter.
    destruct (decide ("Arrival" ∈ columns group_data)) as [Ha|Ha];
      destruct (decide ("Arrival_datetime" ∈ columns group_data)) as [Hd|Hd].
    + split; [auto|]. intros _. left. by split.
    + split; [auto|]. intros _. left. by split.
    + rewrite (bool_decide_eq_true_2 _ Hd), (bool_decide_eq_false_2 _ Ha).
      simpl. split; [auto|]. intros _. right. by apply list_elem_of_singleton.
    + rewrite (bool_decide_eq_false_2 _ Hd). simpl. split.
      * intros [[_ Hin]|Hin]; [done|by apply not_elem_of_nil in Hin].
      * intros [Hin|Hin]; done.
  - intros i Hi. split; [by apply get_loc_lookup|].
    pose proof (rectangular_drop ["Group"] _ Hrect) as Hrect'.
    destruct (coerced_arrival _ Hrect') as (Hdt & Harr & Hsame).
    unfold exported in *.
    set (d := drop_columns ["Group"] group_data) in *.
    destruct (get_column "Arrival_datetime" d) as [src|] eqn:Hsrc.
    + exists false, src. split; [by apply Hdt|apply converted_stamp].
    + destruct (get_column "Arrival" d) as [src|] eqn:Hsrc'.
      * exists true, src. split; [by apply Harr|apply converted_stamp].
      * rewrite Hsame in Hi by done.
        unfold get_column in Hsrc'. rewrite Hi in Hsrc'. done.
Qed.













End SheetTheorems.

(** ** The reply's values in the sheet *)

Section ReplyTable.
Context {rt : Runtime} {pd : Pandas} {svc : Service}.

(** X6. Take a reply with a positive count and a table that is not
    empty, for which neither [pd.to_datetime] nor the writer raises. The
    workbook offered for download has the one worksheet [Grp_All],
    written once; its table has one row per record of the reply and no
    [Group] column, and under every key of the reply other than [Group]
    and [Arrival] it holds each record's value for that key, NaN where
    the record lacks the key, in the order of the reply. *)
Theorem reply_values_reach_sheet (s : submission) (result : api_result)
    (w : world) (k : string) :
  let data := default [] (r_data result) in
  let table := frame_of_records data in
  (0 < default 0 (r_count result))%Z →
  df_empty table = false →
  export_error [] "Grp_All" table = None →
  (∃ r, r ∈ data ∧ k ∈ r.*1) →
  k ≠ "Group" → k ≠ "Arrival" →
  ∃ written,
    downloads (trace (show_result s result w).2) =
      (downloads (trace w) ++ [[mk_worksheet "Grp_All" [written]]])%list ∧
    length (rows (sheet_table written)) = length data ∧
    ("Group" ∉ columns (sheet_table written)) ∧
    get_column k (sheet_table written) =
      Some (map (λ r, from_option Val NaN (record_get k r)) data).
Proof.
  intros data table Hcount Hne Hok Hk Hk1 Hk2.
  exists (sheet_of (exported table)).
  destruct (show_result_run s result w Hcount) as (created & help & Hrun).
  fold data table in Hrun.
  assert (result_error result = None) as Hnone.
  { unfold result_error. cbv zeta. fold data table.
    apply Z.ltb_lt in Hcount. by rewrite Hcount, Hne. }
  rewrite Hnone in Hrun. rewrite Hrun. cbn [snd trace]. split_and!.
  - rewrite !downloads_app. unfold result_workbook. rewrite Hne. reflexivity.
  - simpl. rewrite exported_rows_length. simpl. by rewrite length_map.
  - simpl. intros Hin.
    assert ("Group" ≠ "Arrival") as Hga by discriminate.
    by destruct (exported_column_kept _ _ Hin Hga).
  - simpl. apply exported_reply_column; [|done..].
    by apply frame_columns_elem.
Qed.

End ReplyTable.

(** ** The measurement list and the table's columns *)

Section MeasurementColumns.
Context {rt : Runtime}.

Lemma series_get_zip (k : string) (cols : list string) (r : list cell) :
  length r = length cols →
  series_get k (zip cols r) = (λ i, nth i r NaN) <$> get_loc k cols.
Proof.
  revert r. induction cols as [|c cols IH]; intros [|x r] Hlen;
    simplify_eq/=; [done|].
  destruct (String.eqb c k); [done|]. rewrite IH by done.
  by destruct (get_loc k cols).
Qed.

Lemma series_index_zip (cols : list string) (r : list cell) :
  length r = length cols → series_index (zip cols r) = cols.
Proof. intros Hlen. unfold series_index. apply fst_zip. lia. Qed.

(** The entry of a row of a rectangular table, by column position. *)
Lemma normalized_row (cols : list string) (r : list cell) (vc : string) (i : nat) :
  length r = length cols →
  next_in value_spellings cols = Some vc →
  get_loc vc cols = Some i →
  normalized (zip cols r) =
  Some (mk_measurement (nth i r NaN)
          (default (Val (value_of_str ("M" +:+ str_cell (nth i r NaN))))
             (next_in name_spellings cols ≫= λ nc,
              (λ j, nth j r NaN) <$> get_loc nc cols))).
Proof.
  intros Hlen Hvc Hi. unfold normalized.
  rewrite (series_index_zip _ _ Hlen), Hvc.
  remember (next_in name_spellings cols) as found. simpl.
  rewrite (series_get_zip _ _ _ Hlen), Hi. simpl. do 3 f_equal.
  destruct found as [nc|]; simpl; [|done].
  by rewrite (series_get_zip _ _ _ Hlen).
Qed.

Lemma normalized_rows (cols : list string) (rs : list (list cell))
    (vc : string) (i : nat) :
  Forall (λ r, length r = length cols) rs →
  next_in value_spellings cols = Some vc →
  get_loc vc cols = Some i →
  omap normalized (map (λ r, zip cols r) rs) =
  map (λ r, mk_measurement (nth i r NaN)
              (default (Val (value_of_str ("M" +:+ str_cell (nth i r NaN))))
                 (next_in name_spellings cols ≫= λ nc,
                  (λ j, nth j r NaN) <$> get_loc nc cols))) rs.
Proof.
  intros Hrect Hvc Hi. induction Hrect as [|r rs Hr _ IH]; [done|].
  rewrite !map_cons.
  change (omap normalized (zip cols r :: map (λ r, zip cols r) rs))
    with (match normalized (zip cols r) with
          | Some m => m :: omap normalized (map (λ r, zip cols r) rs)
          | None => omap normalized (map (λ r, zip cols r) rs)
          end).
  by rewrite (normalized_row _ _ _ _ Hr Hvc Hi), IH.
Qed.

Lemma unmatched_rows (cols : list string) (rs : list (list cell)) :
  Forall (λ r, length r = length cols) rs →
  next_in value_spellings cols = None →
  omap normalized (map (λ r, zip cols r) rs) = [].
Proof.
  intros Hrect Hvc. induction Hrect as [|r rs Hr _ IH]; [done|].
  rewrite !map_cons.
  change (omap normalized (zip cols r :: map (λ r, zip cols r) rs))
    with (match normalized (zip cols r) with
          | Some m => m :: omap normalized (map (λ r, zip cols r) rs)
          | None => omap normalized (map (λ r, zip cols r) rs)
          end).
  unfold normalized at 1. by rewrite (series_index_zip _ _ Hr), Hvc.
Qed.

(** X7. For a rectangular measurement table the outcome is all or
    nothing. When no listed value spelling is a column, no row gives an
    entry and zero measurements are reported without any error. Otherwise
    every row gives an entry: the values sent are the chosen value column
    top to bottom, and the names are the chosen name column, or "M"
    followed by the value when no listed name spelling is a column. *)
Theorem measurements_follow_the_columns (df : DataFrame) (w : world) :
  rectangular df →
  ∃ measurements,
    load_measurements (Workbook df) w =
      (Done measurements,
       mk_world (store w)
         (trace w ++ [st_info ("Loaded " +:+ pretty (length measurements) +:+
                               " measurements")])) ∧
    match next_in value_spellings (columns df) with
    | None => measurements = []
    | Some m_val_col =>
        length measurements = df_len df ∧
        Some (M_value <$> measurements) = get_column m_val_col df ∧
        match next_in name_spellings (columns df) with
        | Some m_name_col =>
            Some (M_name <$> measurements) = get_column m_name_col df
        | None =>
            M_name <$> measurements =
            (λ m, Val (value_of_str ("M" +:+ str_cell (M_value m)))) <$>
              measurements
        end
    end.
Proof.
  intros Hrect. exists (omap normalized (iterrows df)).
  split; [apply load_measurements_run|].
  unfold iterrows, df_len.
  destruct (next_in value_spellings (columns df)) as [vc|] eqn:Hvc.
  - destruct (next_in_elem _ _ _ Hvc) as [_ Hin].
    destruct (get_loc_Some _ _ Hin) as [i Hi].
    rewrite (normalized_rows _ _ _ _ Hrect Hvc Hi).
    rewrite !length_map. split; [done|].
    unfold get_column. rewrite Hi. split.
    + simpl. by rewrite map_map.
    + destruct (next_in name_spellings (columns df)) as [nc|] eqn:Hnc.
      * destruct (next_in_elem _ _ _ Hnc) as [_ Hin'].
        destruct (get_loc_Some _ _ Hin') as [j Hj]. simpl.
        rewrite Hj. simpl. by rewrite map_map.
      * simpl. by rewrite <- !list_fmap_compose.
  - by apply unmatched_rows.
Qed.

End MeasurementColumns.

(** ** The handler as a whole *)

Section HandlerFacts.
Context {rt : Runtime} {pd : Pandas} {svc : Service}.

Lemma inactive_slot (use : bool) (input : Q) :
  use && gt0 (if use then input else 0%Q) = false ↔
  ¬ (use = true ∧ (0 < input)%Q).
Proof.
  rewrite <- slot_active. by destruct (use && gt0 _).
Qed.

(** X8. The [custom_ranges] dict is empty exactly when no slot is both
    enabled and given a positive center, and every entry it holds has
    [enabled] true and a positive value. *)
Theorem custom_ranges_empty_iff (s : submission) :
  (build_custom_ranges s = ∅ ↔
     ¬ (use_high1 s = true ∧ (0 < high1_input s)%Q) ∧
     ¬ (use_high2 s = true ∧ (0 < high2_input s)%Q) ∧
     ¬ (use_low1 s = true ∧ (0 < low1_input s)%Q) ∧
     ¬ (use_low2 s = true ∧ (0 < low2_input s)%Q)) ∧
  (∀ label e, build_custom_ranges s !! label = Some e →
              enabled e = true ∧ (0 < range_value e)%Q).
Proof.
  split.
  - rewrite <- !inactive_slot. split.
    + intros Hempty.
      pose proof (lookup_high1 s) as H1. pose proof (lookup_high2 s) as H2.
      pose proof (lookup_low1 s) as L1. pose proof (lookup_low2 s) as L2.
      rewrite Hempty, lookup_empty in H1, H2, L1, L2.
      unfold high1, high2, low1, low2 in *.
      split_and!.
      * by destruct (use_high1 s && gt0 _).
      * by destruct (use_high2 s && gt0 _).
      * by destruct (use_low1 s && gt0 _).
      * by destruct (use_low2 s && gt0 _).
    + intros (H1 & H2 & L1 & L2).
      unfold build_custom_ranges, high1, high2, low1, low2. cbv zeta.
      by rewrite H1, H2, L1, L2.
  - intros label e Hlookup.
    destruct (decide (label ∈ ["High 1"; "High 2"; "Low 1"; "Low 2"]))
      as [Hin|Hnin].
    + repeat (apply elem_of_cons in Hin as [->|Hin]).
      * rewrite lookup_high1 in Hlookup. unfold high1 in Hlookup.
        destruct (use_high1 s && gt0 _) eqn:Hact; [|done].
        apply slot_active in Hact as [Hu Hpos]. rewrite Hu in Hlookup.
        by simplify_eq/=.
      * rewrite lookup_high2 in Hlookup. unfold high2 in Hlookup.
        destruct (use_high2 s && gt0 _) eqn:Hact; [|done].
        apply slot_active in Hact as [Hu Hpos]. rewrite Hu in Hlookup.
        by simplify_eq/=.
      * rewrite lookup_low1 in Hlookup. unfold low1 in Hlookup.
        destruct (use_low1 s && gt0 _) eqn:Hact; [|done].
        apply slot_active in Hact as [Hu Hpos]. rewrite Hu in Hlookup.
        by simplify_eq/=.
      * rewrite lookup_low2 in Hlookup. unfold low2 in Hlookup.
        destruct (use_low2 s && gt0 _) eqn:Hact; [|done].
        apply slot_active in Hact as [Hu Hpos]. rewrite Hu in Hlookup.
        by simplify_eq/=.
      * by apply not_elem_of_nil in Hin.
    + by rewrite (lookup_other_label s label Hnin) in Hlookup.
Qed.

Lemma query_aws_api_answers (asset_id : string) (timeframes : list string)
    (report_date : string) (scope_days : Z)
    (custom_ranges : gmap string range_entry)
    (measurements : list measurement) (w : world) :
  let payload :=
    mk_payload asset_id timeframes report_date scope_days custom_ranges
               measurements in
  query_aws_api asset_id timeframes report_date scope_days custom_ranges
    measurements w =
  (Done (answer (post_reply payload)),
   mk_world (store w) (trace w ++ [requests_post API_ENDPOINT payload 30])).
Proof.
  intros payload. unfold query_aws_api, answer. fold payload.
  rewrite bind_run. unfold emit. cbv beta iota.
  destruct (post_reply payload) as [e|code text [e|r]];
    [reflexivity|..]; by destruct (code =? 200)%Z.
Qed.

(** X9. [query_aws_api] never raises and never stops the script. It
    posts exactly one request, to the endpoint, with a 30 second timeout
    and a body made of its six arguments. It reports success exactly when
    the reply has status 200 and a body that parses, and returns that
    body; for any other status it returns the status and the reply's
    text, and otherwise the text of the exception. *)
Theorem query_reports_success_only_on_200 (asset_id : string)
    (timeframes : list string) (report_date : string) (scope_days : Z)
    (custom_ranges : gmap string range_entry)
    (measurements : list measurement) (w : world) :
  let payload :=
    mk_payload asset_id timeframes report_date scope_days custom_ranges
               measurements in
  ∃ r,
    query_aws_api asset_id timeframes report_date scope_days custom_ranges
      measurements w =
    (Done r,
     mk_world (store w) (trace w ++ [requests_post API_ENDPOINT payload 30])) ∧
    (∀ result, r = QueryOk result ↔
               ∃ text, post_reply payload = Response 200 text (inr result)) ∧
    (∀ status_code text json,
       post_reply payload = Response status_code text json →
       status_code ≠ 200%Z →
       r = QueryFailed ("API returned status " +:+ pretty status_code +:+
                        ": " +:+ text)) ∧
    (∀ text e, post_reply payload = Response 200 text (inl e) →
               r = QueryFailed e) ∧
    (∀ e, post_reply payload = PostRaises e → r = QueryFailed e).
Proof.
  intros payload. exists (answer (post_reply payload)).
  split; [apply query_aws_api_answers|]. unfold answer. split_and!.
  - intros result. split.
    + destruct (post_reply payload) as [e|code text [e|r]]; [done|..].
      * by destruct (code =? 200)%Z.
      * destruct (code =? 200)%Z eqn:Hcode; [|done].
        apply Z.eqb_eq in Hcode as ->. intros [= ->]. eauto.
    + by intros [text ->].
  - intros code text json -> Hcode.
    apply Z.eqb_neq in Hcode. by rewrite Hcode.
  - by intros text e ->.
  - by intros e ->.
Qed.




End HandlerFacts.

(** ** Uploads *)

Lemma append_cons (c : ascii) (a b : string) :
  String c a +:+ b = String c (a +:+ b).
Proof. reflexivity. Qed.

Lemma chars_cons (c : ascii) (a : string) : chars (String c a) = c :: chars a.
Proof. reflexivity. Qed.

(** A text without a slash, followed by a slash, can be read back. *)
Lemma split_at_slash (a a' rest rest' : string) :
  slash ∉ chars a → slash ∉ chars a' →
  a +:+ "/" +:+ rest = a' +:+ "/" +:+ rest' → a = a' ∧ rest = rest'.
Proof.
  revert a'. induction a as [|c a IH]; intros [|c' a'] Ha Ha' Heq.
  - by simplify_eq/=.
  - rewrite chars_cons in Ha'. apply not_elem_of_cons in Ha' as [Hc _].
    rewrite append_cons in Heq. injection Heq as Hhead _.
    unfold slash in Hc. congruence.
  - rewrite chars_cons in Ha. apply not_elem_of_cons in Ha as [Hc _].
    rewrite append_cons in Heq. injection Heq as Hhead _.
    unfold slash in Hc. congruence.
  - rewrite !append_cons in Heq. injection Heq as -> Heq.
    rewrite chars_cons in Ha, Ha'.
    apply not_elem_of_cons in Ha as [_ Ha].
    apply not_elem_of_cons in Ha' as [_ Ha'].
    destruct (IH a' Ha Ha' Heq) as [-> ->]. done.
Qed.

Lemma s3_key_inj (asset_id timeframe feed_type filename : string)
    (asset_id' timeframe' feed_type' filename' : string) :
  slash ∉ chars asset_id → slash ∉ chars timeframe →
  slash ∉ chars feed_type →
  slash ∉ chars asset_id' → slash ∉ chars timeframe' →
  slash ∉ chars feed_type' →
  s3_key_of asset_id timeframe feed_type filename =
  s3_key_of asset_id' timeframe' feed_type' filename' →
  asset_id = asset_id' ∧ timeframe = timeframe' ∧ feed_type = feed_type' ∧
  filename = filename'.
Proof.
  intros Ha Ht Hf Ha' Ht' Hf' Heq. unfold s3_key_of in Heq.
  apply split_at_slash in Heq as [-> Heq]; [|done..].
  apply split_at_slash in Heq as [-> Heq]; [|done..].
  apply split_at_slash in Heq as [-> ->]; done.
Qed.

(** X12. The S3 key determines where a file came from: when the asset
    id, the timeframe and the feed type hold no slash, two uploads get the
    same key only if they agree on all three and on the file name. *)
Theorem s3_key_is_unambiguous
    (asset_id timeframe feed_type filename : string)
    (asset_id' timeframe' feed_type' filename' : string) :
  slash ∉ chars asset_id → slash ∉ chars timeframe →
  slash ∉ chars feed_type →
  slash ∉ chars asset_id' → slash ∉ chars timeframe' →
  slash ∉ chars feed_type' →
  s3_key_of asset_id timeframe feed_type filename =
  s3_key_of asset_id' timeframe' feed_type' filename' →
  asset_id = asset_id' ∧ timeframe = timeframe' ∧ feed_type = feed_type' ∧
  filename = filename'.
Proof. apply s3_key_inj. Qed.

Lemma s3_key_is_unambiguous_witness :
  s3_key_of "NQ" "3m" "small" "feed.csv" = "NQ/3m/small/feed.csv" ∧
  (s3_key_of "NQ" "3m" "small" "feed.csv" = s3_key_of "NQ" "3m" "big" "feed.csv" →
   "small" = "big").
Proof.
  split; [reflexivity|]. intros Heq.
  apply (s3_key_is_unambiguous "NQ" "3m" "small" "feed.csv"
           "NQ" "3m" "big" "feed.csv") in Heq;
    [|by apply char_not_in..].
  by destruct Heq as (_ & _ & Hfeed & _).
Defined.

Section UploadFacts.
Context {rt : Runtime} {s3 : Storage}.

Lemma upload_to_s3_run (file : uploaded_file) (asset_id timeframe feed_type : string)
    (w : upload_log) :
  let key := s3_key_of asset_id timeframe feed_type (upload_name file) in
  upload_to_s3 file asset_id timeframe feed_type w =
  match client_raises with
  | Some e => (Done (false, e), w)
  | None =>
      (Done match upload_raises S3_BUCKET key file with
            | Some e => (false, e)
            | None => (true, key)
            end,
       (w ++ [s3_upload_fileobj S3_BUCKET key file])%list)
  end.
Proof.
  intros key. unfold upload_to_s3, try_except, boto3_client, upload_fileobj.
  cbv zeta. fold key. rewrite !bind_run.
  destruct client_raises as [e|]; [reflexivity|].
  rewrite ret_run. cbv beta iota. rewrite !bind_run. unfold log.
  cbv beta iota. by destruct (upload_raises S3_BUCKET key file).
Qed.

Lemma show_errors_run (upload_errors : list string) (w : upload_log) :
  show_errors upload_errors w =
  (Done tt, (w ++ map (λ error, shown (st_error error)) upload_errors)%list).
Proof.
  revert w. induction upload_errors as [|error rest IH]; intros w; simpl.
  - by rewrite ret_run, app_nil_r.
  - rewrite bind_run. unfold log. cbv beta iota. rewrite IH.
    by rewrite <- app_assoc.
Qed.

Lemma s3_calls_app (w w' : upload_log) :
  s3_calls (w ++ w')%list = (s3_calls w ++ s3_calls w')%list.
Proof. apply omap_app. Qed.

Lemma shown_events_app (w w' : upload_log) :
  shown_events (w ++ w')%list = (shown_events w ++ shown_events w')%list.
Proof. apply omap_app. Qed.

Lemma chosen_cons_None (timeframe feed_type : string) (slots : list upload_slot) :
  chosen ((None, timeframe, feed_type) :: slots) = chosen slots.
Proof. reflexivity. Qed.

Lemma chosen_cons_Some (file : uploaded_file) (timeframe feed_type : string)
    (slots : list upload_slot) :
  chosen ((Some file, timeframe, feed_type) :: slots) =
  (file, timeframe, feed_type) :: chosen slots.
Proof. reflexivity. Qed.

Lemma upload_failure_eq (asset_id : string) (file : uploaded_file)
    (timeframe feed_type : string) :
  upload_failure asset_id (file, timeframe, feed_type) =
  match client_raises with
  | Some e => Some e
  | None =>
      upload_raises S3_BUCKET
        (s3_key_of asset_id timeframe feed_type (upload_name file)) file
  end.
Proof. reflexivity. Qed.

Lemma uploaded_keys_cons (asset_id : string)
    (c : uploaded_file * string * string)
    (cs : list (uploaded_file * string * string)) :
  uploaded_keys asset_id (c :: cs) =
  match upload_failure asset_id c with
  | None => chosen_key asset_id c :: uploaded_keys asset_id cs
  | Some _ => uploaded_keys asset_id cs
  end.
Proof.
  unfold uploaded_keys.
  change (omap ?f (c :: cs)) with
    (match f c with Some y => y :: omap f cs | None => omap f cs end).
  cbv beta. by destruct (upload_failure asset_id c).
Qed.

Lemma failure_messages_cons (asset_id : string)
    (c : uploaded_file * string * string)
    (cs : list (uploaded_file * string * string)) :
  failure_messages asset_id (c :: cs) =
  match upload_failure asset_id c with
  | Some e =>
      ("❌ Failed to upload " +:+ upload_name c.1.1 +:+ ": " +:+ e) ::
      failure_messages asset_id cs
  | None => failure_messages asset_id cs
  end.
Proof.
  unfold failure_messages.
  change (omap ?f (c :: cs)) with
    (match f c with Some y => y :: omap f cs | None => omap f cs end).
  cbv beta. by destruct (upload_failure asset_id c).
Qed.

Lemma attempted_calls_cons (asset_id : string)
    (c : uploaded_file * string * string)
    (cs : list (uploaded_file * string * string)) :
  attempted_calls asset_id (c :: cs) =
  match client_raises with
  | Some _ => []
  | None => (S3_BUCKET, chosen_key asset_id c, c.1.1) :: attempted_calls asset_id cs
  end.
Proof. unfold attempted_calls. by destruct client_raises. Qed.

(** The loop, whatever fails on the way. *)
Lemma upload_loop_run (asset_id : string) (slots : list upload_slot)
    (uploaded_count : nat) (upload_errors : list string) (w : upload_log) :
  ∃ w',
    upload_loop asset_id (uploaded_count, upload_errors) slots w =
      (Done (uploaded_count + length (uploaded_keys asset_id (chosen slots)),
             (upload_errors ++ failure_messages asset_id (chosen slots))%list),
       w') ∧
    s3_calls w' = (s3_calls w ++ attempted_calls asset_id (chosen slots))%list ∧
    shown_events w' =
      (shown_events w ++
       map (λ key, st_success ("✅ Uploaded: " +:+ key))
           (uploaded_keys asset_id (chosen slots)))%list.
Proof.
  revert uploaded_count upload_errors w.
  induction slots as [|[[[file|] timeframe] feed_type] slots IH];
    intros n errs w.
  - exists w. unfold attempted_calls. simpl.
    rewrite ret_run, Nat.add_0_r, !app_nil_r.
    split; [done|]. split; [|done].
    destruct client_raises; by rewrite app_nil_r.
  - simpl upload_loop. rewrite bind_run. unfold upload_step.
    rewrite bind_run, upload_to_s3_run. rewrite chosen_cons_Some.
    rewrite uploaded_keys_cons, failure_messages_cons, attempted_calls_cons.
    rewrite upload_failure_eq. cbv zeta. simpl chosen_key. simpl upload_name.
    set (key := s3_key_of asset_id timeframe feed_type (upload_name file)).
    destruct client_raises as [e|] eqn:Hclient.
    + cbv beta iota. rewrite ret_run. cbv beta iota.
      destruct (IH n (errs ++ ["❌ Failed to upload " +:+ upload_name file +:+
                               ": " +:+ e])%list w)
        as (w' & Hrun & Hcalls & Hshown).
      exists w'. rewrite Hrun, Hshown. split; [by rewrite <- app_assoc|].
      split; [|done]. rewrite Hcalls. unfold attempted_calls.
      by rewrite Hclient.
    + cbv beta iota.
      destruct (upload_raises S3_BUCKET key file) as [e|] eqn:Hup.
      * rewrite ret_run. cbv beta iota.
        destruct (IH n (errs ++ ["❌ Failed to upload " +:+ upload_name file +:+
                                 ": " +:+ e])%list
                    (w ++ [s3_upload_fileobj S3_BUCKET key file])%list)
          as (w' & Hrun & Hcalls & Hshown).
        exists w'. rewrite Hrun, Hcalls, Hshown.
        rewrite s3_calls_app, shown_events_app. simpl.
        rewrite <- !app_assoc, ?app_nil_r. done.
      * rewrite bind_run. unfold log. cbv beta iota. rewrite ret_run.
        destruct (IH (S n) errs
                    ((w ++ [s3_upload_fileobj S3_BUCKET key file]) ++
                     [shown (st_success ("✅ Uploaded: " +:+ key))])%list)
          as (w' & Hrun & Hcalls & Hshown).
        exists w'. rewrite Hrun, Hcalls, Hshown.
        rewrite !s3_calls_app, !shown_events_app. simpl.
        rewrite <- ?app_assoc, ?app_nil_r. simpl.
        split; [do 3 f_equal; lia|]. by rewrite <- ?app_assoc.
  - simpl upload_loop. rewrite bind_run. simpl upload_step. rewrite ret_run.
    cbv beta iota. rewrite chosen_cons_None. apply IH.
Qed.

End UploadFacts.

Section UploadTheorems.
Context {rt : Runtime} {s3 : Storage}.

Lemma uploads_partition (asset_id : string)
    (cs : list (uploaded_file * string * string)) :
  length (uploaded_keys asset_id cs) + length (failure_messages asset_id cs) =
  length cs.
Proof.
  induction cs as [|c cs IH]; [done|].
  rewrite uploaded_keys_cons, failure_messages_cons.
  destruct (upload_failure asset_id c); simpl; lia.
Qed.

Lemma s3_calls_of_errors (upload_errors : list string) :
  s3_calls (map (λ error, shown (st_error error)) upload_errors) = [].
Proof. by induction upload_errors. Qed.

Lemma shown_events_of_errors (upload_errors : list string) :
  shown_events (map (λ error, shown (st_error error)) upload_errors) =
  map st_error upload_errors.
Proof.
  induction upload_errors as [|e es IH]; [done|]. simpl. f_equal. exact IH.
Qed.

(** X13. One press of the upload button tries every chosen file once, in
    the order of the slots, whether or not earlier uploads failed, each
    under the key of its slot; without a client nothing is tried. Every
    chosen file ends up either among the uploads reported one by one or
    among the failures. The summary with the number of uploads is shown
    exactly when at least one succeeded, and the failure messages are
    shown last, in slot order. *)
Theorem upload_tries_every_chosen_file (asset_id : string)
    (slots : list upload_slot) (w : upload_log) :
  let uploaded := uploaded_keys asset_id (chosen slots) in
  let failed := failure_messages asset_id (chosen slots) in
  ∃ w',
    upload_files asset_id slots w = (Done tt, w') ∧
    s3_calls w' =
      (s3_calls w ++
       match client_raises with
       | Some _ => []
       | None =>
           map (λ c, (S3_BUCKET, chosen_key asset_id c, c.1.1)) (chosen slots)
       end)%list ∧
    shown_events w' =
      (shown_events w ++
       map (λ key, st_success ("✅ Uploaded: " +:+ key)) uploaded ++
       (if (0 <? length uploaded)%nat
        then [st_success ("✅ Successfully uploaded " +:+
                          pretty (length uploaded) +:+ " files!");
              st_info ("⏳ AWS Lambda is now processing your files in " +:+
                       "the background. Wait 10-30 seconds, then run " +:+
                       "your query.")]
        else []) ++
       map st_error failed)%list ∧
    length uploaded + length failed = length (chosen slots).
Proof.
  intros uploaded failed.
  destruct (upload_loop_run asset_id slots 0 [] w)
    as (w1 & Hrun & Hcalls & Hshown).
  fold uploaded in Hrun, Hshown. fold failed in Hrun.
  unfold upload_files. rewrite bind_run, Hrun. cbv beta iota.
  simpl (0 + _). simpl ([] ++ failed)%list. unfold upload_summary.
  rewrite bind_run.
  pose proof (s3_calls_of_errors failed) as Hnone.
  pose proof (shown_events_of_errors failed) as Herrs.
  destruct (0 <? length uploaded)%nat eqn:Hcount.
  - rewrite bind_run. unfold log. cbv beta iota. rewrite show_errors_run.
    eexists. split; [reflexivity|].
    rewrite !s3_calls_app, !shown_events_app, Hcalls, Hshown, Hnone, Herrs.
    unfold attempted_calls. simpl. rewrite !app_nil_r, <- !app_assoc.
    split; [done|]. split; [done|]. apply uploads_partition.
  - rewrite ret_run. cbv beta iota. rewrite show_errors_run.
    eexists. split; [reflexivity|].
    rewrite !s3_calls_app, !shown_events_app, Hcalls, Hshown, Hnone, Herrs.
    unfold attempted_calls. simpl. rewrite !app_nil_r, <- ?app_assoc.
    split; [done|]. split; [done|]. apply uploads_partition.
Qed.

End UploadTheorems.

Section UploadKeys.
Context {rt : Runtime} {s3 : Storage}.

Lemma NoDup_by_decide {A} `{EqDecision A} (l : list A) :
  bool_decide (NoDup l) = true → NoDup l.
Proof. apply bool_decide_eq_true_1. Qed.

Lemma NoDup_fmap_through {A B C} (f : A → B) (g : A → C) (l : list A) :
  (∀ x y, x ∈ l → y ∈ l → f x = f y → g x = g y) →
  NoDup (g <$> l) → NoDup (f <$> l).
Proof.
  induction l as [|x l IH]; intros Hfg Hg; [constructor|].
  rewrite fmap_cons in *. apply NoDup_cons in Hg as [Hx Hg].
  apply NoDup_cons. split.
  - intros (y & Hxy & Hy)%list_elem_of_fmap. apply Hx.
    rewrite (Hfg x y); [by apply list_elem_of_fmap_2|left|by right|done].
  - apply IH; [|done]. intros y z Hy Hz. apply Hfg; by right.
Qed.

Lemma chosen_slots_sublist (slots : list upload_slot) :
  (λ c : uploaded_file * string * string, (c.1.2, c.2)) <$> chosen slots
  `sublist_of` (λ slot : upload_slot, (slot.1.2, slot.2)) <$> slots.
Proof.
  induction slots as [|[[[file|] timeframe] feed_type] slots IH].
  - constructor.
  - rewrite chosen_cons_Some, !fmap_cons. by constructor.
  - rewrite chosen_cons_None, fmap_cons. by constructor.
Qed.

(** X14. Within one press the chosen files get pairwise different S3
    keys, whatever their names: two files never land on the same object,
    provided the asset id holds no slash. *)
Theorem chosen_files_get_distinct_keys (asset_id : string)
    (small_3m_file small_5m_file small_15m_file
     big_3m_file big_5m_file big_15m_file : option uploaded_file) :
  slash ∉ chars asset_id →
  NoDup (chosen_key asset_id <$>
           chosen (files_to_upload small_3m_file small_5m_file small_15m_file
                     big_3m_file big_5m_file big_15m_file)).
Proof.
  intros Hasset.
  set (slots := files_to_upload _ _ _ _ _ _).
  pose proof (chosen_slots_sublist slots) as Hsub.
  assert (NoDup ((λ slot : upload_slot, (slot.1.2, slot.2)) <$> slots))
    as Hids by (by apply NoDup_by_decide).
  apply (NoDup_fmap_through _ (λ c, (c.1.2, c.2))).
  2:{ by eapply sublist_NoDup. }
  assert (∀ c, c ∈ chosen slots →
               (slash ∉ chars c.1.2) ∧ (slash ∉ chars c.2)) as Hclean.
  { intros c Hc.
    assert ((c.1.2, c.2) ∈ (λ slot : upload_slot, (slot.1.2, slot.2)) <$> slots)
      as Hid.
    { eapply sublist_subseteq; [exact Hsub|].
      by apply (list_elem_of_fmap_2 (λ c : uploaded_file * string * string,
                                       (c.1.2, c.2))). }
    simpl in Hid.
    repeat (apply elem_of_cons in Hid as [[= -> ->]|Hid];
            [split; by apply char_not_in|]).
    by apply not_elem_of_nil in Hid. }
  intros [[f t] fd] [[f' t'] fd'] Hc Hc' Hkey. simpl in *.
  destruct (Hclean _ Hc) as [Ht Hfd]. destruct (Hclean _ Hc') as [Ht' Hfd'].
  simpl in *.
  destruct (s3_key_inj _ _ _ _ _ _ _ _ Hasset Ht Hfd Hasset Ht' Hfd' Hkey)
    as (_ & -> & -> & _).
  done.
Qed.

End UploadKeys.

(** ** The further properties at concrete inputs *)

Lemma demo_arrivals_accepted : export_error [] "Day 1" demo_arrivals = None.
Proof. reflexivity. Qed.

Lemma written_sheet_shape_witness :
  let w := mk_world (rt := demo_runtime) [demo_arrivals] [] in
  store w !! 0 = Some demo_arrivals ∧
  NoDup (columns demo_arrivals) ∧
  df_empty demo_arrivals = false ∧
  export_error [] "Day 1" demo_arrivals = None ∧
  ∃ written created,
    export_group [] ("Day 1", Frame 0) w =
      (Done [mk_worksheet "Day_1" [written]],
       mk_world (demo_arrivals :: created) []) ∧
    columns (sheet_table written) = ["Arrival"; "Arrival_datetime"] ∧
    length (rows (sheet_table written)) = 3.
Proof.
  intros w. split; [reflexivity|]. split; [exact demo_arrivals_labels|].
  split; [reflexivity|]. split; [exact demo_arrivals_accepted|].
  destruct (written_sheet_shape [] "Day 1" 0 demo_arrivals w eq_refl
              demo_arrivals_labels eq_refl demo_arrivals_accepted)
    as (written & created & Hrun & Hcols & _ & Hrows & _).
  exists written, created.
  split; [exact Hrun|]. split; [exact Hcols|exact Hrows].
Defined.

Lemma written_sheet_keeps_columns_witness :
  let w := mk_world (rt := demo_runtime) [demo_arrivals] [] in
  store w !! 0 = Some demo_arrivals ∧
  df_empty demo_arrivals = false ∧
  rectangular demo_arrivals ∧
  NoDup (columns demo_arrivals) ∧
  export_error [] "Day 1" demo_arrivals = None ∧
  "Arrival_datetime" ≠ "Group" ∧ "Arrival_datetime" ≠ "Arrival" ∧
  ∃ written created,
    export_group [] ("Day 1", Frame 0) w =
      (Done [mk_worksheet "Day_1" [written]],
       mk_world (demo_arrivals :: created) []) ∧
    get_column "Arrival_datetime" (sheet_table written) =
      Some [txt "2024-03-05T18:00:00"; txt "2024-03-06"; txt "soon"].
Proof.
  intros w.
  assert ("Arrival_datetime" ≠ "Group") as Hk1 by discriminate.
  assert ("Arrival_datetime" ≠ "Arrival") as Hk2 by discriminate.
  split; [reflexivity|]. split; [reflexivity|].
  split; [exact demo_arrivals_rectangular|].
  split; [exact demo_arrivals_labels|].
  split; [exact demo_arrivals_accepted|].
  split; [exact Hk1|]. split; [exact Hk2|].
  destruct (written_sheet_keeps_columns [] "Day 1" 0 demo_arrivals w
              "Arrival_datetime" eq_refl eq_refl demo_arrivals_rectangular
              demo_arrivals_labels demo_arrivals_accepted Hk1 Hk2)
    as (written & created & Hrun & Hcol).
  exists written, created. split; [exact Hrun|exact Hcol].
Defined.

Lemma written_sheet_date_column_witness :
  let w := mk_world (rt := demo_runtime) [demo_arrivals] [] in
  store w !! 0 = Some demo_arrivals ∧
  df_empty demo_arrivals = false ∧
  rectangular demo_arrivals ∧
  NoDup (columns demo_arrivals) ∧
  export_error [] "Day 1" demo_arrivals = None ∧
  ∃ written created,
    export_group [] ("Day 1", Frame 0) w =
      (Done [mk_worksheet "Day_1" [written]],
       mk_world (demo_arrivals :: created) []) ∧
    is_Some (sheet_date_col written).
Proof.
  intros w. split; [reflexivity|]. split; [reflexivity|].
  split; [exact demo_arrivals_rectangular|].
  split; [exact demo_arrivals_labels|].
  split; [exact demo_arrivals_accepted|].
  destruct (written_sheet_date_column [] "Day 1" 0 demo_arrivals w
              eq_refl eq_refl demo_arrivals_rectangular demo_arrivals_labels
              demo_arrivals_accepted)
    as (written & created & Hrun & Hdate & _).
  exists written, created. split; [exact Hrun|].
  apply Hdate. left. by apply label_in.
Defined.




Lemma reply_values_reach_sheet_witness :
  let s := demo_submission None true [] in
  let table := frame_of_records (rt := demo_runtime) sort_example in
  (0 < default 0 (r_count demo_result))%Z ∧
  df_empty table = false ∧
  export_error [] "Grp_All" table = None ∧
  ∃ written,
    downloads (trace (show_result (svc := demo_svc) s demo_result empty_world).2)
      = [[mk_worksheet "Grp_All" [written]]] ∧
    get_column "Output" (sheet_table written) = Some [num 2; num 1].
Proof.
  intros s table.
  assert (0 < default 0 (r_count demo_result))%Z as Hcount by reflexivity.
  assert (export_error [] "Grp_All" table = None) as Hok by reflexivity.
  split; [exact Hcount|]. split; [reflexivity|]. split; [exact Hok|].
  assert (∃ r, r ∈ sort_example ∧ "Output" ∈ r.*1) as Hkey.
  { eexists. split; [left|]. by apply label_in. }
  assert ("Output" ≠ "Group") as Hk1 by discriminate.
  assert ("Output" ≠ "Arrival") as Hk2 by discriminate.
  destruct (reply_values_reach_sheet (svc := demo_svc) s demo_result
              empty_world "Output" Hcount eq_refl Hok Hkey Hk1 Hk2)
    as (written & Hdown & _ & _ & Hcol).
  exists written. split; [exact Hdown|exact Hcol].
Defined.

Lemma demo_measurements_rectangular : rectangular demo_measurements.
Proof. repeat constructor. Qed.

Lemma measurements_follow_the_columns_witness :
  rectangular demo_measurements ∧
  ∃ measurements,
    load_measurements (Workbook demo_measurements) empty_world =
      (Done measurements, mk_world [] [st_info "Loaded 2 measurements"]) ∧
    M_value <$> measurements = [num 5; num 7] ∧
    M_name <$> measurements = [txt "M5"; txt "M7"].
Proof.
  split; [exact demo_measurements_rectangular|].
  destruct (measurements_follow_the_columns demo_measurements empty_world
              demo_measurements_rectangular) as (measurements & Hrun & Hcols).
  pose proof (load_measurements_run demo_measurements empty_world) as Hrun'.
  assert (measurements = omap normalized (iterrows demo_measurements)) as ->
    by congruence.
  exists (omap normalized (iterrows demo_measurements)).
  split; [exact Hrun|]. split; reflexivity.
Defined.

Lemma custom_ranges_empty_iff_witness :
  build_custom_ranges (demo_submission None false ["3m"]) = ∅ ∧
  build_custom_ranges (demo_submission None true ["3m"]) ≠ ∅.
Proof.
  destruct (custom_ranges_empty_iff (demo_submission None false ["3m"]))
    as [Hoff _].
  destruct (custom_ranges_empty_iff (demo_submission None true ["3m"]))
    as [Hon _].
  split.
  - apply Hoff. split_and!; by intros [Huse _].
  - intros Hempty. apply Hon in Hempty as (Hhigh1 & _).
    apply Hhigh1. split; reflexivity.
Defined.

Lemma query_reports_success_only_on_200_witness :
  ∃ r,
    query_aws_api (svc := demo_svc) "NQ" ["3m"] "2024-03-05" 20 ∅ []
      empty_world =
    (Done r,
     mk_world []
       [requests_post API_ENDPOINT
          (mk_payload "NQ" ["3m"] "2024-03-05" 20 ∅ []) 30]) ∧
    r = QueryOk demo_result.
Proof.
  destruct (query_reports_success_only_on_200 (svc := demo_svc) "NQ" ["3m"]
              "2024-03-05" 20 ∅ [] empty_world) as (r & Hrun & Hok & _).
  exists r. split; [exact Hrun|]. apply Hok. by exists "".
Defined.



Lemma upload_tries_every_chosen_file_witness :
  let slots :=
    files_to_upload (Some feed_file) None (Some bad_file) None None
                    (Some feed_file) in
  ∃ w',
    upload_files (rt := demo_runtime) (s3 := demo_storage) "NQ" slots [] =
      (Done tt, w') ∧
    s3_calls w' =
      [(S3_BUCKET, "NQ/3m/small/feed.csv", feed_file);
       (S3_BUCKET, "NQ/15m/small/bad.csv", bad_file);
       (S3_BUCKET, "NQ/15m/big/feed.csv", feed_file)] ∧
    shown_events w' =
      [st_success "✅ Uploaded: NQ/3m/small/feed.csv";
       st_success "✅ Uploaded: NQ/15m/big/feed.csv";
       st_success "✅ Successfully uploaded 2 files!";
       st_info ("⏳ AWS Lambda is now processing your files in " +:+
                "the background. Wait 10-30 seconds, then run " +:+
                "your query.");
       st_error "❌ Failed to upload bad.csv: AccessDenied"].
Proof.
  intros slots.
  destruct (upload_tries_every_chosen_file (rt := demo_runtime)
              (s3 := demo_storage) "NQ" slots [])
    as (w' & Hrun & Hcalls & Hshown & _).
  exists w'. split; [exact Hrun|]. split; [exact Hcalls|exact Hshown].
Defined.

Lemma chosen_files_get_distinct_keys_witness :
  (slash ∉ chars "NQ") ∧
  NoDup ["NQ/3m/small/feed.csv"; "NQ/3m/big/feed.csv"].
Proof.
  assert (slash ∉ chars "NQ") as Hasset by (by apply char_not_in).
  split; [exact Hasset|].
  exact (chosen_files_get_distinct_keys "NQ" (Some feed_file) None None
           (Some feed_file) None None Hasset).
Defined.
